(** * volt-agent-playwright: recording sessions, test generation and the
      shared browser

    A shallow embedding of

    - [src/tools/codegen/generator.ts]      (class [PlaywrightGenerator]),
    - [src/tools/browser/playwrightToolHandler.ts]
                                             ([ensureBrowser], [resetBrowserState]),
    - the [closeBrowserTool] of the navigation tools,

    followed by the properties of the specification that concern them.

    Conventions.  JavaScript objects used as dictionaries are finite maps
    ([gmap string _]); arrays are lists; a function that may throw returns
    an [outcome]; code that reads or writes the session registry, the file
    system or the console runs in the state monad [M] over [World]; the
    readings of [Date.now()] and [uuidv4()] are passed in as arguments. *)

From Stdlib Require Import ZArith String Ascii List Bool Lia.
From stdpp Require Import base option list strings gmap fin_maps pretty.

#[local] Set Warnings "-register-all".
#[local] Open Scope Z_scope.
#[local] Open Scope string_scope.

(* ===================================================================== *)
(** ** JavaScript values *)
(* ===================================================================== *)

Module JS.

(** Numbers: the safe integers ([Int z] with [z] of magnitude below
    2^53, which JavaScript holds exactly and prints digit for digit)
    and the three non-finite ones.  Fractions, the negative zero and
    the larger magnitudes, which JavaScript rounds and prints with an
    exponent, are left out: time values are safe integers, and no
    property below turns on the digits of another number. *)
Inductive number : Type :=
| Int (z : Z)
| NaN
| Infinity
| NegInfinity.

(** The values an action parameter or result can hold ([unknown] in the
    source): the primitives, arrays, and data objects, the values that
    tool arguments are made of.  An object keeps its properties in
    insertion order, as JavaScript does, and its property values are
    values again: a property named [toString] therefore holds data, not
    a function.  Symbols and functions are outside the model. *)
Inductive value : Type :=
| VUndefined
| VNull
| VBool (b : bool)
| VNum (n : number)
| VStr (s : string)
| VArr (items : list value)
| VObj (fields : list (string * value)).

(** ToBoolean: the falsy values are [undefined], [null], [false], [0],
    [NaN] and the empty string. *)
Definition truthy (v : value) : bool :=
  match v with
  | VUndefined | VNull => false
  | VBool b => b
  | VNum (Int z) => negb (Z.eqb z 0)
  | VNum NaN => false
  | VNum _ => true
  | VStr s => negb (String.eqb s EmptyString)
  | VArr _ | VObj _ => true
  end.

Definition number_to_string (n : number) : string :=
  match n with
  | Int z => pretty z
  | NaN => "NaN"
  | Infinity => "Infinity"
  | NegInfinity => "-Infinity"
  end.

(** [Array.prototype.join] on already converted elements. *)
Fixpoint join (sep : string) (parts : list string) : string :=
  match parts with
  | [] => EmptyString
  | [p] => p
  | p :: rest => p +:+ sep +:+ join sep rest
  end.

(** What a function call produces: a value, or a thrown [Error] with its
    message. *)
Inductive outcome (A : Type) : Type :=
| Returned (a : A)
| Thrown (message : string).
Arguments Returned {A} a.
Arguments Thrown {A} message.

(** [const x = o; k]: the rest runs when [o] has returned. *)
Definition and_then {A B} (o : outcome A) (k : A -> outcome B) : outcome B :=
  match o with
  | Returned a => k a
  | Thrown e => Thrown e
  end.

Notation "'val' x <- o ; k" := (and_then o (fun x => k))
  (at level 10, x name, o at level 100, k at level 200).

(** The results of all, or the first error. *)
Fixpoint collect {A} (l : list (outcome A)) : outcome (list A) :=
  match l with
  | [] => Returned []
  | o :: rest =>
      val a <- o;
      val others <- collect rest;
      Returned (a :: others)
  end.

(** The object has a property [key] of its own. *)
Definition has_own (key : string) (fields : list (string * value)) : bool :=
  existsb (fun p => String.eqb (fst p) key) fields.

(** The message of the [TypeError] that ToPrimitive throws. *)
Definition not_primitive : string := "Cannot convert object to primitive value".

(** ToString, which a template literal applies to each [${...}].  An
    array is joined with commas, [null] and [undefined] elements giving
    the empty string.  An object is rendered by the inherited
    [Object.prototype.toString], unless a property [toString] of its own
    shadows it: that property is not callable, the [valueOf] that is
    tried next (its own, not callable, or the inherited one, which
    returns the object) gives no primitive either, and the conversion
    throws a [TypeError]. *)
Fixpoint to_string (v : value) : outcome string :=
  match v with
  | VUndefined => Returned "undefined"
  | VNull => Returned "null"
  | VBool true => Returned "true"
  | VBool false => Returned "false"
  | VNum n => Returned (number_to_string n)
  | VStr s => Returned s
  | VArr items =>
      val parts <- collect (map (fun x => match x with
                                          | VUndefined | VNull => Returned EmptyString
                                          | _ => to_string x
                                          end) items);
      Returned (join "," parts)
  | VObj fields =>
      if has_own "toString" fields then Thrown not_primitive
      else Returned "[object Object]"
  end.

(** Induction on values that reaches the items of an array and the
    properties of an object. *)
Section value_induction.
Variable P : value -> Prop.
Hypothesis Hundefined : P VUndefined.
Hypothesis Hnull : P VNull.
Hypothesis Hbool : forall b, P (VBool b).
Hypothesis Hnum : forall n, P (VNum n).
Hypothesis Hstr : forall s, P (VStr s).
Hypothesis Harr : forall items, Forall P items -> P (VArr items).
Hypothesis Hobj : forall fields, Forall (fun p => P (snd p)) fields -> P (VObj fields).

Fixpoint value_nested_ind (v : value) : P v :=
  match v with
  | VUndefined => Hundefined
  | VNull => Hnull
  | VBool b => Hbool b
  | VNum n => Hnum n
  | VStr s => Hstr s
  | VArr items =>
      Harr items
        ((fix go (l : list value) : Forall P l :=
            match l with
            | [] => @List.Forall_nil _ P
            | x :: rest => @List.Forall_cons _ P x rest (value_nested_ind x) (go rest)
            end) items)
  | VObj fields =>
      Hobj fields
        ((fix go (l : list (string * value)) : Forall (fun p => P (snd p)) l :=
            match l with
            | [] => @List.Forall_nil _ (fun p => P (snd p))
            | x :: rest =>
                @List.Forall_cons _ (fun p => P (snd p)) x rest
                  (value_nested_ind (snd x)) (go rest)
            end) fields)
  end.
End value_induction.

(** Property read [o.k] on a dictionary: a missing key reads [undefined]. *)
Definition get (o : gmap string value) (k : string) : value :=
  default VUndefined (o !! k).

(** Characters that a Rocq string literal cannot hold. *)
Definition nl : string := String "010"%char EmptyString.
Definition dq : string := String "034"%char EmptyString.

End JS.

(* ===================================================================== *)
(** ** The code generator: data model *)
(* ===================================================================== *)

Module Codegen.
Import JS.

(** [Required<CodegenOptions>]: the options a generator instance holds. *)
Record RequiredOptions : Type := {
  outputPath : string;
  testNamePrefix : string;
  includeComments : bool
}.

(** [PlaywrightGenerator.DEFAULT_OPTIONS]; the exported singleton
    [playwrightGenerator] is built from them. *)
Definition DEFAULT_OPTIONS : RequiredOptions :=
  {| outputPath := "tests"; testNamePrefix := "VoltTest"; includeComments := true |}.

Definition DEFAULT_SESSIONS_DIR : string := "sessions".

(** A [CodegenOptions] literal handed to [createSession].  Each key is
    either missing ([None]) or present, and a present key may hold
    [undefined] ([Some None]): the object spread copies it all the same. *)
Record CodegenOptions : Type := {
  arg_outputPath : option (option string);
  arg_testNamePrefix : option (option string);
  arg_includeComments : option (option bool)
}.

(** The options stored in a session, as property reads see them
    ([None] is [undefined]). *)
Record SessionOptions : Type := {
  s_outputPath : option string;
  s_testNamePrefix : option string;
  s_includeComments : option bool
}.

Record CodegenAction : Type := {
  toolName : string;
  parameters : gmap string value;
  timestamp : Z;
  result : value
}.

Record CodegenSession : Type := {
  id : string;
  actions : list CodegenAction;
  startTime : Z;
  endTime : option Z;
  options : SessionOptions
}.

(** [imports] is a [Set] in the source; [Array.from] lists it in insertion
    order, so the model keeps that order. *)
Record PlaywrightTestCase : Type := {
  name : string;
  steps : list string;
  imports : list string
}.

Record CodegenResult : Type := {
  testCode : string;
  filePath : string;
  sessionId : string
}.

(** *** JSON documents *)

(** A parsed JSON text.  [JSON.stringify] and [JSON.parse] are modelled
    on these trees: printing a tree and reading the text back gives the
    tree again, so a file written by [JSON.stringify] is identified with
    the tree it prints. *)
Inductive json : Type :=
| JNull
| JBool (b : bool)
| JNumber (z : Z)
| JString (s : string)
| JArray (items : list json)
| JObject (members : list (string * json)).

Inductive content : Type :=
| Text (s : string)
| Json (doc : json).

(** *** The world the generator runs in *)

Inductive level : Type := Log | Warn | Error.

Record World : Type := {
  activeSessions : gmap string CodegenSession;
  files : gmap string content;
  directories : gset string;
  console : list (level * string)
}.

Definition M (A : Type) : Type := World -> outcome A * World.

Definition ret {A} (a : A) : M A := fun w => (Returned a, w).
Definition throw {A} (message : string) : M A := fun w => (Thrown message, w).
Definition bind {A B} (m : M A) (f : A -> M B) : M B :=
  fun w => match m w with
           | (Returned a, w') => f a w'
           | (Thrown e, w') => (Thrown e, w')
           end.
(** [try { m } catch (error) { handler error.message }] *)
Definition try_catch {A} (m : M A) (handler : string -> M A) : M A :=
  fun w => match m w with
           | (Returned a, w') => (Returned a, w')
           | (Thrown e, w') => handler e w'
           end.
Definition lift {A} (o : outcome A) : M A := fun w => (o, w).

Notation "'do' x <- m ; k" := (bind m (fun x => k))
  (at level 10, x name, m at level 100, k at level 200).
Notation "'run' m ; k" := (bind m (fun _ => k))
  (at level 10, m at level 100, k at level 200).

Definition console_write (l : level) (text : string) : M unit :=
  fun w => (Returned tt,
            {| activeSessions := activeSessions w; files := files w;
               directories := directories w;
               console := console w ++ [(l, text)] |}).

Definition sessions_get (sessionId : string) : M (option CodegenSession) :=
  fun w => (Returned (activeSessions w !! sessionId), w).

Definition sessions_set (sessionId : string) (s : CodegenSession) : M unit :=
  fun w => (Returned tt,
            {| activeSessions := <[sessionId := s]> (activeSessions w);
               files := files w; directories := directories w;
               console := console w |}).

Definition sessions_delete (sessionId : string) : M bool :=
  fun w => (Returned (bool_decide (is_Some (activeSessions w !! sessionId))),
            {| activeSessions := delete sessionId (activeSessions w);
               files := files w; directories := directories w;
               console := console w |}).

(** Node's [path] functions, which the generator calls and does not
    define. *)
Class NodePath : Type := {
  path_join : string -> string -> string;
  path_resolve : string -> string -> string;
  path_dirname : string -> string
}.

(** [fs.mkdir(dir, { recursive: true })], [fs.writeFile], [fs.readFile]
    on a file system that has room, grants access and accepts the names
    it is given.  A directory is known by the path that names it, and
    [directories] holds the directories that exist.  [writeFile] creates
    the file, not the directory it is to lie in: when that directory
    does not exist the write is rejected with [ENOENT]. *)
Definition fs_mkdir (dir : string) : M unit :=
  fun w => (Returned tt,
            {| activeSessions := activeSessions w; files := files w;
               directories := {[dir]} ∪ directories w;
               console := console w |}).

Definition fs_writeFile `{NodePath} (path : string) (data : content) : M unit :=
  fun w => if bool_decide (path_dirname path ∈ directories w) then
             (Returned tt,
              {| activeSessions := activeSessions w;
                 files := <[path := data]> (files w);
                 directories := directories w; console := console w |})
           else
             (Thrown ("ENOENT: no such file or directory, open '" +:+ path +:+ "'"), w).

Definition fs_readFile (path : string) : M content :=
  fun w => match files w !! path with
           | Some c => (Returned c, w)
           | None =>
               (Thrown ("ENOENT: no such file or directory, open '" +:+ path +:+ "'"), w)
           end.

(* ===================================================================== *)
(** ** Dates: [new Date(t).toISOString()] *)
(* ===================================================================== *)

Definition msPerDay : Z := 86400000.

(** A time value is a date when it lies within 100,000,000 days of the
    epoch; [toISOString] throws a [RangeError] on any other. *)
Definition valid_time (t : Z) : bool :=
  (-8640000000000000 <=? t)%Z && (t <=? 8640000000000000)%Z.

Definition utc_day (t : Z) : Z := t / msPerDay.

(** Year, month and day of the proleptic Gregorian calendar for a day
    number counted from 1970-01-01. *)
Definition civil_from_days (days : Z) : Z * Z * Z :=
  let z := days + 719468 in
  let era := z / 146097 in
  let doe := z - era * 146097 in
  let yoe := (doe - doe / 1460 + doe / 36524 - doe / 146096) / 365 in
  let doy := doe - (365 * yoe + yoe / 4 - yoe / 100) in
  let mp := (5 * doy + 2) / 153 in
  let d := doy - (153 * mp + 2) / 5 + 1 in
  let m := if (mp <? 10)%Z then mp + 3 else mp - 9 in
  let y := yoe + era * 400 + (if (m <=? 2)%Z then 1 else 0) in
  (y, m, d).

Definition digit (d : Z) : ascii := ascii_of_nat (48 + Z.to_nat (d mod 10)).

(** The last [width] decimal digits of [n], zero padded. *)
Fixpoint pad (width : nat) (n : Z) : string :=
  match width with
  | O => EmptyString
  | S w => pad w (n / 10) +:+ String (digit n) EmptyString
  end.

Definition iso_year (y : Z) : string :=
  if (0 <=? y)%Z && (y <=? 9999)%Z then pad 4 y
  else (if (y <? 0)%Z then "-" else "+") +:+ pad 6 (Z.abs y).

Definition iso_date (days : Z) : string :=
  let '(y, m, d) := civil_from_days days in
  iso_year y +:+ "-" +:+ pad 2 m +:+ "-" +:+ pad 2 d.

Definition iso_time (ms : Z) : string :=
  pad 2 (ms / 3600000) +:+ ":" +:+ pad 2 (ms / 60000 mod 60) +:+ ":" +:+
  pad 2 (ms / 1000 mod 60) +:+ "." +:+ pad 3 (ms mod 1000) +:+ "Z".

Definition toISOString (t : Z) : outcome string :=
  if valid_time t then
    Returned (iso_date (utc_day t) +:+ "T" +:+ iso_time (t mod msPerDay))
  else Thrown "Invalid time value".

(** [s.split(sep)[0]]: the text before the first [sep], all of [s] when
    there is none. *)
Fixpoint split_first (sep : ascii) (s : string) : string :=
  match s with
  | EmptyString => EmptyString
  | String c rest =>
      if Ascii.eqb c sep then EmptyString else String c (split_first sep rest)
  end.

(* ===================================================================== *)
(** ** The step translator *)
(* ===================================================================== *)

(** The text [`${v}`]: the value between two backticks. *)
Definition backticks (v : value) : outcome string :=
  val text <- to_string v;
  Returned ("`" +:+ text +:+ "`").

(** The literal ['""'] every generator falls back to. *)
Definition EMPTY : string := dq +:+ dq.

Definition generateNavigateStep (parameters : gmap string value) : outcome string :=
  val url <- (if truthy (get parameters "url")
              then backticks (get parameters "url") else Returned EMPTY);
  Returned ("await page.goto(" +:+ url +:+ ");").

Definition generateGoBackStep (parameters : gmap string value) : string :=
  "await page.goBack();".

Definition generateGoForwardStep (parameters : gmap string value) : string :=
  "await page.goForward();".

Definition generateRefreshPageStep (parameters : gmap string value) : string :=
  "await page.reload();".

Definition generateCloseBrowserStep : string :=
  "await browser.close();".

Definition generateFillStep (parameters : gmap string value) : outcome string :=
  val selector <- (if truthy (get parameters "selector")
                   then backticks (get parameters "selector") else Returned EMPTY);
  val text <- (if truthy (get parameters "text")
               then backticks (get parameters "text") else Returned EMPTY);
  Returned ("await page.fill(" +:+ selector +:+ ", " +:+ text +:+ ");").

Definition generateClickStep (parameters : gmap string value) : outcome string :=
  val selector <- (if truthy (get parameters "selector")
                   then backticks (get parameters "selector") else Returned EMPTY);
  Returned ("await page.click(" +:+ selector +:+ ");").

Definition generateGetTextStep (parameters : gmap string value) : outcome string :=
  val selector <- (if truthy (get parameters "selector")
                   then backticks (get parameters "selector") else Returned EMPTY);
  Returned ("const text = await page.textContent(" +:+ selector +:+ ");").

Definition generateSelectStep (parameters : gmap string value) : outcome string :=
  val selector <- (if truthy (get parameters "selector")
                   then backticks (get parameters "selector") else Returned EMPTY);
  val value <- (if truthy (get parameters "value")
                then backticks (get parameters "value") else Returned EMPTY);
  Returned ("await page.selectOption(" +:+ selector +:+ ", " +:+ value +:+ ");").

Definition generateCheckStep (parameters : gmap string value) : outcome string :=
  val selector <- (if truthy (get parameters "selector")
                   then backticks (get parameters "selector") else Returned EMPTY);
  Returned ("await page.check(" +:+ selector +:+ ");").

Definition generateUncheckStep (parameters : gmap string value) : outcome string :=
  val selector <- (if truthy (get parameters "selector")
                   then backticks (get parameters "selector") else Returned EMPTY);
  Returned ("await page.uncheck(" +:+ selector +:+ ");").

Definition generateHoverStep (parameters : gmap string value) : outcome string :=
  val selector <- (if truthy (get parameters "selector")
                   then backticks (get parameters "selector") else Returned EMPTY);
  Returned ("await page.hover(" +:+ selector +:+ ");").

Definition generatePressKeyStep (parameters : gmap string value) : outcome string :=
  val key <- (if truthy (get parameters "key")
              then backticks (get parameters "key") else Returned EMPTY);
  Returned ("await page.press(" +:+ key +:+ ");").

Definition generateWaitForElementStep (parameters : gmap string value) : outcome string :=
  val selector <- (if truthy (get parameters "selector")
                   then backticks (get parameters "selector") else Returned EMPTY);
  Returned ("await page.waitForSelector(" +:+ selector +:+ ");").

Definition generateScreenshotStep (parameters : gmap string value) : outcome string :=
  val path <- (if truthy (get parameters "path")
               then backticks (get parameters "path") else Returned EMPTY);
  Returned ("await page.screenshot({ path: " +:+ path +:+ " });").

Definition generateSaveToFileStep (parameters : gmap string value) : outcome string :=
  val data <- (if truthy (get parameters "data")
               then backticks (get parameters "data") else Returned EMPTY);
  val filePath <- (if truthy (get parameters "filePath")
                   then backticks (get parameters "filePath") else Returned EMPTY);
  Returned ("await fs.writeFile(" +:+ filePath +:+ ", " +:+ data +:+ ");").

Definition generateExportPdfStep (parameters : gmap string value) : outcome string :=
  val path <- (if truthy (get parameters "path")
               then backticks (get parameters "path") else Returned EMPTY);
  Returned ("await page.pdf({ path: " +:+ path +:+ " });").

Definition generateExtractDataStep (parameters : gmap string value) : string :=
  "// Extract data logic here".

Definition generateExpectResponseStep (parameters : gmap string value) : outcome string :=
  val url <- (if truthy (get parameters "url")
              then backticks (get parameters "url") else Returned EMPTY);
  Returned ("await page.waitForResponse(response => response.url() === " +:+ url +:+ ");").

Definition generateAssertResponseStep (parameters : gmap string value) : outcome string :=
  val url <- (if truthy (get parameters "url")
              then backticks (get parameters "url") else Returned EMPTY);
  Returned ("const response = await page.waitForResponse(" +:+ url +:+ ");").

Definition generateCustomUserAgentStep (parameters : gmap string value) : outcome string :=
  val userAgent <- (if truthy (get parameters "userAgent")
                    then backticks (get parameters "userAgent") else Returned EMPTY);
  Returned ("await context.setUserAgent(" +:+ userAgent +:+ ");").

Definition generateGetUserAgentStep : string :=
  "const userAgent = await context.userAgent();".

Definition generateGetVisibleTextStep (parameters : gmap string value) : outcome string :=
  val selector <- (if truthy (get parameters "selector")
                   then backticks (get parameters "selector") else Returned EMPTY);
  Returned ("const visibleText = await page.locator(" +:+ selector +:+ ").textContent();").

Definition generateGetVisibleHtmlStep (parameters : gmap string value) : outcome string :=
  val selector <- (if truthy (get parameters "selector")
                   then backticks (get parameters "selector") else Returned EMPTY);
  Returned ("const visibleHtml = await page.locator(" +:+ selector +:+ ").innerHTML();").

Definition generateListInteractiveElementsStep : string :=
  "const elements = await page.$$('a, button, [tabindex], [contenteditable]);".

(** [return o] in a function whose result is a line or [null]. *)
Definition returning (o : outcome string) : M (option string) :=
  do line <- lift o;
  ret (Some line).

(** One [case] label of the [switch]. *)
Definition is_case (toolName label : string) : bool := String.eqb toolName label.

(** [convertActionToStep]: the [switch] on the tool name, labels that
    share a body joined with [||]; the [default] branch warns on the
    console and returns [null] ([None]). *)
Definition convertActionToStep (action : CodegenAction) : M (option string) :=
  let toolName := toolName action in
  let parameters := parameters action in
  (* Navigation tools *)
  if is_case toolName "playwright_navigate" || is_case toolName "navigate" then
    returning (generateNavigateStep parameters)
  else if is_case toolName "goBack" then ret (Some (generateGoBackStep parameters))
  else if is_case toolName "goForward" then
    ret (Some (generateGoForwardStep parameters))
  else if is_case toolName "refreshPage" then
    ret (Some (generateRefreshPageStep parameters))
  else if is_case toolName "closeBrowser" then ret (Some generateCloseBrowserStep)
  (* Form and interaction tools *)
  else if is_case toolName "playwright_fill" || is_case toolName "type" then
    returning (generateFillStep parameters)
  else if is_case toolName "playwright_click" || is_case toolName "click" then
    returning (generateClickStep parameters)
  else if is_case toolName "getTextTool" then
    returning (generateGetTextStep parameters)
  else if is_case toolName "playwright_select" || is_case toolName "selectOption" then
    returning (generateSelectStep parameters)
  else if is_case toolName "check" then returning (generateCheckStep parameters)
  else if is_case toolName "uncheck" then returning (generateUncheckStep parameters)
  else if is_case toolName "playwright_hover" || is_case toolName "hover" then
    returning (generateHoverStep parameters)
  else if is_case toolName "pressKey" then returning (generatePressKeyStep parameters)
  else if is_case toolName "waitForElement" then
    returning (generateWaitForElementStep parameters)
  (* Screenshot and export tools *)
  else if is_case toolName "playwright_screenshot" || is_case toolName "screenshot" then
    returning (generateScreenshotStep parameters)
  else if is_case toolName "saveToFile" then
    returning (generateSaveToFileStep parameters)
  else if is_case toolName "exportPdf" then
    returning (generateExportPdfStep parameters)
  else if is_case toolName "extractData" then
    ret (Some (generateExtractDataStep parameters))
  (* Assertion and expectation tools *)
  else if is_case toolName "playwright_expect_response"
          || is_case toolName "expectResponse" then
    returning (generateExpectResponseStep parameters)
  else if is_case toolName "playwright_assert_response"
          || is_case toolName "assertResponse" then
    returning (generateAssertResponseStep parameters)
  (* User agent tools *)
  else if is_case toolName "playwright_custom_user_agent"
          || is_case toolName "setUserAgent" then
    returning (generateCustomUserAgentStep parameters)
  else if is_case toolName "getUserAgent" then ret (Some generateGetUserAgentStep)
  (* Visibility and DOM tools *)
  else if is_case toolName "getVisibleText" then
    returning (generateGetVisibleTextStep parameters)
  else if is_case toolName "getVisibleHtml" then
    returning (generateGetVisibleHtmlStep parameters)
  else if is_case toolName "listInteractiveElements" then
    ret (Some generateListInteractiveElementsStep)
  else
    run console_write Warn ("Unsupported tool: " +:+ toolName);
    ret None.

(** The loop of [createTestCase]: a step is pushed when it is truthy,
    that is neither [null] nor the empty string. *)
Fixpoint translate_all (actions : list CodegenAction) (steps : list string)
  : M (list string) :=
  match actions with
  | [] => ret steps
  | action :: rest =>
      do step <- convertActionToStep action;
      match step with
      | Some line =>
          if truthy (VStr line) then translate_all rest (steps ++ [line])
          else translate_all rest steps
      | None => translate_all rest steps
      end
  end.

Definition createTestCase (this : RequiredOptions) (session : CodegenSession)
  : M PlaywrightTestCase :=
  do iso <- lift (toISOString (startTime session));
  let name := testNamePrefix this +:+ "_" +:+ split_first "T"%char iso in
  do steps <- translate_all (actions session) [];
  ret {| name := name; steps := steps; imports := ["test"; "expect"] |}.

Definition import_line (imp : string) : string :=
  "import { " +:+ imp +:+ " } from '@playwright/test';".

(** The [imports] constant of [generateTestCode]: one line per entry. *)
Definition import_block (testCase : PlaywrightTestCase) : string :=
  join nl (map import_line (imports testCase)).

Definition generateTestCode (testCase : PlaywrightTestCase) : string :=
  let imports := import_block testCase in
  nl +:+ nl +:+ imports +:+ nl +:+ nl +:+
  "test('" +:+ name testCase +:+ "', async ({ page, context }) => {" +:+ nl +:+
  "  " +:+ join nl (steps testCase) +:+ nl +:+
  "});".

(* ===================================================================== *)
(** ** The session registry *)
(* ===================================================================== *)

(** [{ ...this.options, ...options }]: a key of [options] wins whenever it
    is present, whatever it holds. *)
Definition spread_options (this : RequiredOptions) (options : option CodegenOptions)
  : SessionOptions :=
  match options with
  | None =>
      {| s_outputPath := Some (outputPath this);
         s_testNamePrefix := Some (testNamePrefix this);
         s_includeComments := Some (includeComments this) |}
  | Some o =>
      {| s_outputPath :=
           default (Some (outputPath this)) (arg_outputPath o);
         s_testNamePrefix :=
           default (Some (testNamePrefix this)) (arg_testNamePrefix o);
         s_includeComments :=
           default (Some (includeComments this)) (arg_includeComments o) |}
  end.

(** [uuid] is what [uuidv4()] returns and [now] what [Date.now()] reads. *)
Definition createSession (this : RequiredOptions) (options : option CodegenOptions)
    (uuid : string) (now : Z) : M CodegenSession :=
  let session :=
    {| id := uuid; actions := []; startTime := now; endTime := None;
       options := spread_options this options |} in
  run sessions_set (id session) session;
  ret session.

Definition addAction (sessionId toolName : string) (parameters : gmap string value)
    (result : value) (now : Z) : M (option CodegenAction) :=
  do session <- sessions_get sessionId;
  match session with
  | None => ret None
  | Some session =>
      let action :=
        {| toolName := toolName; parameters := parameters;
           timestamp := now; result := result |} in
      (* session.actions.push(action): the registered object changes *)
      run sessions_set sessionId
            {| id := id session; actions := actions session ++ [action];
               startTime := startTime session; endTime := endTime session;
               options := options session |};
      ret (Some action)
  end.

Definition endSession (sessionId : string) (now : Z) : M (option CodegenSession) :=
  do session <- sessions_get sessionId;
  match session with
  | None => ret None
  | Some session =>
      let ended :=
        {| id := id session; actions := actions session;
           startTime := startTime session; endTime := Some now;
           options := options session |} in
      run sessions_set sessionId ended;
      ret (Some ended)
  end.

Definition getSession (sessionId : string) : M (option CodegenSession) :=
  sessions_get sessionId.

Definition removeSession (sessionId : string) : M bool :=
  sessions_delete sessionId.

(** *** Generation *)

(** [toLowerCase] and the replacement of [getOutputFilePath], character
    by character.  This is what JavaScript does on ASCII text; a prefix
    with other characters (which JavaScript counts in UTF-16 units, and
    may lower-case into ASCII) is outside of what the two functions
    model, and properties of the file name assume an ASCII prefix. *)
Definition to_lower (c : ascii) : ascii :=
  let n := nat_of_ascii c in
  if (65 <=? n)%nat && (n <=? 90)%nat then ascii_of_nat (n + 32) else c.

(** One character of [.replace(/[^a-z0-9_]/g, "_")]. *)
Definition sanitize_char (c : ascii) : ascii :=
  let n := nat_of_ascii c in
  if ((97 <=? n)%nat && (n <=? 122)%nat) || ((48 <=? n)%nat && (n <=? 57)%nat)
     || (n =? 95)%nat
  then c else "_"%char.

Fixpoint map_string (f : ascii -> ascii) (s : string) : string :=
  match s with
  | EmptyString => EmptyString
  | String c rest => String (f c) (map_string f rest)
  end.

Section WithPath.
Context `{NodePath}.

Definition getOutputFilePath (this : RequiredOptions) (session : CodegenSession)
  : M string :=
  if negb (truthy (VStr (id session))) then throw "Session ID is required"
  else
    let sanitizedPrefix :=
      map_string sanitize_char (map_string to_lower (testNamePrefix this)) in
    let fileName := sanitizedPrefix +:+ "_" +:+ id session +:+ ".spec.ts" in
    ret (path_resolve (outputPath this) fileName).

Definition generateTest (this : RequiredOptions) (sessionId : string)
  : M CodegenResult :=
  do session <- sessions_get sessionId;
  match session with
  | None => throw ("Session with ID " +:+ sessionId +:+ " not found")
  | Some session =>
      do testCase <- createTestCase this session;
      let testCode := generateTestCode testCase in
      do filePath <- getOutputFilePath this session;
      let outputDir := path_dirname filePath in
      run fs_mkdir outputDir;
      run fs_writeFile filePath (Text testCode);
      ret {| testCode := testCode; filePath := filePath; sessionId := id session |}
  end.

End WithPath.

(* ===================================================================== *)
(** ** Session snapshots *)
(* ===================================================================== *)

(** *** [JSON.stringify] and [JSON.parse] on values *)

(** What [JSON.stringify] makes of a value; [None] is [undefined], the
    result for a value that has no JSON form.  Inside an object such a
    property is left out, inside an array it is written [null]; [NaN] and
    the infinities are written [null]. *)
Fixpoint value_to_json (v : value) : option json :=
  match v with
  | VUndefined => None
  | VNull => Some JNull
  | VBool b => Some (JBool b)
  | VNum (Int z) => Some (JNumber z)
  | VNum _ => Some JNull
  | VStr s => Some (JString s)
  | VArr items => Some (JArray (map (fun x => default JNull (value_to_json x)) items))
  | VObj fields =>
      Some (JObject
              (omap (fun p => match value_to_json (snd p) with
                              | Some j => Some (fst p, j)
                              | None => None
                              end) fields))
  end.

Fixpoint json_to_value (j : json) : value :=
  match j with
  | JNull => VNull
  | JBool b => VBool b
  | JNumber z => VNum (Int z)
  | JString s => VStr s
  | JArray items => VArr (map json_to_value items)
  | JObject members => VObj (map (fun p => (fst p, json_to_value (snd p))) members)
  end.

(** *** The session record as a document *)

Definition optional {A} (key : string) (encode : A -> json) (field : option A)
  : list (string * json) :=
  match field with
  | Some a => [(key, encode a)]
  | None => []
  end.

Definition parameters_to_json (parameters : gmap string value) : json :=
  JObject (omap (fun p => match value_to_json (snd p) with
                          | Some j => Some (fst p, j)
                          | None => None
                          end) (map_to_list parameters)).

Definition action_to_json (a : CodegenAction) : json :=
  JObject ([("toolName", JString (toolName a));
            ("parameters", parameters_to_json (parameters a));
            ("timestamp", JNumber (timestamp a))]
           ++ optional "result" (fun j => j) (value_to_json (result a))).

Definition options_to_json (o : SessionOptions) : json :=
  JObject (optional "outputPath" JString (s_outputPath o)
           ++ optional "testNamePrefix" JString (s_testNamePrefix o)
           ++ optional "includeComments" JBool (s_includeComments o)).

(** [JSON.stringify(session, null, 2)].  [endTime] comes last: it is
    added to the object by [endSession], after the other keys. *)
Definition session_to_json (s : CodegenSession) : json :=
  JObject ([("id", JString (id s));
            ("actions", JArray (map action_to_json (actions s)));
            ("startTime", JNumber (startTime s));
            ("options", options_to_json (options s))]
           ++ optional "endTime" JNumber (endTime s)).

(** The member a property read finds: when a key occurs twice in a JSON
    text, [JSON.parse] keeps the last. *)
Fixpoint member (key : string) (members : list (string * json)) : option json :=
  match members with
  | [] => None
  | (k, j) :: rest =>
      match member key rest with
      | Some later => Some later
      | None => if String.eqb k key then Some j else None
      end
  end.

Definition as_string (j : json) : option string :=
  match j with JString s => Some s | _ => None end.
Definition as_number (j : json) : option Z :=
  match j with JNumber z => Some z | _ => None end.
Definition as_bool (j : json) : option bool :=
  match j with JBool b => Some b | _ => None end.
Definition as_object (j : json) : option (list (string * json)) :=
  match j with JObject members => Some members | _ => None end.

(** An optional property: missing reads [undefined]; present, it has to
    be of the declared type. *)
Definition optional_member {A} (key : string) (decode : json -> option A)
    (members : list (string * json)) : option (option A) :=
  match member key members with
  | None => Some None
  | Some j => match decode j with Some a => Some (Some a) | None => None end
  end.

Definition parameters_of_json (members : list (string * json)) : gmap string value :=
  list_to_map (reverse (map (fun p => (fst p, json_to_value (snd p))) members)).

(** [JSON.parse(text) as CodegenSession] casts without looking.  These
    readers give the record a document stands for when it has the shape
    the type declares, and [None] when it has not. *)
Definition action_of_json (j : json) : option CodegenAction :=
  match j with
  | JObject members =>
      match member "toolName" members ≫= as_string,
            member "parameters" members ≫= as_object,
            member "timestamp" members ≫= as_number with
      | Some toolName, Some parameters, Some timestamp =>
          Some {| toolName := toolName;
                  parameters := parameters_of_json parameters;
                  timestamp := timestamp;
                  result := match member "result" members with
                            | Some r => json_to_value r
                            | None => VUndefined
                            end |}
      | _, _, _ => None
      end
  | _ => None
  end.

Definition options_of_json (j : json) : option SessionOptions :=
  match j with
  | JObject members =>
      match optional_member "outputPath" as_string members,
            optional_member "testNamePrefix" as_string members,
            optional_member "includeComments" as_bool members with
      | Some o, Some p, Some c =>
          Some {| s_outputPath := o; s_testNamePrefix := p; s_includeComments := c |}
      | _, _, _ => None
      end
  | _ => None
  end.

Fixpoint all_some {A} (l : list (option A)) : option (list A) :=
  match l with
  | [] => Some []
  | Some a :: rest => match all_some rest with
                      | Some r => Some (a :: r)
                      | None => None
                      end
  | None :: _ => None
  end.

Definition actions_of_json (j : json) : option (list CodegenAction) :=
  match j with
  | JArray items => all_some (map action_of_json items)
  | _ => None
  end.

Definition session_of_json (j : json) : option CodegenSession :=
  match j with
  | JObject members =>
      match member "id" members ≫= as_string,
            member "actions" members ≫= actions_of_json,
            member "startTime" members ≫= as_number,
            optional_member "endTime" as_number members,
            member "options" members ≫= options_of_json with
      | Some id, Some actions, Some startTime, Some endTime, Some options =>
          Some {| id := id; actions := actions; startTime := startTime;
                  endTime := endTime; options := options |}
      | _, _, _, _, _ => None
      end
  | _ => None
  end.

(** [JSON.parse] of a file's text.  A [Text] file holds something that is
    not JSON (the generated test source, for one). *)
Definition JSON_parse (c : content) : M json :=
  match c with
  | Json doc => ret doc
  | Text _ => throw "Unexpected token in JSON"
  end.

Section WithPath.
Context `{NodePath}.

(** [directory || path.join(this.options.outputPath, DEFAULT_SESSIONS_DIR)] *)
Definition sessions_dir (this : RequiredOptions) (directory : option string) : string :=
  match directory with
  | Some d =>
      if truthy (VStr d) then d else path_join (outputPath this) DEFAULT_SESSIONS_DIR
  | None => path_join (outputPath this) DEFAULT_SESSIONS_DIR
  end.

Definition saveSessionToDisk (this : RequiredOptions) (sessionId : string)
    (directory : option string) : M string :=
  do session <- sessions_get sessionId;
  match session with
  | None => throw ("Session with ID " +:+ sessionId +:+ " not found")
  | Some session =>
      let outputDir := sessions_dir this directory in
      run fs_mkdir outputDir;
      let filePath := path_join outputDir ("session-" +:+ id session +:+ ".json") in
      run fs_writeFile filePath (Json (session_to_json session));
      ret filePath
  end.

(** A document that is not a session is registered as it is by the source
    (the cast does not fail); the typed registry cannot hold it, and the
    model reports the load as failed. *)
Definition loadSessionFromDisk (this : RequiredOptions) (sessionId : string)
    (directory : option string) : M CodegenSession :=
  let outputDir := sessions_dir this directory in
  let filePath := path_join outputDir ("session-" +:+ sessionId +:+ ".json") in
  try_catch
    (do sessionData <- fs_readFile filePath;
     do doc <- JSON_parse sessionData;
     match session_of_json doc with
     | Some session =>
         (* Store the session in memory for immediate use *)
         run sessions_set (id session) session;
         ret session
     | None => throw "not a session record"
     end)
    (fun message =>
       throw ("Failed to load session " +:+ sessionId +:+ ": " +:+ message)).

End WithPath.

(* ===================================================================== *)
(** ** The generator: construction, import and listing *)
(* ===================================================================== *)

(** *** Construction *)

(** The options object a caller hands to the constructor, as it is at
    run time: a key is missing ([None]) or holds any value. *)
Record RawOptions : Type := {
  raw_outputPath : option value;
  raw_testNamePrefix : option value;
  raw_includeComments : option value
}.

(** [this.options] at run time, after the spread over the defaults. *)
Record StoredOptions : Type := {
  stored_outputPath : value;
  stored_testNamePrefix : value;
  stored_includeComments : value
}.

(** [typeof v === "string"], [typeof v === "boolean"]. *)
Definition is_string (v : value) : bool :=
  match v with VStr _ => true | _ => false end.
Definition is_boolean (v : value) : bool :=
  match v with VBool _ => true | _ => false end.

(** Reading a key of the options object. *)
Definition read (field : option value) : value := default VUndefined field.

Definition validateOptions (options : RawOptions) : outcome unit :=
  if truthy (read (raw_outputPath options))
     && negb (is_string (read (raw_outputPath options)))
  then Thrown "outputPath must be a string"
  else if truthy (read (raw_testNamePrefix options))
          && negb (is_string (read (raw_testNamePrefix options)))
  then Thrown "testNamePrefix must be a string"
  else if negb (match read (raw_includeComments options) with
                | VUndefined => true
                | _ => false
                end)
          && negb (is_boolean (read (raw_includeComments options)))
  then Thrown "includeComments must be a boolean"
  else Returned tt.

(** [new PlaywrightGenerator(options)], [options] defaulting to [{}]. *)
Definition new_PlaywrightGenerator (options : option RawOptions)
  : outcome StoredOptions :=
  let options :=
    default {| raw_outputPath := None; raw_testNamePrefix := None;
               raw_includeComments := None |} options in
  match validateOptions options with
  | Thrown message => Thrown message
  | Returned _ =>
      Returned
        {| stored_outputPath :=
             default (VStr (outputPath DEFAULT_OPTIONS)) (raw_outputPath options);
           stored_testNamePrefix :=
             default (VStr (testNamePrefix DEFAULT_OPTIONS))
                     (raw_testNamePrefix options);
           stored_includeComments :=
             default (VBool (includeComments DEFAULT_OPTIONS))
                     (raw_includeComments options) |}
  end.

(** The stored options as the declared type [Required<CodegenOptions>]
    has them, when they are of that type. *)
Definition as_required (o : StoredOptions) : option RequiredOptions :=
  match stored_outputPath o, stored_testNamePrefix o, stored_includeComments o with
  | VStr p, VStr n, VBool c =>
      Some {| outputPath := p; testNamePrefix := n; includeComments := c |}
  | _, _, _ => None
  end.

(** *** Import *)

Section WithPath.
Context `{NodePath}.

(** [importSession(filePath)].  When the record read has no (truthy)
    [id], the spread [{ ...session, id: uuidv4() }] gives it one: in the
    document, a last member [id].  As for [loadSessionFromDisk], a
    document that is not a session is reported as a failed import. *)
Definition importSession (filePath uuid : string) : M CodegenSession :=
  try_catch
    (do sessionData <- fs_readFile filePath;
     do doc <- JSON_parse sessionData;
     match doc with
     | JObject members =>
         let has_id :=
           truthy (match member "id" members with
                   | Some j => json_to_value j
                   | None => VUndefined
                   end) in
         (* If the imported session doesn't have an ID, generate one *)
         let members :=
           if has_id then members else (members ++ [("id", JString uuid)])%list in
         match session_of_json (JObject members) with
         | Some session =>
             (* Store in memory *)
             run sessions_set (id session) session;
             ret session
         | None => throw "not a session record"
         end
     | _ => throw "not a session record"
     end)
    (fun message => throw ("Failed to import session: " +:+ message)).

End WithPath.

(** *** Listing the snapshots *)

(** [s.startsWith(prefix)] *)
Fixpoint starts_with (prefix s : string) : bool :=
  match prefix, s with
  | EmptyString, _ => true
  | String a p, String b r => Ascii.eqb a b && starts_with p r
  | String _ _, EmptyString => false
  end.

(** [s.endsWith(suffix)] *)
Fixpoint ends_with (suffix s : string) : bool :=
  if String.eqb s suffix then true
  else match s with
       | EmptyString => false
       | String _ r => ends_with suffix r
       end.

Fixpoint drop_chars (n : nat) (s : string) : string :=
  match n, s with
  | O, _ => s
  | S n, String _ r => drop_chars n r
  | S _, EmptyString => EmptyString
  end.

(** [s.replace(pattern, replacement)] with a string pattern: the first
    occurrence only. *)
Fixpoint replace_first (pattern replacement s : string) : string :=
  if starts_with pattern s
  then replacement +:+ drop_chars (String.length pattern) s
  else match s with
       | EmptyString => EmptyString
       | String c r => String c (replace_first pattern replacement r)
       end.

(** The [filter] and the [map] of [listSavedSessions]. *)
Definition is_session_file (file : string) : bool :=
  starts_with "session-" file && ends_with ".json" file.

Definition session_id_of_file (file : string) : string :=
  replace_first ".json" EmptyString (replace_first "session-" EmptyString file).

Section WithPath.
Context `{NodePath}.

(** [listSavedSessions(directory)].  [listing] is what [fs.readdir]
    gives for the directory: the names in it, or an error. *)
Definition listSavedSessions (this : RequiredOptions) (directory : option string)
    (listing : outcome (list string)) : M (list string) :=
  let outputDir := sessions_dir this directory in
  try_catch
    (run fs_mkdir outputDir;
     do files <- lift listing;
     (* Filter for session files and extract session IDs *)
     ret (map session_id_of_file (filter (fun f => is_session_file f = true) files)))
    (fun message =>
       run console_write Error ("Failed to list saved sessions: " +:+ message);
       ret []).

End WithPath.

End Codegen.

(* ===================================================================== *)
(** ** The shared browser *)
(* ===================================================================== *)

Module Browser.
Import JS.

(** Browsers and pages are known by a handle. *)
Definition handle : Type := nat.

(** [ToolContext]: the object every tool receives and updates in place. *)
Record ToolContext : Type := {
  browser : option handle;
  page : option handle;
  codegenSessionId : option string
}.

(** The process around the tools: the module variable [isInitializing],
    the browsers Playwright reports as connected, the open pages (each
    with the browser it lives in), the next unused handle, the number of
    calls of [chromium.launch] so far, and the console. *)
Record Process : Type := {
  isInitializing : bool;
  connected : gset handle;
  open_pages : gmap handle handle;
  next_handle : handle;
  launches : nat;
  console : list (Codegen.level * string)
}.

(** How the Playwright calls of one tool invocation turn out. *)
Record Playwright : Type := {
  launch_ok : bool;
  newContext_ok : bool;
  newPage_ok : bool
}.

Inductive closing : Type :=
| CloseResolves          (* the promise of [browser.close()] resolves *)
| CloseRejects           (* it rejects *)
| CloseThrows.           (* [close()] itself throws *)

Definition isConnected (p : Process) (b : handle) : bool :=
  bool_decide (b ∈ connected p).

Definition isClosed (p : Process) (pg : handle) : bool :=
  bool_decide (open_pages p !! pg = None).

Definition write (l : Codegen.level) (text : string) (p : Process) : Process :=
  {| isInitializing := isInitializing p; connected := connected p;
     open_pages := open_pages p; next_handle := next_handle p;
     launches := launches p; console := console p ++ [(l, text)] |}.

Definition set_initializing (flag : bool) (p : Process) : Process :=
  {| isInitializing := flag; connected := connected p;
     open_pages := open_pages p; next_handle := next_handle p;
     launches := launches p; console := console p |}.

(** [chromium.launch(...)] is called: counted whether it succeeds or not. *)
Definition count_launch (p : Process) : Process :=
  {| isInitializing := isInitializing p; connected := connected p;
     open_pages := open_pages p; next_handle := next_handle p;
     launches := S (launches p); console := console p |}.

Definition new_browser (p : Process) : handle * Process :=
  (next_handle p,
   {| isInitializing := isInitializing p;
      connected := {[next_handle p]} ∪ connected p;
      open_pages := open_pages p; next_handle := S (next_handle p);
      launches := launches p; console := console p |}).

Definition new_page (b : handle) (p : Process) : handle * Process :=
  (next_handle p,
   {| isInitializing := isInitializing p; connected := connected p;
      open_pages := <[next_handle p := b]> (open_pages p);
      next_handle := S (next_handle p);
      launches := launches p; console := console p |}).

(** A browser that closes takes its pages with it. *)
Definition close_browser (b : handle) (p : Process) : Process :=
  {| isInitializing := isInitializing p;
     connected := connected p ∖ {[b]};
     open_pages := filter (fun kv => kv.2 ≠ b) (open_pages p);
     next_handle := next_handle p;
     launches := launches p; console := console p |}.

Definition with_browser (b : handle) (c : ToolContext) : ToolContext :=
  {| browser := Some b; page := page c; codegenSessionId := codegenSessionId c |}.

Definition with_page (pg : handle) (c : ToolContext) : ToolContext :=
  {| browser := browser c; page := Some pg; codegenSessionId := codegenSessionId c |}.

(** What a call of [ensureBrowser] comes to. [Waiting]: the caller found
    [isInitializing] set and polls it every 100 ms; only another caller
    can clear it, and the model follows one caller. *)
Inductive acquired : Type :=
| Handles (b pg : handle)
| Failed (error : string)
| Waiting.

(** The [catch] and [finally] of the launch block. *)
Definition launch_failed (error : string) (context : ToolContext) (p : Process)
  : acquired * ToolContext * Process :=
  (Failed error, context,
   set_initializing false (write Codegen.Error "Failed to initialize browser:" p)).

(** The [try] block: launch a browser, then a context and a page in it. *)
Definition launch (pw : Playwright) (context : ToolContext) (p : Process)
  : acquired * ToolContext * Process :=
  let p := set_initializing true p in
  let p := write Codegen.Log "Launching new browser instance..." p in
  let p := count_launch p in
  if negb (launch_ok pw) then launch_failed "launch" context p
  else
    let '(b, p) := new_browser p in
    let context := with_browser b context in
    if negb (newContext_ok pw) then launch_failed "newContext" context p
    else if negb (newPage_ok pw) then launch_failed "newPage" context p
    else
      let '(pg, p) := new_page b p in
      let context := with_page pg context in
      let p := write Codegen.Log "Browser launched successfully" p in
      (Handles b pg, context, set_initializing false p).

(** The [else if] branch: a new page in the browser at hand. *)
Definition open_page (pw : Playwright) (b : handle) (context : ToolContext)
    (p : Process) : acquired * ToolContext * Process :=
  if negb (newPage_ok pw) then (Failed "newPage", context, p)
  else
    let '(pg, p) := new_page b p in
    let context := with_page pg context in
    (Handles b pg, context,
     write Codegen.Log "Created new page in existing browser" p).

Definition ensureBrowser (pw : Playwright) (context : ToolContext) (p : Process)
  : acquired * ToolContext * Process :=
  (* Prevent concurrent initialization *)
  if isInitializing p then
    (Waiting, context,
     write Codegen.Log "Browser initialization in progress, waiting..." p)
  else
    (* Check if browser is already initialized *)
    match browser context with
    | None => launch pw context p
    | Some b =>
        if negb (isConnected p b) then launch pw context p
        else
          match page context with
          | None => open_page pw b context p
          | Some pg =>
              if isClosed p pg then open_page pw b context p
              else (Handles b pg, context, p)
          end
    end.

(** [resetBrowserState(context?)]: the handles are cleared only when a
    context is passed. *)
Definition resetBrowserState (context : option ToolContext) (p : Process)
  : option ToolContext * Process :=
  (match context with
   | Some c => Some {| browser := None; page := None;
                       codegenSessionId := codegenSessionId c |}
   | None => None
   end,
   write Codegen.Log "Browser state reset" p).

(** [closeBrowserTool.execute].  The [finally] block calls
    [resetBrowserState()] with no argument, so the call has no context to
    clear; [toolContext] is returned as the tool leaves it. *)
Definition closeBrowserTool (how : closing) (toolContext : ToolContext) (p : Process)
  : outcome string * ToolContext * Process :=
  match browser toolContext with
  | Some b =>
      let p :=
        if isConnected p b then
          match how with
          | CloseResolves => close_browser b p
          | CloseRejects => write Codegen.Error "Error while closing browser:" p
          | CloseThrows =>
              write Codegen.Error "Error during browser close operation:" p
          end
        else write Codegen.Error "Browser already disconnected, cleaning up state" p in
      let '(_, p) := resetBrowserState None p in
      (Returned "Browser closed successfully", toolContext, p)
  | None => (Returned "No browser instance to close", toolContext, p)
  end.

(** *** Contexts for the examples *)

Definition all_ok : Playwright :=
  {| launch_ok := true; newContext_ok := true; newPage_ok := true |}.

(** READY: browser 0 is connected and its page 1 is open. *)
Definition ready_context : ToolContext :=
  {| browser := Some 0%nat; page := Some 1%nat; codegenSessionId := None |}.

Definition ready_process : Process :=
  {| isInitializing := false; connected := {[ 0%nat ]};
     open_pages := {[ 1%nat := 0%nat ]}; next_handle := 2%nat;
     launches := 1%nat;
     console := [] |}.

(** UNINITIALIZED: nothing launched yet. *)
Definition fresh_context : ToolContext :=
  {| browser := None; page := None; codegenSessionId := None |}.

Definition fresh_process : Process :=
  {| isInitializing := false; connected := ∅; open_pages := ∅;
     next_handle := 0%nat; launches := 0%nat; console := [] |}.

(** The context holds a browser that is connected. *)
Definition holds_connected_browser (context : ToolContext) (p : Process) : bool :=
  match browser context with
  | Some b => isConnected p b
  | None => false
  end.

End Browser.

(* ===================================================================== *)
(** ** The tools built on the generator and on the shared browser *)
(* ===================================================================== *)

Module BrowserTools.
Import JS Browser.

(** What a call of [safeBrowserOperation] comes to. *)
Inductive attempt (A : Type) : Type :=
| Done (a : A)
| Raised (error : string)
| Blocked.
Arguments Done {A} a.
Arguments Raised {A} error.
Arguments Blocked {A}.

(** [safeBrowserOperation(context, operation)]: the operation is handed
    the page [ensureBrowser] returns; whatever is thrown is logged and
    thrown again.  [operation] is the tool's callback: what it does with
    a page, in a process. *)
Definition safeBrowserOperation {A : Type} (pw : Playwright) (context : ToolContext)
    (operation : handle -> Process -> outcome A * Process) (p : Process)
  : attempt A * ToolContext * Process :=
  match ensureBrowser pw context p with
  | (Handles _ pg, context, p) =>
      match operation pg p with
      | (Returned a, p) => (Done a, context, p)
      | (Thrown error, p) =>
          (Raised error, context,
           write Codegen.Error "Browser operation failed:" p)
      end
  | (Failed error, context, p) =>
      (Raised error, context, write Codegen.Error "Browser operation failed:" p)
  | (Waiting, context, p) => (Blocked, context, p)
  end.

End BrowserTools.

Module CodegenTools.
Import JS Codegen.

(** The singleton [playwrightGenerator = new PlaywrightGenerator()]. *)
Definition playwrightGenerator : RequiredOptions := DEFAULT_OPTIONS.

(** What a tool returns: [{ result: ... }] or [{ error: ... }]. *)
Inductive reply (A : Type) : Type :=
| Result (payload : A)
| Failure (error : string).
Arguments Result {A} payload.
Arguments Failure {A} error.

Record started : Type := {
  started_sessionId : string;
  started_message : string
}.

Record generated : Type := {
  generated_testCode : string;
  generated_filePath : string;
  generated_sessionId : string;
  generated_message : string
}.

Inductive ended : Type :=
| EndedWithTest (message testCode filePath : string)
| EndedOnly (message : string) (sessionCount : nat).

Record recorded : Type := {
  recorded_message : string;
  recorded_actionCount : nat
}.

(** The arguments of the tools, as their schemas declare them. *)
Record start_args : Type := {
  start_outputPath : option string;
  start_testNamePrefix : option string;
  start_includeComments : option bool
}.

Record generate_args : Type := {
  generate_sessionId : option string;
  generate_testName : option string;
  generate_outputPath : option string
}.

Record end_args : Type := {
  end_sessionId : option string;
  end_generateTest : bool
}.

Record record_args : Type := {
  record_toolName : string;
  record_parameters : gmap string value;
  record_sessionId : option string
}.

Definition set_codegenSessionId (sessionId : option string)
    (context : Browser.ToolContext) : Browser.ToolContext :=
  {| Browser.browser := Browser.browser context;
     Browser.page := Browser.page context;
     Browser.codegenSessionId := sessionId |}.

(** [args.sessionId || toolContext.codegenSessionId] *)
Definition either_session (argument : option string) (context : Browser.ToolContext)
  : option string :=
  match argument with
  | Some given =>
      if truthy (VStr given) then Some given else Browser.codegenSessionId context
  | None => Browser.codegenSessionId context
  end.

(** [!sessionId] *)
Definition no_session (sessionId : option string) : bool :=
  match sessionId with
  | Some s => negb (truthy (VStr s))
  | None => true
  end.

(** [!session.endTime] *)
Definition not_ended (session : CodegenSession) : bool :=
  match endTime session with
  | Some t => negb (truthy (VNum (Int t)))
  | None => true
  end.

(** [startCodegenSessionTool.execute].  The options object names all
    three keys, each holding the argument or [undefined]. *)
Definition startCodegenSessionTool (args : start_args) (uuid : string) (now : Z)
    (context : Browser.ToolContext) : M (reply started * Browser.ToolContext) :=
  let options :=
    {| arg_outputPath := Some (start_outputPath args);
       arg_testNamePrefix := Some (start_testNamePrefix args);
       arg_includeComments := Some (start_includeComments args) |} in
  do session <- createSession playwrightGenerator (Some options) uuid now;
  (* Store session ID in the context for other tools to access *)
  let context := set_codegenSessionId (Some (id session)) context in
  ret (Result
         {| started_sessionId := id session;
            started_message :=
              "Code generation session started. Browser actions will now be recorded for test generation." |},
       context).

Definition recordActionTool (args : record_args) (now : Z)
    (context : Browser.ToolContext) : M (reply recorded * Browser.ToolContext) :=
  let sessionId := either_session (record_sessionId args) context in
  if no_session sessionId
  then ret (Failure "No active code generation session found.", context)
  else
    let sessionId := default EmptyString sessionId in
    do action <- addAction sessionId (record_toolName args) (record_parameters args)
                   VUndefined now;
    match action with
    | None =>
        ret (Failure ("Failed to record action: session with ID " +:+ sessionId
                      +:+ " not found."), context)
    | Some _ =>
        do session <- getSession sessionId;
        ret (Result
               {| recorded_message :=
                    "Action '" +:+ record_toolName args +:+ "' recorded to session "
                    +:+ sessionId;
                  recorded_actionCount :=
                    match session with
                    | Some s => length (actions s)
                    | None => 0%nat
                    end |},
             context)
    end.

Section WithPath.
Context `{NodePath}.

Definition generateTestTool (args : generate_args) (now : Z)
    (context : Browser.ToolContext) : M (reply generated * Browser.ToolContext) :=
  let sessionId := either_session (generate_sessionId args) context in
  if no_session sessionId
  then ret (Failure
              "No active code generation session found. Start a session with startCodegenSession first.",
            context)
  else
    let sessionId := default EmptyString sessionId in
    do session <- getSession sessionId;
    match session with
    | None => ret (Failure ("Session with ID " +:+ sessionId +:+ " not found."), context)
    | Some session =>
        (* End the session if it's still active *)
        run (if not_ended session then endSession sessionId now else ret None);
        try_catch
          (do result <- generateTest playwrightGenerator sessionId;
           (* Save the session for future reference *)
           run saveSessionToDisk playwrightGenerator sessionId None;
           ret (Result
                  {| generated_testCode := testCode result;
                     generated_filePath := filePath result;
                     generated_sessionId := Codegen.sessionId result;
                     generated_message :=
                       "Test code generated and saved to " +:+ filePath result |},
                context))
          (fun message =>
             ret (Failure ("Failed to generate test: " +:+ message), context))
    end.

Definition endCodegenSessionTool (args : end_args) (now : Z)
    (context : Browser.ToolContext) : M (reply ended * Browser.ToolContext) :=
  let sessionId := either_session (end_sessionId args) context in
  if no_session sessionId
  then ret (Failure "No active code generation session found.", context)
  else
    let sessionId := default EmptyString sessionId in
    do session <- getSession sessionId;
    match session with
    | None => ret (Failure ("Session with ID " +:+ sessionId +:+ " not found."), context)
    | Some session =>
        (* End the session *)
        run endSession sessionId now;
        (* Generate test if requested *)
        if end_generateTest args then
          try_catch
            (do result <- generateTest playwrightGenerator sessionId;
             run saveSessionToDisk playwrightGenerator sessionId None;
             ret (Result
                    (EndedWithTest "Code generation session ended and test generated."
                       (testCode result) (filePath result)),
                  context))
            (fun message =>
               ret (Failure ("Session ended but failed to generate test: " +:+ message),
                    context))
        else
          (* Just end the session without generating test *)
          run saveSessionToDisk playwrightGenerator sessionId None;
          (* Clear the session ID from context *)
          let context := set_codegenSessionId None context in
          ret (Result
                 (EndedOnly "Code generation session ended."
                    (length (actions session))),
               context)
    end.

End WithPath.

End CodegenTools.

(* ===================================================================== *)
(** ** The translation table, as the specification describes it *)
(* ===================================================================== *)

Module Table.
Import JS Codegen.

(** A statement shape: fixed text with holes for named parameters. *)
Inductive piece : Type :=
| Lit (text : string)
| Param (key : string).

(** The closed table keyed by tool name, legacy names included. *)
Definition translation_table : list (string * list piece) :=
  [ ("playwright_navigate", [Lit "await page.goto("; Param "url"; Lit ");"]);
    ("navigate", [Lit "await page.goto("; Param "url"; Lit ");"]);
    ("goBack", [Lit "await page.goBack();"]);
    ("goForward", [Lit "await page.goForward();"]);
    ("refreshPage", [Lit "await page.reload();"]);
    ("closeBrowser", [Lit "await browser.close();"]);
    ("playwright_fill",
      [Lit "await page.fill("; Param "selector"; Lit ", "; Param "text"; Lit ");"]);
    ("type",
      [Lit "await page.fill("; Param "selector"; Lit ", "; Param "text"; Lit ");"]);
    ("playwright_click", [Lit "await page.click("; Param "selector"; Lit ");"]);
    ("click", [Lit "await page.click("; Param "selector"; Lit ");"]);
    ("getTextTool",
      [Lit "const text = await page.textContent("; Param "selector"; Lit ");"]);
    ("playwright_select",
      [Lit "await page.selectOption("; Param "selector"; Lit ", "; Param "value";
       Lit ");"]);
    ("selectOption",
      [Lit "await page.selectOption("; Param "selector"; Lit ", "; Param "value";
       Lit ");"]);
    ("check", [Lit "await page.check("; Param "selector"; Lit ");"]);
    ("uncheck", [Lit "await page.uncheck("; Param "selector"; Lit ");"]);
    ("playwright_hover", [Lit "await page.hover("; Param "selector"; Lit ");"]);
    ("hover", [Lit "await page.hover("; Param "selector"; Lit ");"]);
    ("pressKey", [Lit "await page.press("; Param "key"; Lit ");"]);
    ("waitForElement",
      [Lit "await page.waitForSelector("; Param "selector"; Lit ");"]);
    ("playwright_screenshot",
      [Lit "await page.screenshot({ path: "; Param "path"; Lit " });"]);
    ("screenshot", [Lit "await page.screenshot({ path: "; Param "path"; Lit " });"]);
    ("saveToFile",
      [Lit "await fs.writeFile("; Param "filePath"; Lit ", "; Param "data"; Lit ");"]);
    ("exportPdf", [Lit "await page.pdf({ path: "; Param "path"; Lit " });"]);
    ("extractData", [Lit "// Extract data logic here"]);
    ("playwright_expect_response",
      [Lit "await page.waitForResponse(response => response.url() === ";
       Param "url"; Lit ");"]);
    ("expectResponse",
      [Lit "await page.waitForResponse(response => response.url() === ";
       Param "url"; Lit ");"]);
    ("playwright_assert_response",
      [Lit "const response = await page.waitForResponse("; Param "url"; Lit ");"]);
    ("assertResponse",
      [Lit "const response = await page.waitForResponse("; Param "url"; Lit ");"]);
    ("playwright_custom_user_agent",
      [Lit "await context.setUserAgent("; Param "userAgent"; Lit ");"]);
    ("setUserAgent", [Lit "await context.setUserAgent("; Param "userAgent"; Lit ");"]);
    ("getUserAgent", [Lit "const userAgent = await context.userAgent();"]);
    ("getVisibleText",
      [Lit "const visibleText = await page.locator("; Param "selector";
       Lit ").textContent();"]);
    ("getVisibleHtml",
      [Lit "const visibleHtml = await page.locator("; Param "selector";
       Lit ").innerHTML();"]);
    ("listInteractiveElements",
      [Lit "const elements = await page.$$('a, button, [tabindex], [contenteditable]);"])
  ].

Fixpoint shape_of (toolName : string) (table : list (string * list piece))
  : option (list piece) :=
  match table with
  | [] => None
  | (label, shape) :: rest =>
      if String.eqb toolName label then Some shape else shape_of toolName rest
  end.

Definition in_table (toolName : string) : bool :=
  bool_decide (is_Some (shape_of toolName translation_table)).

(** A hole is filled with the parameter between backticks, and with the
    text of two double quotes when the action has no (truthy) value for
    it. *)
Definition fill (parameters : gmap string value) (p : piece) : outcome string :=
  match p with
  | Lit text => Returned text
  | Param key =>
      match parameters !! key with
      | Some v =>
          if truthy v then backticks v
          else Returned (String "034"%char (String "034"%char EmptyString))
      | None => Returned (String "034"%char (String "034"%char EmptyString))
      end
  end.

Fixpoint render (parameters : gmap string value) (shape : list piece)
  : outcome string :=
  match shape with
  | [] => Returned EmptyString
  | p :: rest =>
      val text <- fill parameters p;
      val more <- render parameters rest;
      Returned (text +:+ more)
  end.

(** The statement the table gives for an action: its shape, filled; no
    statement ([None]) for a tool name that is not in the table. *)
Definition statement_of (a : CodegenAction) : outcome (option string) :=
  match shape_of (toolName a) translation_table with
  | Some shape =>
      val text <- render (parameters a) shape;
      Returned (Some text)
  | None => Returned None
  end.

(** The conversion of an array item: [null] and [undefined] give the
    empty string. *)
Definition item_to_string (x : value) : outcome string :=
  match x with
  | VUndefined | VNull => Returned EmptyString
  | _ => to_string x
  end.

(** The values that have a string conversion: all but an object with a
    [toString] property of its own, and an array that holds a value
    without one. *)
Fixpoint convertible (v : value) : bool :=
  match v with
  | VArr items => forallb convertible items
  | VObj fields => negb (has_own "toString" fields)
  | _ => true
  end.

Definition hole_converts (parameters : gmap string value) (p : piece) : bool :=
  match p with
  | Lit _ => true
  | Param key => convertible (get parameters key)
  end.

(** Every parameter that the statement of the action inserts has a
    string conversion. *)
Definition converts (a : CodegenAction) : bool :=
  match shape_of (toolName a) translation_table with
  | Some shape => forallb (hole_converts (parameters a)) shape
  | None => true
  end.

(** The shape opens with fixed text. *)
Definition opens_with_text (shape : list piece) : bool :=
  match shape with
  | Lit (String _ _) :: _ => true
  | _ => false
  end.

(** The legacy names with the name each stands for. *)
Definition legacy_aliases : list (string * string) :=
  [ ("playwright_navigate", "navigate");
    ("playwright_fill", "type");
    ("playwright_click", "click");
    ("playwright_select", "selectOption");
    ("playwright_hover", "hover");
    ("playwright_screenshot", "screenshot");
    ("playwright_expect_response", "expectResponse");
    ("playwright_assert_response", "assertResponse");
    ("playwright_custom_user_agent", "setUserAgent") ].

(** The world with nothing in it. *)
Definition empty_world : World :=
  {| activeSessions := ∅; files := ∅; directories := ∅; console := [] |}.

(** The line [convertActionToStep] returns for an action ([None] for
    [null], and when the call throws); the world it runs in has no part
    in it. *)
Definition line_of (action : CodegenAction) : option string :=
  match convertActionToStep action empty_world with
  | (Returned line, _) => line
  | (Thrown _, _) => None
  end.

(** The tool names of the actions that are not in the table, in order. *)
Definition skipped (actions : list CodegenAction) : list string :=
  map toolName (filter (fun a => in_table (toolName a) = false) actions).

(** The console with one more warning per tool name. *)
Definition warned (names : list string) (w : World) : World :=
  {| activeSessions := activeSessions w; files := files w;
     directories := directories w;
     console := console w ++ map (fun n => (Warn, "Unsupported tool: " +:+ n)) names |}.

(** [sep] does not occur in [s]. *)
Fixpoint lacks (sep : ascii) (s : string) : bool :=
  match s with
  | EmptyString => true
  | String c rest => negb (Ascii.eqb c sep) && lacks sep rest
  end.

(** One call of [addAction], with the clock reading it takes. *)
Record append_call : Type := {
  call_toolName : string;
  call_parameters : gmap string value;
  call_result : value;
  call_now : Z
}.

Definition action_of_call (c : append_call) : CodegenAction :=
  {| toolName := call_toolName c; parameters := call_parameters c;
     timestamp := call_now c; result := call_result c |}.

(** The calls one after the other, on the same session id. *)
Fixpoint record_all (sessionId : string) (calls : list append_call) : M unit :=
  match calls with
  | [] => ret tt
  | c :: rest =>
      run addAction sessionId (call_toolName c) (call_parameters c)
            (call_result c) (call_now c);
      record_all sessionId rest
  end.

(** The world with another registry. *)
Definition with_sessions (m : gmap string CodegenSession) (w : World) : World :=
  {| activeSessions := m; files := files w; directories := directories w;
     console := console w |}.

(** The session with more actions at its end. *)
Definition appended (s : CodegenSession) (more : list CodegenAction) : CodegenSession :=
  {| id := id s; actions := actions s ++ more; startTime := startTime s;
     endTime := endTime s; options := options s |}.

(** Scenario: a navigation, a tool the table does not know, a click. *)
Definition example_calls : list append_call :=
  [ {| call_toolName := "navigate";
       call_parameters := {[ "url" := VStr "https://example.com" ]};
       call_result := VUndefined; call_now := 1 |};
    {| call_toolName := "frobnicate"; call_parameters := ∅;
       call_result := VUndefined; call_now := 2 |};
    {| call_toolName := "click";
       call_parameters := {[ "selector" := VStr "#btn" ]};
       call_result := VUndefined; call_now := 3 |} ].

(** An action with nothing but a tool name and parameters. *)
Definition action (toolName : string) (parameters : gmap string value) : CodegenAction :=
  {| toolName := toolName; parameters := parameters; timestamp := 0;
     result := VUndefined |}.

(** The text [generateTest] writes: the first two steps of its body. *)
Definition test_text (this : RequiredOptions) (session : CodegenSession) : M string :=
  do testCase <- createTestCase this session;
  ret (generateTestCode testCase).

Definition no_options : SessionOptions :=
  {| s_outputPath := None; s_testNamePrefix := None; s_includeComments := None |}.

(** Two sessions that differ in their start time only: midnight of
    1970-01-01 and midnight of the next day. *)
Definition session_day0 : CodegenSession :=
  {| id := "s"; actions := []; startTime := 0; endTime := None;
     options := no_options |}.

Definition session_day1 : CodegenSession :=
  {| id := "s"; actions := []; startTime := 86400000; endTime := None;
     options := no_options |}.

(** A session of the same day as [session_day0], with another id, end
    time, options and start time. *)
Definition session_day0_later : CodegenSession :=
  {| id := "t"; actions := []; startTime := 3600000; endTime := Some 3600500;
     options := {| s_outputPath := Some "out"; s_testNamePrefix := None;
                   s_includeComments := Some false |} |}.

(** The two import lines every generated file starts with. *)
Definition baseline_imports : string :=
  "import { test } from '@playwright/test';" +:+ nl +:+
  "import { expect } from '@playwright/test';".

(** Every session of the registry is stored under its own id. *)
Definition keyed_by_id (w : World) : Prop :=
  forall key s, activeSessions w !! key = Some s -> id s = key.

(** *** Snapshots *)

(** The values [JSON.stringify] writes without loss: no [undefined], no
    [NaN] and no infinity, at any depth. *)
Fixpoint json_clean (v : value) : bool :=
  match v with
  | VUndefined => false
  | VNull | VBool _ | VStr _ => true
  | VNum (Int _) => true
  | VNum _ => false
  | VArr items => forallb json_clean items
  | VObj fields => forallb (fun p => json_clean (snd p)) fields
  end.

(** An action is clean when its parameters are, and its result is clean
    or [undefined] (a result that was not passed). *)
Definition action_clean (a : CodegenAction) : bool :=
  forallb (fun p => json_clean (snd p)) (map_to_list (parameters a))
  && match result a with
     | VUndefined => true
     | r => json_clean r
     end.

Definition session_clean (s : CodegenSession) : bool :=
  forallb action_clean (actions s).

(** The world after [saveSessionToDisk] has written [doc] to [path] in
    [dir]. *)
Definition saved (dir path : string) (doc : json) (w : World) : World :=
  {| activeSessions := activeSessions w;
     files := <[path := Json doc]> (files w);
     directories := {[dir]} ∪ directories w;
     console := console w |}.

(** The text before the last slash of [s], when [s] has a slash. *)
Fixpoint before_last_slash (s : string) : option string :=
  match s with
  | EmptyString => None
  | String c rest =>
      match before_last_slash rest with
      | Some d => Some (String c d)
      | None => if Ascii.eqb c "/" then Some EmptyString else None
      end
  end.

(** Paths for the examples: POSIX paths without [.] and [..] segments
    and without doubled or trailing slashes, the working directory being
    the root. *)
Definition plain_paths : NodePath :=
  {| path_join := fun a b => a +:+ "/" +:+ b;
     path_resolve := fun a b => "/" +:+ a +:+ "/" +:+ b;
     path_dirname := fun p => match before_last_slash p with
                              | Some EmptyString => "/"
                              | Some d => d
                              | None => "."
                              end |}.

(** The options a session gets from the default generator. *)
Definition default_session_options : SessionOptions :=
  {| s_outputPath := Some "tests"; s_testNamePrefix := Some "VoltTest";
     s_includeComments := Some true |}.




(** A clean session: the scenario's actions, ended, with options. *)
Definition session_example : CodegenSession :=
  {| id := "e";
     actions := map action_of_call example_calls;
     startTime := 0; endTime := Some 4; options := default_session_options |}.

Definition world_example : World :=
  {| activeSessions := {[ "e" := session_example ]}; files := ∅; directories := ∅;
     console := [] |}.

(** An object whose [toString] property is the number 1, as a selector. *)
Definition object_selector : gmap string value :=
  {[ "selector" := VObj [("toString", VNum (Int 1))] ]}.

(** A click on that selector, then a navigation. *)
Definition object_calls : list append_call :=
  [ {| call_toolName := "click"; call_parameters := object_selector;
       call_result := VUndefined; call_now := 1 |};
    {| call_toolName := "navigate";
       call_parameters := {[ "url" := VStr "https://example.com" ]};
       call_result := VUndefined; call_now := 2 |} ].



End Table.

(* ===================================================================== *)
(** ** Shorthands for the properties of the rest of the code *)
(* ===================================================================== *)

Module Shapes.
Import JS Codegen Table.

(** The session, ended at [t]. *)
Definition ended_at (t : Z) (s : CodegenSession) : CodegenSession :=
  {| id := id s; actions := actions s; startTime := startTime s;
     endTime := Some t; options := options s |}.

(** The session under another id. *)
Definition with_id (i : string) (s : CodegenSession) : CodegenSession :=
  {| id := i; actions := actions s; startTime := startTime s;
     endTime := endTime s; options := options s |}.

(** The name [saveSessionToDisk] gives the snapshot of a session. *)
Definition snapshot_name (sessionId : string) : string :=
  "session-" +:+ sessionId +:+ ".json".

(** [pattern] occurs somewhere in [s]. *)
Fixpoint occurs (pattern s : string) : bool :=
  starts_with pattern s
  || match s with
     | EmptyString => false
     | String _ r => occurs pattern r
     end.

(** The characters a sanitized prefix is made of. *)
Definition safe_alphabet : string := "abcdefghijklmnopqrstuvwxyz0123456789_".

Fixpoint char_in (c : ascii) (s : string) : bool :=
  match s with
  | EmptyString => false
  | String x r => Ascii.eqb c x || char_in c r
  end.

Fixpoint all_chars (test : ascii -> bool) (s : string) : bool :=
  match s with
  | EmptyString => true
  | String c r => test c && all_chars test r
  end.


(** The prefix of the file name, as [getOutputFilePath] computes it. *)
Definition sanitizedPrefix (this : RequiredOptions) : string :=
  map_string sanitize_char (map_string to_lower (testNamePrefix this)).



(** The path of the snapshot of [sessionId] in [directory]. *)
Definition snapshot_path `{NodePath} (this : RequiredOptions)
    (directory : option string) (sessionId : string) : string :=
  path_join (sessions_dir this directory) (snapshot_name sessionId).

(** A world whose only file is the snapshot of [session_example], copied
    to the name of a session [a]; nothing is registered. *)
Definition world_copied : World :=
  {| activeSessions := ∅;
     files := {[ "tests/sessions/session-a.json" := Json (session_to_json session_example) ]};
     directories := {[ "tests/sessions" ]}; console := [] |}.

(** The document of a snapshot, without its [id]. *)
Definition without_id (doc : json) : json :=
  match doc with
  | JObject members => JObject (filter (fun m => fst m ≠ "id") members)
  | _ => doc
  end.

(** A world whose only file is the snapshot of [session_example] with
    the [id] taken out. *)
Definition world_anonymous : World :=
  {| activeSessions := ∅;
     files := {[ "in.json" := Json (without_id (session_to_json session_example)) ]};
     directories := ∅; console := [] |}.

(** *** Tools *)

(** The action [recordActionTool] appends for a call: the tool passes no
    result on. *)
Definition recorded_action (c : append_call) : CodegenAction :=
  {| toolName := call_toolName c; parameters := call_parameters c;
     timestamp := call_now c; result := VUndefined |}.

(** [recordActionTool] for each call in turn, the session being the one
    of the context; the replies in order. *)
Fixpoint record_with_tool (calls : list append_call) (context : Browser.ToolContext)
  : M (list (CodegenTools.reply CodegenTools.recorded)) :=
  match calls with
  | [] => ret []
  | c :: rest =>
      do r <- CodegenTools.recordActionTool
                {| CodegenTools.record_toolName := call_toolName c;
                   CodegenTools.record_parameters := call_parameters c;
                   CodegenTools.record_sessionId := None |}
                (call_now c) context;
      do rs <- record_with_tool rest (snd r);
      ret (fst r :: rs)
  end.

(** The reply to the call that brings the session to [count] actions. *)
Definition recorded_reply (sessionId : string) (count : nat) (c : append_call)
  : CodegenTools.reply CodegenTools.recorded :=
  CodegenTools.Result
    {| CodegenTools.recorded_message :=
         "Action '" +:+ call_toolName c +:+ "' recorded to session " +:+ sessionId;
       CodegenTools.recorded_actionCount := count |}.

Fixpoint recorded_replies (sessionId : string) (already : nat)
    (calls : list append_call) : list (CodegenTools.reply CodegenTools.recorded) :=
  match calls with
  | [] => []
  | c :: rest =>
      recorded_reply sessionId (S already) c :: recorded_replies sessionId (S already) rest
  end.

(** A context that holds the session id and no browser. *)
Definition context_of (sessionId : option string) : Browser.ToolContext :=
  {| Browser.browser := None; Browser.page := None;
     Browser.codegenSessionId := sessionId |}.




End Shapes.

Module LifecycleShapes.
Import JS Browser.

(** Every open page lives in a connected browser. *)
Definition pages_live (p : Process) : Prop :=
  forall pg b, open_pages p !! pg = Some b -> b ∈ connected p.

(** The page of the context, when it is open, lives in the browser of
    the context. *)
Definition page_in_browser (context : ToolContext) (p : Process) : Prop :=
  forall pg b, page context = Some pg -> open_pages p !! pg = Some b ->
               browser context = Some b.

Definition coherent (context : ToolContext) (p : Process) : Prop :=
  pages_live p /\ page_in_browser context p.

(** A Playwright whose launch fails. *)
Definition launch_fails : Playwright :=
  {| launch_ok := false; newContext_ok := true; newPage_ok := true |}.

(** An operation that reads the handle of the page it is given. *)
Definition read_page (pg : handle) (p : Process) : outcome handle * Process :=
  (Returned pg, p).

(** READY, but the page has been closed. *)
Definition page_closed_process : Process :=
  {| isInitializing := false; connected := {[ 0%nat ]}; open_pages := ∅;
     next_handle := 2%nat; launches := 1%nat; console := [] |}.

End LifecycleShapes.
(* ===================================================================== *)
(** ** Properties of the step translator *)
(* ===================================================================== *)

Module TranslatorProps.
Import JS Codegen Table.

Lemma warned_nil w : warned [] w = w.
Proof. destruct w; unfold warned; simpl. by rewrite app_nil_r. Qed.

Lemma warned_app l1 l2 w : warned l2 (warned l1 w) = warned (l1 ++ l2)%list w.
Proof. unfold warned; simpl. by rewrite map_app, app_assoc. Qed.

(** *** String conversion *)

(** A falsy value is a primitive. *)
Lemma falsy_convertible v : truthy v = false -> convertible v = true.
Proof. by destruct v. Qed.

Lemma to_string_array items :
  to_string (VArr items) =
  val parts <- collect (map item_to_string items); Returned (join "," parts).
Proof. reflexivity. Qed.

(** A value is converted to a string when it is [convertible], and the
    conversion throws the [TypeError] when it is not. *)
Lemma to_string_cases v :
  (convertible v = true -> exists s, to_string v = Returned s)
  /\ (convertible v = false -> to_string v = Thrown not_primitive).
Proof.
  induction v as [| | b | n | s | items IH | fields _] using value_nested_ind;
    try (split; [intros _; eexists; reflexivity | discriminate]).
  - split; [intros _; destruct b; eexists; reflexivity | discriminate].
  - rewrite to_string_array. cbn [convertible].
    assert ((forallb convertible items = true ->
             exists parts, collect (map item_to_string items) = Returned parts)
            /\ (forallb convertible items = false ->
                collect (map item_to_string items) = Thrown not_primitive))
      as [Hyes Hno].
    { induction IH as [|x rest [Hx1 Hx2] _ [IH1 IH2]]; cbn [forallb map collect].
      - split; [eauto | discriminate].
      - split.
        + intros [Hx Hrest]%andb_true_iff.
          destruct (Hx1 Hx) as [s Hs]. destruct (IH1 Hrest) as [parts Hparts].
          rewrite Hparts.
          destruct x; cbn [item_to_string]; rewrite ?Hs; eexists; reflexivity.
        + intros [Hx|Hrest]%andb_false_iff.
          * destruct x; try discriminate; cbn [item_to_string];
              by rewrite (Hx2 Hx).
          * rewrite (IH2 Hrest).
            destruct (convertible x) eqn:Hx.
            -- destruct (Hx1 eq_refl) as [s Hs].
               destruct x; cbn [item_to_string]; rewrite ?Hs; reflexivity.
            -- destruct x; try discriminate; cbn [item_to_string];
                 by rewrite (Hx2 eq_refl). }
    split.
    + intros H. destruct (Hyes H) as [parts ->]. eexists; reflexivity.
    + intros H. by rewrite (Hno H).
  - cbn [convertible to_string]. destruct (has_own "toString" fields); split;
      (discriminate || eauto).
Qed.

Lemma backticks_cases v :
  (convertible v = true -> exists s, backticks v = Returned s)
  /\ (convertible v = false -> backticks v = Thrown not_primitive).
Proof.
  unfold backticks. destruct (to_string_cases v) as [Hyes Hno]. split.
  - intros H. destruct (Hyes H) as [s ->]. eexists; reflexivity.
  - intros H. by rewrite (Hno H).
Qed.

(** *** Holes and shapes *)

Lemma fill_cases (parameters : gmap string value) p :
  (hole_converts parameters p = true -> exists text, fill parameters p = Returned text)
  /\ (hole_converts parameters p = false -> fill parameters p = Thrown not_primitive).
Proof.
  destruct p as [text|key]; cbn [hole_converts fill].
  - split; [eauto | discriminate].
  - unfold get. destruct (parameters !! key) as [v|];
      change (default VUndefined (Some ?x)) with x;
      change (default VUndefined (@None value)) with VUndefined.
    + destruct (truthy v) eqn:Hv.
      * apply backticks_cases.
      * rewrite (falsy_convertible _ Hv). split; [eauto | discriminate].
    + split; [eauto | discriminate].
Qed.

(** A hole gives a text or throws the [TypeError], nothing else. *)
Lemma fill_either (parameters : gmap string value) p :
  (exists text, fill parameters p = Returned text)
  \/ fill parameters p = Thrown not_primitive.
Proof.
  destruct (fill_cases parameters p) as [Hyes Hno].
  destruct (hole_converts parameters p); [left|right]; eauto.
Qed.

Lemma render_cases (parameters : gmap string value) shape :
  (forallb (hole_converts parameters) shape = true ->
   exists text, render parameters shape = Returned text)
  /\ (forallb (hole_converts parameters) shape = false ->
      render parameters shape = Thrown not_primitive).
Proof.
  induction shape as [|p rest [IH1 IH2]]; cbn [forallb render].
  - split; [eauto | discriminate].
  - destruct (fill_cases parameters p) as [Hyes Hno]. split.
    + intros [Hp Hrest]%andb_true_iff.
      destruct (Hyes Hp) as [text ->]. destruct (IH1 Hrest) as [more ->].
      eexists; reflexivity.
    + intros [Hp|Hrest]%andb_false_iff.
      * by rewrite (Hno Hp).
      * rewrite (IH2 Hrest).
        destruct (fill_either parameters p) as [[text ->]| ->]; reflexivity.
Qed.

(** Reading a parameter never distinguishes a missing key from a falsy
    value. *)
Lemma cell_fill (parameters : gmap string value) key :
  (if truthy (get parameters key) then backticks (get parameters key)
   else Returned EMPTY)
  = fill parameters (Param key).
Proof.
  unfold get; simpl. destruct (parameters !! key) as [v|]; simpl; done.
Qed.

Lemma fill_lit (parameters : gmap string value) text :
  fill parameters (Lit text) = Returned text.
Proof. reflexivity. Qed.

#[local] Arguments fill : simpl never.

Ltac case_label :=
  match goal with
  | H : context [String.eqb ?n ?l] |- _ =>
      destruct (String.eqb_spec n l) as [->|?]
  end.

Ltac case_fill :=
  match goal with
  | |- context [fill ?ps (Param ?k)] =>
      destruct (fill_either ps (Param k)) as [[? ->]| ->]
  end.

(** Every label of the table is translated by the [switch] to the shape
    the table gives, filled from the parameters. *)
Lemma convertActionToStep_table action shape w :
  shape_of (toolName action) translation_table = Some shape ->
  convertActionToStep action w =
  (val text <- render (parameters action) shape; Returned (Some text), w).
Proof.
  destruct action as [tn ps ts res]; simpl.
  unfold translation_table, shape_of.
  intros Hs.
  repeat (case_label;
    [ injection Hs as <-; clear;
      unfold convertActionToStep; simpl;
      unfold returning, bind, lift, ret,
        generateNavigateStep, generateFillStep, generateClickStep,
        generateGetTextStep, generateSelectStep, generateCheckStep,
        generateUncheckStep, generateHoverStep, generatePressKeyStep,
        generateWaitForElementStep, generateScreenshotStep, generateSaveToFileStep,
        generateExportPdfStep, generateExpectResponseStep,
        generateAssertResponseStep, generateCustomUserAgentStep,
        generateGetVisibleTextStep, generateGetVisibleHtmlStep;
      rewrite ?cell_fill, ?fill_lit;
      repeat case_fill; reflexivity
    | ]).
  discriminate.
Qed.

Lemma convertActionToStep_default action w :
  shape_of (toolName action) translation_table = None ->
  convertActionToStep action w = (Returned None, warned [toolName action] w).
Proof.
  destruct action as [tn ps ts res]; simpl.
  unfold translation_table, shape_of.
  intros Hs.
  repeat (case_label; [discriminate|]).
  unfold convertActionToStep, is_case; simpl.
  repeat match goal with
         | H : ?a <> ?b |- context [String.eqb ?a ?b] =>
             rewrite (proj2 (String.eqb_neq a b) H)
         end.
  reflexivity.
Qed.

Lemma in_table_shape toolName :
  in_table toolName = true <-> is_Some (shape_of toolName translation_table).
Proof. unfold in_table. by rewrite bool_decide_eq_true. Qed.

Lemma not_in_table_shape toolName :
  in_table toolName = false <-> shape_of toolName translation_table = None.
Proof.
  unfold in_table. rewrite bool_decide_eq_false, <- eq_None_not_Some. done.
Qed.

(** What a call of [convertActionToStep] does, in any world: it returns
    or throws what the table says, and warns when the table has no
    entry. *)
Lemma convertActionToStep_statement action w :
  convertActionToStep action w =
  (statement_of action,
   if in_table (toolName action) then w else warned [toolName action] w).
Proof.
  unfold statement_of.
  destruct (shape_of (toolName action) translation_table) as [shape|] eqn:Hs.
  - rewrite (proj2 (in_table_shape _)) by (rewrite Hs; eauto).
    by apply convertActionToStep_table.
  - rewrite (proj2 (not_in_table_shape _) Hs).
    by apply convertActionToStep_default.
Qed.

Lemma line_of_statement action :
  line_of action = match statement_of action with
                   | Returned line => line
                   | Thrown _ => None
                   end.
Proof. unfold line_of. by rewrite convertActionToStep_statement. Qed.

(** An action converts exactly when its statement does not throw. *)
Lemma statement_of_converts action :
  converts action = true -> statement_of action = Returned (line_of action).
Proof.
  rewrite line_of_statement. unfold converts, statement_of.
  destruct (shape_of (toolName action) translation_table) as [shape|]; [|done].
  intros Hc. destruct (proj1 (render_cases _ _) Hc) as [text ->]. reflexivity.
Qed.

Lemma statement_of_throws action :
  converts action = false -> statement_of action = Thrown not_primitive.
Proof.
  unfold converts, statement_of.
  destruct (shape_of (toolName action) translation_table) as [shape|]; [|done].
  intros Hc. by rewrite (proj2 (render_cases _ _) Hc).
Qed.

Lemma line_of_table action :
  converts action = true ->
  Returned (line_of action) =
  match shape_of (toolName action) translation_table with
  | Some shape => val text <- render (parameters action) shape; Returned (Some text)
  | None => Returned None
  end.
Proof. intros Hc. by rewrite <- statement_of_converts. Qed.

Lemma convertActionToStep_run action w :
  converts action = true ->
  convertActionToStep action w =
  (Returned (line_of action),
   if in_table (toolName action) then w else warned [toolName action] w).
Proof.
  intros Hc. by rewrite convertActionToStep_statement, statement_of_converts.
Qed.

Lemma line_of_in_table action :
  converts action = true ->
  is_Some (line_of action) <-> in_table (toolName action) = true.
Proof.
  intros Hc. rewrite in_table_shape.
  pose proof (line_of_table _ Hc) as Hl. unfold converts in Hc.
  destruct (shape_of (toolName action) translation_table) as [shape|].
  - destruct (proj1 (render_cases _ _) Hc) as [text Ht]. rewrite Ht in Hl.
    injection Hl as ->. split; eauto.
  - injection Hl as ->. split; intros [? ?]; discriminate.
Qed.

Lemma shape_of_elem toolName table shape :
  shape_of toolName table = Some shape -> In shape (map snd table).
Proof.
  induction table as [|[label s] rest IH]; [done|].
  cbn [shape_of map snd]. destruct (String.eqb toolName label).
  - intros [= ->]. by left.
  - intros Hs. right. by apply IH.
Qed.

Lemma table_opens_with_text toolName shape :
  shape_of toolName translation_table = Some shape -> opens_with_text shape = true.
Proof.
  intros Hs%shape_of_elem.
  assert (forallb opens_with_text (map snd translation_table) = true) as Hall
    by reflexivity.
  rewrite forallb_forall in Hall. by apply Hall.
Qed.

(** A shape of the table never renders to the empty string. *)
Lemma render_truthy toolName shape parameters text :
  shape_of toolName translation_table = Some shape ->
  render parameters shape = Returned text ->
  truthy (VStr text) = true.
Proof.
  intros Hs%table_opens_with_text.
  destruct shape as [|[[|c t]|k] rest]; try discriminate.
  cbn [render fill and_then].
  destruct (render parameters rest); [|discriminate].
  by intros [= <-].
Qed.

Lemma line_of_truthy action line :
  converts action = true ->
  line_of action = Some line -> truthy (VStr line) = true.
Proof.
  intros Hc Hl. pose proof (line_of_table _ Hc) as Ht. rewrite Hl in Ht.
  destruct (shape_of (toolName action) translation_table) as [shape|] eqn:Hs;
    [|discriminate].
  destruct (render (parameters action) shape) as [text|] eqn:Hr; [|discriminate].
  injection Ht as ->. by eapply render_truthy.
Qed.

(** The loop: the accumulated steps grow by the lines of the actions in
    the table, in order; the console by a warning for each other one. *)
Lemma translate_all_run actions acc w :
  forallb converts actions = true ->
  translate_all actions acc w =
  (Returned (acc ++ omap line_of actions)%list, warned (skipped actions) w).
Proof.
  revert acc w. induction actions as [|a rest IH]; intros acc w.
  - intros _. simpl. unfold ret, skipped. simpl. by rewrite app_nil_r, warned_nil.
  - cbn [forallb]. intros [Ha Hrest]%andb_true_iff.
    cbn [translate_all]. unfold bind. rewrite convertActionToStep_run by done.
    unfold skipped. cbn [omap list_omap filter list_filter].
    destruct (line_of a) as [line|] eqn:Hl.
    + rewrite (line_of_truthy _ _ Ha Hl).
      assert (in_table (toolName a) = true) as Hin
        by (apply line_of_in_table; [done | rewrite Hl; eauto]).
      rewrite Hin. rewrite IH by done. rewrite <- app_assoc.
      rewrite decide_False by done. done.
    + assert (in_table (toolName a) = false) as Hin.
      { destruct (in_table (toolName a)) eqn:E; [|done].
        apply line_of_in_table in E; [|done]. rewrite Hl in E. by destruct E. }
      rewrite Hin. rewrite IH by done. rewrite warned_app.
      rewrite decide_True by done. done.
Qed.

(** Whatever the actions, the loop returns or throws the same in every
    world, and only adds warnings to the console. *)
Lemma translate_all_any actions : forall acc,
  exists o names, forall w, translate_all actions acc w = (o, warned names w).
Proof.
  induction actions as [|a rest IH]; intros acc.
  - exists (Returned acc), []. intros w. by rewrite warned_nil.
  - cbn [translate_all]. unfold bind.
    destruct (statement_of a) as [[line|]|e] eqn:Hst.
    + destruct (IH (if truthy (VStr line) then (acc ++ [line])%list else acc))
        as (o & names & Hrest).
      exists o, (if in_table (toolName a) then names else toolName a :: names).
      intros w. rewrite convertActionToStep_statement, Hst.
      destruct (in_table (toolName a));
        destruct (truthy (VStr line)); rewrite Hrest; try done;
        by rewrite warned_app.
    + destruct (IH acc) as (o & names & Hrest).
      exists o, (if in_table (toolName a) then names else toolName a :: names).
      intros w. rewrite convertActionToStep_statement, Hst, Hrest.
      destruct (in_table (toolName a)); [done|]. by rewrite warned_app.
    + exists (Thrown e), (if in_table (toolName a) then [] else [toolName a]).
      intros w. rewrite convertActionToStep_statement, Hst.
      destruct (in_table (toolName a)); [by rewrite warned_nil | done].
Qed.

(** The loop throws as soon as it meets an action that does not
    convert. *)
Lemma translate_all_throws actions : forall acc w,
  forallb converts actions = false ->
  fst (translate_all actions acc w) = Thrown not_primitive.
Proof.
  induction actions as [|a rest IH]; intros acc w; [discriminate|].
  cbn [forallb translate_all]. unfold bind.
  rewrite convertActionToStep_statement.
  destruct (converts a) eqn:Ha.
  - rewrite statement_of_converts by done. cbn [andb]. intros Hrest.
    destruct (line_of a) as [line|]; [destruct (truthy (VStr line))|];
      by apply IH.
  - intros _. by rewrite statement_of_throws.
Qed.

End TranslatorProps.

Module GenerationProps.
Import JS Codegen Table TranslatorProps.

(** *** The name of the test *)

Lemma digit_not_T n : Ascii.eqb (digit n) "T" = false.
Proof.
  unfold digit.
  assert (0 <= n mod 10 < 10)%Z as Hr by (apply Z.mod_pos_bound; lia).
  remember (Z.to_nat (n mod 10)) as k eqn:Hk.
  assert (k < 10)%nat as Hlt by lia. clear Hk Hr.
  do 10 (destruct k as [|k]; [reflexivity|]). lia.
Qed.

Lemma lacks_app sep s1 s2 :
  lacks sep s1 = true -> lacks sep s2 = true -> lacks sep (s1 +:+ s2) = true.
Proof.
  induction s1 as [|c s1 IH]; simpl; [done|].
  intros [Hc H1]%andb_true_iff H2. rewrite Hc. simpl. by apply IH.
Qed.

Lemma lacks_pad width n : lacks "T" (pad width n) = true.
Proof.
  revert n. induction width as [|w IH]; intros n; cbn [pad]; [done|].
  apply lacks_app; [apply IH|]. cbn [lacks]. by rewrite digit_not_T.
Qed.

Lemma lacks_iso_date days : lacks "T" (iso_date days) = true.
Proof.
  unfold iso_date. destruct (civil_from_days days) as [[y m] d].
  apply lacks_app.
  { unfold iso_year.
    destruct (_ && _); [apply lacks_pad|].
    apply lacks_app; [by destruct (y <? 0)%Z | apply lacks_pad]. }
  apply (lacks_app _ "-"); [done|].
  apply lacks_app; [apply lacks_pad|].
  apply (lacks_app _ "-"); [done|]. apply lacks_pad.
Qed.

Lemma split_first_app sep s1 s2 :
  lacks sep s1 = true -> split_first sep (s1 +:+ String sep s2) = s1.
Proof.
  induction s1 as [|c s1 IH]; simpl.
  - by rewrite Ascii.eqb_refl.
  - intros [Hc H1]%andb_true_iff.
    apply negb_true_iff in Hc. rewrite Hc. by rewrite IH.
Qed.

(** The date part of the ISO text is all that [split("T")[0]] keeps. *)
Lemma toISOString_date t :
  valid_time t = true ->
  exists iso, toISOString t = Returned iso /\
              split_first "T" iso = iso_date (utc_day t).
Proof.
  intros Hv. unfold toISOString. rewrite Hv. eexists; split; [done|].
  change ("T" +:+ ?x) with (String "T"%char x).
  apply split_first_app, lacks_iso_date.
Qed.

(** [createTestCase] on a session whose start time is a date and whose
    actions convert. *)
Lemma createTestCase_run this session w :
  valid_time (startTime session) = true ->
  forallb converts (actions session) = true ->
  createTestCase this session w =
  (Returned {| name := testNamePrefix this +:+ "_" +:+
                       iso_date (utc_day (startTime session));
               steps := omap line_of (actions session);
               imports := ["test"; "expect"] |},
   warned (skipped (actions session)) w).
Proof.
  intros Hv Hc. destruct (toISOString_date _ Hv) as (iso & Hiso & Hsplit).
  unfold createTestCase, bind, lift, ret. rewrite Hiso.
  rewrite translate_all_run by done. simpl. by rewrite Hsplit.
Qed.

(** It throws the [TypeError] when an action does not convert. *)
Lemma createTestCase_throws this session w :
  valid_time (startTime session) = true ->
  forallb converts (actions session) = false ->
  fst (createTestCase this session w) = Thrown not_primitive.
Proof.
  intros Hv Hc. destruct (toISOString_date _ Hv) as (iso & Hiso & Hsplit).
  unfold createTestCase, bind, lift, ret. rewrite Hiso.
  pose proof (translate_all_throws (actions session) [] w Hc) as Ht.
  destruct (translate_all (actions session) [] w) as [[steps|e] w'];
    simpl in *; congruence.
Qed.

(** Whatever the session, it returns or throws the same in every world,
    and only adds warnings to the console. *)
Lemma createTestCase_any this session :
  exists o names, forall w, createTestCase this session w = (o, warned names w).
Proof.
  unfold createTestCase, bind, lift.
  destruct (toISOString (startTime session)) as [iso|e].
  - destruct (translate_all_any (actions session) []) as (o & names & Ht).
    destruct o as [steps|e].
    + eexists _, names. intros w. rewrite Ht. reflexivity.
    + exists (Thrown e), names. intros w. by rewrite Ht.
  - exists (Thrown e), []. intros w. by rewrite warned_nil.
Qed.

(** On any other session it throws before it translates anything. *)
Lemma createTestCase_invalid this session w :
  valid_time (startTime session) = false ->
  createTestCase this session w = (Thrown "Invalid time value", w).
Proof.
  intros Hv. unfold createTestCase, bind, lift, toISOString. by rewrite Hv.
Qed.

End GenerationProps.

Module TranslationSpec.
Import JS Codegen Table TranslatorProps GenerationProps.

(** *** Recording *)

Lemma appended_nil s : appended s [] = s.
Proof. destruct s; unfold appended; simpl. by rewrite app_nil_r. Qed.

Lemma appended_appended s l1 l2 :
  appended (appended s l1) l2 = appended s (l1 ++ l2).
Proof. unfold appended; simpl. by rewrite app_assoc. Qed.

Lemma with_sessions_id w : with_sessions (activeSessions w) w = w.
Proof. by destruct w. Qed.

Lemma addAction_known sessionId s toolName parameters result now w :
  activeSessions w !! sessionId = Some s ->
  addAction sessionId toolName parameters result now w =
  (Returned (Some {| toolName := toolName; parameters := parameters;
                     timestamp := now; result := result |}),
   with_sessions
     (<[sessionId := appended s [{| toolName := toolName; parameters := parameters;
                                    timestamp := now; result := result |}]]>
        (activeSessions w)) w).
Proof.
  intros Hs. unfold addAction, bind, sessions_get. rewrite Hs. reflexivity.
Qed.

Lemma record_all_run sessionId calls : forall s w,
  activeSessions w !! sessionId = Some s ->
  record_all sessionId calls w =
  (Returned tt,
   with_sessions
     (<[sessionId := appended s (map action_of_call calls)]> (activeSessions w)) w).
Proof.
  induction calls as [|c rest IH]; intros s w Hs.
  - simpl. rewrite appended_nil, insert_id by done.
    by rewrite with_sessions_id.
  - cbn [record_all]. unfold bind at 1.
    rewrite (addAction_known _ s) by done.
    erewrite IH by (simpl; apply lookup_insert_eq).
    simpl. rewrite appended_appended, insert_insert_eq. reflexivity.
Qed.

(** C1, as stated, fails: a session is opened and two actions of the
    table are appended, a click whose selector is an object with a
    [toString] property and a navigation; generation then produces no
    line at all, it throws the [TypeError] of the string conversion. *)
Lemma object_parameter_aborts_generation :
  exists session w1,
    (run createSession DEFAULT_OPTIONS None "u" 0;
     run record_all "u" object_calls;
     getSession "u") empty_world = (Returned (Some session), w1)
    /\ map toolName (actions session) = ["click"; "navigate"]
    /\ forallb (fun a => in_table (toolName a)) (actions session) = true
    /\ createTestCase DEFAULT_OPTIONS session w1 =
         (Thrown "Cannot convert object to primitive value", w1).
Proof.
  eexists _, _. split; [vm_compute; reflexivity|].
  split; [reflexivity|]. split; [reflexivity|]. vm_compute. reflexivity.
Qed.

(** C1, amended.  Open a session, append any sequence of actions to it
    in which every parameter that a statement inserts has a string
    conversion, and generate: the steps of the test case are exactly the
    lines of the appended actions whose tool name is in the translation
    table, in the order of the action list; an action outside the table
    gives no line and one [Unsupported tool] warning on the console, and
    the translation goes on to the end and returns.  The clock reading
    taken when the session was opened is assumed to be a date, as every
    reading of [Date.now()] is. *)
Theorem generation_translates_supported_in_order
    this options uuid now (calls : list append_call) w :
  valid_time now = true ->
  forallb converts (map action_of_call calls) = true ->
  exists session w1,
    (run createSession this options uuid now;
     run record_all uuid calls;
     getSession uuid) w = (Returned (Some session), w1)
    /\ actions session = map action_of_call calls
    /\ (exists testCase,
          createTestCase this session w1 =
            (Returned testCase, warned (skipped (actions session)) w1)
          /\ steps testCase = omap line_of (actions session))
    /\ (forall action,
          converts action = true ->
          (is_Some (line_of action) <-> in_table (toolName action) = true))
    /\ (forall action w',
          converts action = true ->
          convertActionToStep action w' =
            (Returned (line_of action),
             if in_table (toolName action) then w'
             else warned [toolName action] w')).
Proof.
  intros Hv Hc.
  set (s0 := {| id := uuid; actions := []; startTime := now; endTime := None;
                options := spread_options this options |}).
  exists (appended s0 (map action_of_call calls)).
  eexists. split; [|split; [|split; [|split]]].
  - unfold bind at 1. unfold createSession, bind at 1, sessions_set, ret.
    cbn [id]. fold s0.
    unfold bind at 1.
    erewrite (record_all_run _ _ s0) by (simpl; apply lookup_insert_eq).
    unfold getSession, sessions_get. cbn [activeSessions with_sessions].
    rewrite lookup_insert_eq. reflexivity.
  - reflexivity.
  - eexists. split; [apply createTestCase_run; [exact Hv|exact Hc]|reflexivity].
  - apply line_of_in_table.
  - intros action w' Ha. by apply convertActionToStep_run.
Qed.

Lemma generation_translates_supported_in_order_witness :
  (valid_time 0 = true
   /\ forallb converts (map action_of_call example_calls) = true)
  /\ exists session w1,
    (run createSession DEFAULT_OPTIONS None "u" 0;
     run record_all "u" example_calls;
     getSession "u") empty_world = (Returned (Some session), w1)
    /\ actions session = map action_of_call example_calls
    /\ (exists testCase,
          createTestCase DEFAULT_OPTIONS session w1 =
            (Returned testCase, warned (skipped (actions session)) w1)
          /\ steps testCase = omap line_of (actions session))
    /\ (forall action,
          converts action = true ->
          (is_Some (line_of action) <-> in_table (toolName action) = true))
    /\ (forall action w',
          converts action = true ->
          convertActionToStep action w' =
            (Returned (line_of action),
             if in_table (toolName action) then w'
             else warned [toolName action] w')).
Proof.
  split; [split; reflexivity|].
  apply (generation_translates_supported_in_order
           DEFAULT_OPTIONS None "u" 0 example_calls empty_world);
    reflexivity.
Defined.

(** The scenario, computed: two lines, in order, and one warning. *)
Example scenario_lines :
  omap line_of (map action_of_call example_calls) =
    ["await page.goto(`https://example.com`);"; "await page.click(`#btn`);"]
  /\ skipped (map action_of_call example_calls) = ["frobnicate"].
Proof. split; vm_compute; reflexivity. Qed.

(** C5, as stated, fails: [click] is in the table, and for a click whose
    selector is an object with a [toString] property no statement is
    emitted; the translation throws. *)
Lemma object_selector_gets_no_statement :
  in_table "click" = true
  /\ convertActionToStep (action "click" object_selector) empty_world =
       (Thrown "Cannot convert object to primitive value", empty_world).
Proof. split; vm_compute; reflexivity. Qed.

(** C5, amended.  An action whose tool name is in the table, and whose
    inserted parameters have a string conversion, always gets its
    statement: [convertActionToStep] returns the shape of the table with
    every hole filled, the loop of [createTestCase] pushes it, and a hole
    whose parameter the action does not have is filled with the
    placeholder, the text of two double quotes.  So [click] with no
    parameters gives a click statement on the placeholder. *)
Theorem table_action_always_emits (a : CodegenAction) shape w :
  shape_of (toolName a) translation_table = Some shape ->
  converts a = true ->
  (exists text,
     render (parameters a) shape = Returned text
     /\ convertActionToStep a w = (Returned (Some text), w)
     /\ translate_all [a] [] w = (Returned [text], w))
  /\ (forall key, parameters a !! key = None ->
                  fill (parameters a) (Param key) = Returned (String "034"%char (String "034"%char EmptyString)))
  /\ convertActionToStep (action "click" ∅) w =
       (Returned (Some ("await page.click(" +:+ String "034"%char (String "034"%char EmptyString) +:+ ");")), w).
Proof.
  intros Hs Hc. split; [|split].
  - unfold converts in Hc. rewrite Hs in Hc.
    destruct (proj1 (render_cases _ _) Hc) as [text Ht].
    exists text. split; [done|].
    assert (convertActionToStep a w = (Returned (Some text), w)) as Hstep
      by (rewrite (convertActionToStep_table _ shape) by done; by rewrite Ht).
    split; [done|].
    cbn [translate_all]. unfold bind. rewrite Hstep.
    rewrite (render_truthy _ _ _ _ Hs Ht). reflexivity.
  - intros key Hk. unfold fill. by rewrite Hk.
  - reflexivity.
Qed.

Lemma table_action_always_emits_witness :
  (shape_of "click" translation_table =
     Some [Lit "await page.click("; Param "selector"; Lit ");"]
   /\ converts (action "click" ∅) = true)
  /\ convertActionToStep (action "click" ∅) empty_world =
       (Returned (Some ("await page.click(" +:+ String "034"%char (String "034"%char EmptyString) +:+ ");")), empty_world).
Proof.
  split; [split; reflexivity|].
  apply (table_action_always_emits (action "click" ∅)
           [Lit "await page.click("; Param "selector"; Lit ");"] empty_world);
    reflexivity.
Defined.

(** C6.  A legacy name is translated exactly as the name it stands for:
    same statement, same world afterwards, whatever the parameters (and
    the other fields of the action) are; and what both are translated to
    is the one shape the table gives the two names, filled from the
    parameters. *)
Theorem legacy_alias_same_statement alias canonical parameters timestamp result w :
  (alias, canonical) ∈ legacy_aliases ->
  convertActionToStep
    {| toolName := alias; parameters := parameters;
       timestamp := timestamp; result := result |} w
  = convertActionToStep
      {| toolName := canonical; parameters := parameters;
         timestamp := timestamp; result := result |} w
  /\ exists shape,
       shape_of alias translation_table = Some shape
       /\ shape_of canonical translation_table = Some shape
       /\ convertActionToStep
            {| toolName := alias; parameters := parameters;
               timestamp := timestamp; result := result |} w
          = (val line <- render parameters shape; Returned (Some line), w).
Proof.
  unfold legacy_aliases. intros Hin.
  repeat (apply elem_of_cons in Hin as [[= -> ->]|Hin];
          [ split; [reflexivity |];
            eexists; split; [reflexivity|]; split; [reflexivity|];
            by apply convertActionToStep_table
          | ]).
  by apply elem_of_nil in Hin.
Qed.

Lemma legacy_alias_same_statement_witness :
  ("playwright_fill", "type") ∈ legacy_aliases
  /\ convertActionToStep
       (action "playwright_fill" {[ "selector" := VStr "#q"; "text" := VStr "volt" ]})
       empty_world
     = convertActionToStep
         (action "type" {[ "selector" := VStr "#q"; "text" := VStr "volt" ]})
         empty_world.
Proof.
  assert (("playwright_fill", "type") ∈ legacy_aliases) as Hin
    by (unfold legacy_aliases; set_solver).
  split; [exact Hin|].
  exact (proj1 (legacy_alias_same_statement "playwright_fill" "type"
                  {[ "selector" := VStr "#q"; "text" := VStr "volt" ]}
                  0 VUndefined empty_world Hin)).
Defined.

(** *** Falsy parameters *)

Lemma append_empty_r s : s +:+ EmptyString = s.
Proof.
  induction s as [|c s IH]; [done|].
  change (String c (s +:+ EmptyString) = String c s). by rewrite IH.
Qed.

Lemma fill_falsy (parameters : gmap string value) key v p :
  truthy v = false ->
  fill (<[key := v]> parameters) p = fill (delete key parameters) p.
Proof.
  intros Hv. destruct p as [text|k]; [done|]. unfold fill.
  destruct (decide (key = k)) as [->|Hne].
  - by rewrite lookup_insert_eq, lookup_delete_eq, Hv.
  - by rewrite lookup_insert_ne, lookup_delete_ne.
Qed.

Lemma render_falsy (parameters : gmap string value) key v shape :
  truthy v = false ->
  render (<[key := v]> parameters) shape = render (delete key parameters) shape.
Proof.
  intros Hv. induction shape as [|p rest IH]; [done|].
  cbn [render]. by rewrite IH, (fill_falsy _ _ v).
Qed.

(** C10.  A parameter that is present with a falsy value is rendered as
    if it were not there.  The outcome of the translation (and the
    console) is the same whether the key holds the falsy value or is
    deleted.  For a tool name of the table the translation gives the
    shape of the table filled from the parameters, and the hole of the
    falsy parameter is filled with the placeholder, the text of two
    double quotes, not with the text of the value: a statement with that
    one hole is the text before it, the two quotes and the text after
    it.  The empty string, 0, false and null are falsy; so [click] on the
    empty selector and [click] without a selector both give the click
    statement on the placeholder. *)
Theorem falsy_parameter_is_absent
    toolName (parameters : gmap string value) key v timestamp result w :
  truthy v = false ->
  convertActionToStep
    {| toolName := toolName; parameters := <[key := v]> parameters;
       timestamp := timestamp; result := result |} w
  = convertActionToStep
      {| toolName := toolName; parameters := delete key parameters;
         timestamp := timestamp; result := result |} w
  /\ (forall shape,
        shape_of toolName translation_table = Some shape ->
        convertActionToStep
          {| toolName := toolName; parameters := <[key := v]> parameters;
             timestamp := timestamp; result := result |} w
        = (val line <- render (<[key := v]> parameters) shape;
           Returned (Some line), w)
        /\ fill (<[key := v]> parameters) (Param key) = Returned (String "034"%char (String "034"%char EmptyString))
        /\ (forall before after,
              shape = [Lit before; Param key; Lit after] ->
              convertActionToStep
                {| toolName := toolName; parameters := <[key := v]> parameters;
                   timestamp := timestamp; result := result |} w
              = (Returned (Some (before +:+ String "034"%char (String "034"%char EmptyString) +:+ after)), w)))
  /\ (truthy (VStr EmptyString) = false /\ truthy (VNum (Int 0)) = false
      /\ truthy (VBool false) = false /\ truthy VNull = false)
  /\ convertActionToStep (action "click" {[ "selector" := VStr EmptyString ]}) w
     = convertActionToStep (action "click" ∅) w
  /\ convertActionToStep (action "click" {[ "selector" := VStr EmptyString ]}) w
     = (Returned (Some ("await page.click(" +:+ String "034"%char (String "034"%char EmptyString) +:+ ");")), w).
Proof.
  intros Hv.
  assert (fill (<[key := v]> parameters) (Param key) = Returned (String "034"%char (String "034"%char EmptyString)))
    as Hfill by (unfold fill; by rewrite lookup_insert_eq, Hv).
  split; [|split; [|split; [repeat split|split; reflexivity]]].
  - rewrite !convertActionToStep_statement. unfold statement_of.
    cbn [Codegen.toolName Codegen.parameters].
    destruct (shape_of toolName translation_table) as [shape|]; [|done].
    by rewrite (render_falsy _ _ v).
  - intros shape Hs. split; [|split; [exact Hfill|]].
    + by rewrite (convertActionToStep_table _ shape).
    + intros before after ->.
      rewrite (convertActionToStep_table _ [Lit before; Param key; Lit after])
        by done.
      cbn [Codegen.parameters render]. rewrite Hfill. cbn [fill and_then].
      by rewrite append_empty_r.
Qed.

Lemma falsy_parameter_is_absent_witness :
  truthy (VNum (Int 0)) = false
  /\ convertActionToStep
       (action "type" (<[ "text" := VNum (Int 0) ]> {[ "selector" := VStr "#q" ]}))
       empty_world
     = convertActionToStep
         (action "type" (delete "text" {[ "selector" := VStr "#q" ]}))
         empty_world.
Proof.
  split; [reflexivity|].
  exact (proj1 (falsy_parameter_is_absent "type" {[ "selector" := VStr "#q" ]}
                  "text" (VNum (Int 0)) 0 VUndefined empty_world eq_refl)).
Defined.

(** *** The import block *)

(** C9.  Whatever the session and its actions, a test case that
    [createTestCase] returns imports [test] and [expect] and nothing else,
    and the generated file opens with these two import lines; the only
    sessions for which no test case is returned are those whose start
    time is not a date and those with a parameter that has no string
    conversion. *)
Theorem import_block_is_constant this session w :
  match createTestCase this session w with
  | (Returned testCase, _) =>
      imports testCase = ["test"; "expect"]
      /\ import_block testCase = baseline_imports
      /\ generateTestCode testCase =
           nl +:+ nl +:+ baseline_imports +:+ nl +:+ nl +:+
           "test('" +:+ name testCase +:+ "', async ({ page, context }) => {" +:+ nl +:+
           "  " +:+ join nl (steps testCase) +:+ nl +:+ "});"
      /\ valid_time (startTime session) = true
  | (Thrown _, _) =>
      valid_time (startTime session) = false
      \/ forallb converts (actions session) = false
  end.
Proof.
  destruct (valid_time (startTime session)) eqn:Hv.
  - destruct (forallb converts (actions session)) eqn:Hc.
    + rewrite createTestCase_run by done. repeat split.
    + pose proof (createTestCase_throws this session w Hv Hc) as Ht.
      destruct (createTestCase this session w) as [[testCase|e] w'];
        [discriminate | by right].
  - rewrite createTestCase_invalid by done. by left.
Qed.

(** *** Determinism *)

Lemma test_text_run this session w :
  valid_time (startTime session) = true ->
  forallb converts (actions session) = true ->
  test_text this session w =
  (Returned (generateTestCode
               {| name := testNamePrefix this +:+ "_" +:+
                          iso_date (utc_day (startTime session));
                  steps := omap line_of (actions session);
                  imports := ["test"; "expect"] |}),
   warned (skipped (actions session)) w).
Proof.
  intros Hv Hc. unfold test_text, bind. by rewrite createTestCase_run.
Qed.

Lemma test_text_invalid this session w :
  valid_time (startTime session) = false ->
  test_text this session w = (Thrown "Invalid time value", w).
Proof.
  intros Hv. unfold test_text, bind. by rewrite createTestCase_invalid.
Qed.

Lemma test_text_throws this session w :
  valid_time (startTime session) = true ->
  forallb converts (actions session) = false ->
  fst (test_text this session w) = Thrown not_primitive.
Proof.
  intros Hv Hc. unfold test_text, bind.
  pose proof (createTestCase_throws this session w Hv Hc) as Ht.
  destruct (createTestCase this session w) as [[testCase|e] w'];
    simpl in *; congruence.
Qed.

(** [generateTest] writes and returns the text of [test_text]. *)
Lemma generateTest_text `{NodePath} this sessionId s w :
  activeSessions w !! sessionId = Some s ->
  valid_time (startTime s) = true ->
  forallb converts (actions s) = true ->
  truthy (VStr (id s)) = true ->
  exists text path w1 w2,
    test_text this s w = (Returned text, w1)
    /\ generateTest this sessionId w =
         (Returned {| testCode := text; filePath := path; sessionId := id s |}, w2)
    /\ files w2 !! path = Some (Text text).
Proof.
  intros Hs Hv Hc Hid.
  unfold generateTest, getOutputFilePath, bind, sessions_get.
  rewrite Hs, test_text_run, createTestCase_run by done.
  rewrite Hid. cbn [negb]. unfold ret, fs_mkdir, fs_writeFile.
  cbn [directories]. rewrite bool_decide_eq_true_2 by set_solver.
  eexists _, _, _, _. split; [reflexivity|]. split; [reflexivity|].
  simpl. by rewrite lookup_insert_eq.
Qed.

Lemma generateTest_unknown `{NodePath} this sessionId w :
  activeSessions w !! sessionId = None ->
  generateTest this sessionId w =
  (Thrown ("Session with ID " +:+ sessionId +:+ " not found"), w).
Proof.
  intros Hs. unfold generateTest, bind, sessions_get. by rewrite Hs.
Qed.

(** C2, as stated, fails: two sessions with the same (empty) action list
    and the same options, started a day apart, give different text. *)
Lemma start_time_changes_the_text :
  actions session_day0 = actions session_day1
  /\ options session_day0 = options session_day1
  /\ fst (test_text DEFAULT_OPTIONS session_day0 empty_world)
     <> fst (test_text DEFAULT_OPTIONS session_day1 empty_world).
Proof. split; [reflexivity|split; [reflexivity|]]. vm_compute. discriminate. Qed.

(** C2, amended.  The generated text is a function of the generator's
    prefix, the action list and the UTC calendar day of the start time:
    two sessions with the same actions, started on the same day (both
    start times being dates, or neither), give the same outcome with the
    same generator, whatever their ids, end times, stored options and
    the worlds they are generated in. *)
Theorem generated_text_depends_on_actions_and_day this s1 s2 w1 w2 :
  actions s1 = actions s2 ->
  utc_day (startTime s1) = utc_day (startTime s2) ->
  valid_time (startTime s1) = valid_time (startTime s2) ->
  fst (test_text this s1 w1) = fst (test_text this s2 w2).
Proof.
  intros Ha Hd Hv.
  destruct (valid_time (startTime s2)) eqn:Hv2.
  - destruct (forallb converts (actions s2)) eqn:Hc.
    + rewrite !test_text_run by (done || by rewrite Ha).
      simpl. by rewrite Ha, Hd.
    + rewrite !test_text_throws by (done || by rewrite Ha). done.
  - by rewrite !test_text_invalid.
Qed.

Lemma generated_text_depends_on_actions_and_day_witness :
  (actions session_day0 = actions session_day0_later
   /\ utc_day (startTime session_day0) = utc_day (startTime session_day0_later)
   /\ valid_time (startTime session_day0) = valid_time (startTime session_day0_later))
  /\ fst (test_text DEFAULT_OPTIONS session_day0 empty_world)
     = fst (test_text DEFAULT_OPTIONS session_day0_later
              (warned ["frobnicate"] empty_world)).
Proof.
  split; [repeat split|].
  apply (generated_text_depends_on_actions_and_day DEFAULT_OPTIONS
           session_day0 session_day0_later empty_world
           (warned ["frobnicate"] empty_world)); reflexivity.
Defined.

End TranslationSpec.

(* ===================================================================== *)
(** ** Properties of the registry and of the snapshots *)
(* ===================================================================== *)

Module RegistrySpec.
Import JS Codegen Table.

(** C4.  On a session id the registry does not hold, [addAction] and
    [endSession] return [null] and [getSession] returns [undefined] (all
    [None] here); none of them throws, and none changes the world, so
    the registry in particular is as it was. *)
Theorem unknown_session_is_not_found
    sessionId toolName (parameters : gmap string value) result now w :
  activeSessions w !! sessionId = None ->
  addAction sessionId toolName parameters result now w = (Returned None, w)
  /\ endSession sessionId now w = (Returned None, w)
  /\ getSession sessionId w = (Returned None, w).
Proof.
  intros Hs.
  unfold addAction, endSession, getSession, bind, sessions_get.
  rewrite Hs. done.
Qed.

Lemma unknown_session_is_not_found_witness :
  activeSessions world_example !! "zz" = None
  /\ addAction "zz" "click" ∅ VUndefined 5 world_example
     = (Returned None, world_example)
  /\ endSession "zz" 5 world_example = (Returned None, world_example)
  /\ getSession "zz" world_example = (Returned None, world_example).
Proof.
  split; [reflexivity|].
  apply (unknown_session_is_not_found "zz" "click" ∅ VUndefined 5 world_example).
  reflexivity.
Defined.

(** *** The registry keeps sessions under their ids *)

Lemma keyed_by_id_empty : keyed_by_id empty_world.
Proof. intros key s. unfold empty_world; simpl. by rewrite lookup_empty. Qed.

Lemma keyed_by_id_insert w s :
  keyed_by_id w ->
  keyed_by_id (with_sessions (<[id s := s]> (activeSessions w)) w).
Proof.
  intros Hk key s'. simpl. rewrite lookup_insert.
  case_decide as Hd; [by intros [= <-] | apply Hk].
Qed.

Lemma createSession_keyed this options uuid now w :
  keyed_by_id w -> keyed_by_id (snd (createSession this options uuid now w)).
Proof. intros Hk. by apply (keyed_by_id_insert w). Qed.

Lemma addAction_keyed sessionId toolName parameters result now w :
  keyed_by_id w ->
  keyed_by_id (snd (addAction sessionId toolName parameters result now w)).
Proof.
  intros Hk. unfold addAction, bind, sessions_get.
  destruct (activeSessions w !! sessionId) as [s|] eqn:Hs; [|done].
  simpl. intros key s'. simpl. rewrite lookup_insert.
  case_decide as Hd; [|apply Hk].
  intros [= <-]. simpl. subst key. by apply Hk.
Qed.

Lemma endSession_keyed sessionId now w :
  keyed_by_id w -> keyed_by_id (snd (endSession sessionId now w)).
Proof.
  intros Hk. unfold endSession, bind, sessions_get.
  destruct (activeSessions w !! sessionId) as [s|] eqn:Hs; [|done].
  simpl. intros key s'. simpl. rewrite lookup_insert.
  case_decide as Hd; [|apply Hk].
  intros [= <-]. simpl. subst key. by apply Hk.
Qed.

Lemma removeSession_keyed sessionId w :
  keyed_by_id w -> keyed_by_id (snd (removeSession sessionId w)).
Proof.
  intros Hk key s. simpl. rewrite lookup_delete.
  case_decide; [done | apply Hk].
Qed.

(** Generation and saving, for contrast, do throw on such an id. *)
Lemma saveSessionToDisk_unknown `{NodePath} this sessionId directory w :
  activeSessions w !! sessionId = None ->
  saveSessionToDisk this sessionId directory w =
  (Thrown ("Session with ID " +:+ sessionId +:+ " not found"), w).
Proof.
  intros Hs. unfold saveSessionToDisk, bind, sessions_get. by rewrite Hs.
Qed.

(** *** Values through JSON *)

(** A clean value is written, and read back as it was. *)
Lemma json_clean_roundtrip v :
  json_clean v = true ->
  exists j, value_to_json v = Some j /\ json_to_value j = v.
Proof.
  induction v as [| |b|n|s|items IH|fields IH] using value_nested_ind;
    intros Hc; try (eexists; split; reflexivity); try discriminate.
  - destruct n; try discriminate. eexists; split; reflexivity.
  - cbn [json_clean] in Hc. cbn [value_to_json].
    eexists; split; [reflexivity|]. cbn [json_to_value]. f_equal.
    rewrite map_map.
    induction IH as [|x rest Hx _ IHrest]; [done|].
    cbn [forallb] in Hc. apply andb_true_iff in Hc as [Hcx Hcr].
    cbn [map]. rewrite IHrest by done.
    destruct (Hx Hcx) as (j & Hj & Hback). rewrite Hj.
    unfold default, from_option, Datatypes.id. by rewrite Hback.
  - cbn [json_clean] in Hc. cbn [value_to_json].
    eexists; split; [reflexivity|]. cbn [json_to_value]. f_equal.
    induction IH as [|[k x] rest Hx _ IHrest]; [done|].
    cbn [forallb snd] in Hc. apply andb_true_iff in Hc as [Hcx Hcr].
    cbn [omap list_omap snd fst]. cbn [snd] in Hx.
    destruct (Hx Hcx) as (j & Hj & Hback). rewrite Hj.
    cbn [map fst snd]. rewrite Hback. f_equal. by apply IHrest.
Qed.

(** *** Records through JSON *)

Lemma parameters_roundtrip (l : list (string * value)) :
  forallb (fun p => json_clean (snd p)) l = true ->
  map (fun p => (fst p, json_to_value (snd p)))
      (omap (fun p => match value_to_json (snd p) with
                      | Some j => Some (fst p, j)
                      | None => None
                      end) l) = l.
Proof.
  induction l as [|[k x] rest IH]; [done|].
  cbn [forallb snd]. intros [Hx Hrest]%andb_true_iff.
  destruct (json_clean_roundtrip x Hx) as (j & Hj & Hback).
  cbn [omap list_omap snd fst]. rewrite Hj.
  cbn [map fst snd]. rewrite Hback. f_equal. by apply IH.
Qed.

Lemma parameters_of_json_to_json (parameters : gmap string value) :
  forallb (fun p => json_clean (snd p)) (map_to_list parameters) = true ->
  match parameters_to_json parameters with
  | JObject members => parameters_of_json members = parameters
  | _ => False
  end.
Proof.
  intros Hc. unfold parameters_to_json, parameters_of_json.
  rewrite parameters_roundtrip by done.
  rewrite (list_to_map_proper (reverse (map_to_list parameters))
             (map_to_list parameters)).
  - apply list_to_map_to_list.
  - rewrite fmap_reverse, reverse_Permutation. apply NoDup_fst_map_to_list.
  - apply reverse_Permutation.
Qed.

Lemma action_roundtrip a :
  action_clean a = true -> action_of_json (action_to_json a) = Some a.
Proof.
  unfold action_clean. intros [Hp Hr]%andb_true_iff.
  pose proof (parameters_of_json_to_json _ Hp) as Hps.
  destruct a as [tn ps ts res]. cbn [parameters result] in *.
  unfold action_to_json, action_of_json.
  cbn [toolName parameters timestamp result].
  destruct (parameters_to_json ps) as [| | | | |members] eqn:Hm; try done.
  destruct res as [| |b|n|s|items|fields].
  - simpl. by rewrite Hps.
  - simpl. by rewrite Hps.
  - simpl. by rewrite Hps.
  - destruct n; try discriminate. simpl. by rewrite Hps.
  - simpl. by rewrite Hps.
  - destruct (json_clean_roundtrip _ Hr) as (j & Hj & Hback).
    rewrite Hj. simpl. by rewrite Hps, Hback.
  - destruct (json_clean_roundtrip _ Hr) as (j & Hj & Hback).
    rewrite Hj. simpl. by rewrite Hps, Hback.
Qed.

Lemma actions_roundtrip l :
  forallb action_clean l = true ->
  all_some (map action_of_json (map action_to_json l)) = Some l.
Proof.
  induction l as [|a rest IH]; [done|].
  cbn [forallb]. intros [Ha Hrest]%andb_true_iff.
  cbn [map all_some]. by rewrite action_roundtrip, IH.
Qed.

Lemma options_roundtrip o : options_of_json (options_to_json o) = Some o.
Proof. by destruct o as [[?|] [?|] [?|]]. Qed.

(** A clean session is read back from its document as it was. *)
Lemma session_roundtrip s :
  session_clean s = true -> session_of_json (session_to_json s) = Some s.
Proof.
  unfold session_clean. intros Hc.
  pose proof (actions_roundtrip _ Hc) as Ha.
  pose proof (options_roundtrip (options s)) as Ho.
  destruct s as [i acts st et o]. cbn [actions options] in *.
  unfold session_to_json, session_of_json.
  cbn [id actions startTime endTime options].
  remember (options_to_json o) as jo eqn:Hjo.
  remember (map action_to_json acts) as ja eqn:Hja.
  destruct et as [e|]; simpl; by rewrite Ha, Ho.
Qed.

(** *** Save, then load *)

Section WithPath.
Context `{NodePath}.

Lemma loadSessionFromDisk_keyed this sessionId directory w :
  keyed_by_id w ->
  keyed_by_id (snd (loadSessionFromDisk this sessionId directory w)).
Proof.
  intros Hk.
  unfold loadSessionFromDisk, try_catch, bind, fs_readFile, JSON_parse, throw.
  destruct (files w !! _) as [[text|doc]|]; simpl; try done.
  destruct (session_of_json doc) as [s|]; simpl; [|done].
  by apply (keyed_by_id_insert w).
Qed.

(** [writeFile] into a directory that exists. *)
Lemma fs_writeFile_run path data w :
  path_dirname path ∈ directories w ->
  fs_writeFile path data w =
  (Returned tt,
   {| activeSessions := activeSessions w; files := <[path := data]> (files w);
      directories := directories w; console := console w |}).
Proof. intros Hin. unfold fs_writeFile. by rewrite bool_decide_eq_true_2. Qed.

(** [writeFile] into a directory that does not exist. *)
Lemma fs_writeFile_rejected path data w :
  path_dirname path ∉ directories w ->
  fs_writeFile path data w =
  (Thrown ("ENOENT: no such file or directory, open '" +:+ path +:+ "'"), w).
Proof. intros Hin. unfold fs_writeFile. by rewrite bool_decide_eq_false_2. Qed.


Lemma saveSessionToDisk_accepted this sessionId directory s w :
  activeSessions w !! sessionId = Some s ->
  path_dirname (path_join (sessions_dir this directory)
                          ("session-" +:+ id s +:+ ".json"))
    ∈ ({[sessions_dir this directory]} ∪ directories w : gset string) ->
  saveSessionToDisk this sessionId directory w =
  (Returned (path_join (sessions_dir this directory)
                       ("session-" +:+ id s +:+ ".json")),
   saved (sessions_dir this directory)
         (path_join (sessions_dir this directory)
                    ("session-" +:+ id s +:+ ".json"))
         (session_to_json s) w).
Proof.
  intros Hs Hdir. unfold saveSessionToDisk, bind, sessions_get. rewrite Hs.
  unfold fs_mkdir. by rewrite fs_writeFile_run.
Qed.

Lemma saveSessionToDisk_rejected this sessionId directory s w :
  activeSessions w !! sessionId = Some s ->
  path_dirname (path_join (sessions_dir this directory)
                          ("session-" +:+ id s +:+ ".json"))
    ∉ ({[sessions_dir this directory]} ∪ directories w : gset string) ->
  saveSessionToDisk this sessionId directory w =
  (Thrown ("ENOENT: no such file or directory, open '" +:+
           path_join (sessions_dir this directory)
                     ("session-" +:+ id s +:+ ".json") +:+ "'"),
   snd (fs_mkdir (sessions_dir this directory) w)).
Proof.
  intros Hs Hdir. unfold saveSessionToDisk, bind, sessions_get. rewrite Hs.
  unfold fs_mkdir. by rewrite fs_writeFile_rejected.
Qed.

(** Whatever it does, [saveSessionToDisk] leaves the registry and the
    console alone. *)
Lemma saveSessionToDisk_keeps_registry this sessionId directory w :
  activeSessions (snd (saveSessionToDisk this sessionId directory w))
    = activeSessions w
  /\ console (snd (saveSessionToDisk this sessionId directory w)) = console w.
Proof.
  unfold saveSessionToDisk, bind, sessions_get, throw, fs_mkdir, fs_writeFile.
  destruct (activeSessions w !! sessionId) as [s|]; [|done].
  by destruct (bool_decide _).
Qed.


End WithPath.



End RegistrySpec.

(* ===================================================================== *)
(** ** Properties of the shared browser *)
(* ===================================================================== *)

Module BrowserSpec.
Import JS Browser.

(** *** Release *)

(** [resetBrowserState] clears both handles of the context it is given. *)
Lemma resetBrowserState_clears context p :
  exists cleared,
    fst (resetBrowserState (Some context) p) = Some cleared
    /\ browser cleared = None /\ page cleared = None.
Proof. eexists. split; [reflexivity|]. split; reflexivity. Qed.

(** [closeBrowserTool] returns a result whatever the close does, and
    hands the context back untouched. *)
Lemma closeBrowserTool_keeps_context how toolContext p :
  exists message p',
    closeBrowserTool how toolContext p = (Returned message, toolContext, p').
Proof.
  unfold closeBrowserTool. destruct (browser toolContext) as [b|].
  - eexists _, _. reflexivity.
  - eexists _, _. reflexivity.
Qed.

(** C3, on the code.  Releasing the READY context, with a close that
    succeeds: the tool reports success and the browser is gone from the
    connected ones, but the context still holds the browser handle and
    the page handle; it is not UNINITIALIZED. *)
Theorem closeBrowserTool_leaves_handles_set :
  closeBrowserTool CloseResolves ready_context ready_process
  = (Returned "Browser closed successfully", ready_context,
     write Codegen.Log "Browser state reset" (close_browser 0%nat ready_process))
  /\ browser ready_context = Some 0%nat
  /\ page ready_context = Some 1%nat
  /\ isConnected (close_browser 0%nat ready_process) 0%nat = false.
Proof. repeat split. Qed.

(** *** Acquire *)

(** Once a call has returned handles, the next call returns the same
    ones and changes nothing, whatever Playwright would do. *)
Lemma ensureBrowser_again pw1 pw2 context p b pg context1 p1 :
  ensureBrowser pw1 context p = (Handles b pg, context1, p1) ->
  ensureBrowser pw2 context1 p1 = (Handles b pg, context1, p1).
Proof.
  unfold ensureBrowser.
  destruct (isInitializing p) eqn:Hflag; [discriminate|].
  assert (forall c q, launch pw1 c q = (Handles b pg, context1, p1) ->
            isInitializing p1 = false /\ browser context1 = Some b
            /\ page context1 = Some pg /\ isConnected p1 b = true
            /\ isClosed p1 pg = false) as Hlaunch.
  { intros c q. unfold launch, launch_failed.
    destruct (launch_ok pw1), (newContext_ok pw1), (newPage_ok pw1);
      simpl; try discriminate.
    intros [= <- <- <- <-]. simpl. unfold isConnected, isClosed; simpl.
    rewrite bool_decide_eq_true, bool_decide_eq_false, lookup_insert_eq.
    repeat split; [set_solver | done]. }
  assert (forall c q b0, open_page pw1 b0 c q = (Handles b pg, context1, p1) ->
            isInitializing q = false -> isConnected q b0 = true -> browser c = Some b0 ->
            isInitializing p1 = false /\ browser context1 = Some b
            /\ page context1 = Some pg /\ isConnected p1 b = true
            /\ isClosed p1 pg = false) as Hpage.
  { intros c q b0. unfold open_page.
    destruct (newPage_ok pw1); simpl; [|discriminate].
    intros [= <- <- <- <-] Hq Hconn Hb. simpl. unfold isClosed; simpl.
    rewrite bool_decide_eq_false, lookup_insert_eq. repeat split; done. }
  assert (isInitializing p1 = false /\ browser context1 = Some b
          /\ page context1 = Some pg /\ isConnected p1 b = true
          /\ isClosed p1 pg = false ->
          (if isInitializing p1
           then (Waiting, context1,
                 write Codegen.Log "Browser initialization in progress, waiting..." p1)
           else match browser context1 with
                | Some b0 =>
                    if negb (isConnected p1 b0) then launch pw2 context1 p1
                    else match page context1 with
                         | Some pg0 =>
                             if isClosed p1 pg0 then open_page pw2 b0 context1 p1
                             else (Handles b0 pg0, context1, p1)
                         | None => open_page pw2 b0 context1 p1
                         end
                | None => launch pw2 context1 p1
                end) = (Handles b pg, context1, p1)) as Hnext.
  { intros (-> & -> & -> & -> & ->). reflexivity. }
  destruct (browser context) as [b0|] eqn:Hb; [|intros; eapply Hnext, Hlaunch; eauto].
  destruct (isConnected p b0) eqn:Hconn; simpl;
    [|intros; eapply Hnext, Hlaunch; eauto].
  destruct (page context) as [pg0|] eqn:Hpg;
    [|intros; eapply Hnext, Hpage; eauto].
  destruct (isClosed p pg0) eqn:Hclosed;
    [intros; eapply Hnext, Hpage; eauto|].
  intros [= <- <- <- <-]. apply Hnext. done.
Qed.

(** With Playwright answering and nobody else initializing, a call
    returns handles; it calls the launcher once when the context holds no
    connected browser, and not at all when it does. *)
Lemma ensureBrowser_returns pw context p :
  isInitializing p = false ->
  launch_ok pw = true -> newContext_ok pw = true -> newPage_ok pw = true ->
  exists b pg context1 p1,
    ensureBrowser pw context p = (Handles b pg, context1, p1)
    /\ launches p1 =
         if holds_connected_browser context p then launches p else S (launches p).
Proof.
  intros Hflag Hl Hc Hp.
  unfold ensureBrowser, holds_connected_browser, launch, open_page.
  rewrite Hflag, Hl, Hc, Hp.
  destruct (browser context) as [b0|]; simpl; [|by eexists _, _, _, _].
  destruct (isConnected p b0); simpl; [|by eexists _, _, _, _].
  destruct (page context) as [pg0|]; [|by eexists _, _, _, _].
  destruct (isClosed p pg0); by eexists _, _, _, _.
Qed.

(** C8, as stated, fails: on the READY context two calls return the same
    handles, and the launcher is not called at all. *)
Lemma ready_context_is_not_launched_again :
  let first := ensureBrowser all_ok ready_context ready_process in
  let second := ensureBrowser all_ok (snd (fst first)) (snd first) in
  fst (fst first) = Handles 0%nat 1%nat
  /\ fst (fst second) = Handles 0%nat 1%nat
  /\ launches (snd second) = launches ready_process
  /\ launches (snd second) <> S (launches ready_process).
Proof.
  cbv zeta. split; [reflexivity|]. split; [reflexivity|]. split; [reflexivity|].
  vm_compute. discriminate.
Qed.

(** C8, amended.  With nobody else initializing and Playwright
    answering the first call, two consecutive calls of [ensureBrowser]
    return the same browser and page handle; the second call leaves the
    context and the process as the first left them (it launches
    nothing); and over the two calls the launcher is called once when
    the context held no connected browser, and not at all when it held
    one. *)
Theorem acquire_twice_same_handles pw1 pw2 context p :
  isInitializing p = false ->
  launch_ok pw1 = true -> newContext_ok pw1 = true -> newPage_ok pw1 = true ->
  exists b pg context1 p1,
    ensureBrowser pw1 context p = (Handles b pg, context1, p1)
    /\ ensureBrowser pw2 context1 p1 = (Handles b pg, context1, p1)
    /\ launches p1 =
         if holds_connected_browser context p then launches p else S (launches p).
Proof.
  intros Hflag Hl Hc Hp.
  destruct (ensureBrowser_returns pw1 context p Hflag Hl Hc Hp)
    as (b & pg & context1 & p1 & Hfirst & Hcount).
  exists b, pg, context1, p1. split; [done|]. split; [|done].
  by eapply ensureBrowser_again.
Qed.

Lemma acquire_twice_same_handles_witness :
  (isInitializing fresh_process = false /\ launch_ok all_ok = true
   /\ newContext_ok all_ok = true /\ newPage_ok all_ok = true)
  /\ exists b pg context1 p1,
       ensureBrowser all_ok fresh_context fresh_process = (Handles b pg, context1, p1)
       /\ ensureBrowser all_ok context1 p1 = (Handles b pg, context1, p1)
       /\ launches p1 =
            if holds_connected_browser fresh_context fresh_process
            then launches fresh_process else S (launches fresh_process).
Proof.
  split; [repeat split|].
  apply (acquire_twice_same_handles all_ok all_ok fresh_context fresh_process);
    reflexivity.
Defined.

(** The two calls on the fresh context, computed: one launch. *)
Example fresh_context_is_launched_once :
  exists context1 p1,
    ensureBrowser all_ok fresh_context fresh_process
      = (Handles 0%nat 1%nat, context1, p1)
    /\ ensureBrowser all_ok context1 p1 = (Handles 0%nat 1%nat, context1, p1)
    /\ launches p1 = 1%nat.
Proof. eexists _, _. repeat split. Qed.

End BrowserSpec.

(* ===================================================================== *)
(** ** More on the registry *)
(* ===================================================================== *)

Module SessionProps.
Import JS Codegen Table Shapes.

Lemma endSession_known sessionId s now w :
  activeSessions w !! sessionId = Some s ->
  endSession sessionId now w =
  (Returned (Some (ended_at now s)),
   with_sessions (<[sessionId := ended_at now s]> (activeSessions w)) w).
Proof.
  intros Hs. unfold endSession, bind, sessions_get. rewrite Hs. reflexivity.
Qed.

(** X1.  Ending a session twice is not idempotent: the second call
    returns the session with the later reading of the clock as its end
    time, and that is what the registry holds afterwards. *)
Theorem endSession_twice_keeps_the_later_time sessionId s t1 t2 w :
  activeSessions w !! sessionId = Some s ->
  (run endSession sessionId t1; endSession sessionId t2) w =
  (Returned (Some (ended_at t2 s)),
   with_sessions (<[sessionId := ended_at t2 s]> (activeSessions w)) w).
Proof.
  intros Hs. unfold bind at 1. rewrite (endSession_known _ s) by done.
  rewrite (endSession_known _ (ended_at t1 s)) by (simpl; apply lookup_insert_eq).
  simpl. by rewrite insert_insert_eq.
Qed.

Lemma endSession_twice_keeps_the_later_time_witness :
  activeSessions world_example !! "e" = Some session_example
  /\ fst ((run endSession "e" 10; endSession "e" 20) world_example)
     = Returned (Some (ended_at 20 session_example)).
Proof.
  split; [reflexivity|].
  exact (f_equal fst (endSession_twice_keeps_the_later_time
                        "e" session_example 10 20 world_example eq_refl)).
Defined.

(** X2.  A session that has been ended still takes actions: [addAction]
    after [endSession] appends as before and leaves the end time where
    it is. *)
Theorem addAction_after_endSession_appends
    sessionId s t toolName (parameters : gmap string value) result now w :
  activeSessions w !! sessionId = Some s ->
  (run endSession sessionId t;
   run addAction sessionId toolName parameters result now;
   getSession sessionId) w =
  (Returned
     (Some (appended (ended_at t s)
              [{| toolName := toolName; parameters := parameters;
                  timestamp := now; result := result |}])),
   with_sessions
     (<[sessionId :=
          appended (ended_at t s)
            [{| toolName := toolName; parameters := parameters;
                timestamp := now; result := result |}]]> (activeSessions w)) w).
Proof.
  intros Hs. unfold bind at 1. rewrite (endSession_known _ s) by done.
  unfold bind at 1.
  rewrite (TranslationSpec.addAction_known _ (ended_at t s))
    by (simpl; apply lookup_insert_eq).
  unfold getSession, sessions_get. simpl.
  by rewrite insert_insert_eq, lookup_insert_eq.
Qed.

Lemma addAction_after_endSession_appends_witness :
  activeSessions world_example !! "e" = Some session_example
  /\ fst ((run endSession "e" 10;
          run addAction "e" "hover" ∅ VNull 11;
          getSession "e") world_example)
     = Returned
         (Some (appended (ended_at 10 session_example)
                  [{| toolName := "hover"; parameters := ∅;
                      timestamp := 11; result := VNull |}])).
Proof.
  split; [reflexivity|].
  exact (f_equal fst (addAction_after_endSession_appends
                        "e" session_example 10 "hover" ∅ VNull 11
                        world_example eq_refl)).
Defined.

Lemma addAction_unknown sessionId toolName (parameters : gmap string value)
    result now w :
  activeSessions w !! sessionId = None ->
  addAction sessionId toolName parameters result now w = (Returned None, w).
Proof. intros Hs. unfold addAction, bind, sessions_get. by rewrite Hs. Qed.

Lemma endSession_unknown sessionId now w :
  activeSessions w !! sessionId = None ->
  endSession sessionId now w = (Returned None, w).
Proof. intros Hs. unfold endSession, bind, sessions_get. by rewrite Hs. Qed.

(** X3.  Once a session is removed its id is unknown again: [addAction],
    [endSession] and [getSession] on it find nothing and change nothing,
    and [removeSession] says whether there was a session to remove. *)
Theorem removeSession_forgets
    sessionId toolName (parameters : gmap string value) result now w :
  removeSession sessionId w =
    (Returned (bool_decide (is_Some (activeSessions w !! sessionId))),
     with_sessions (delete sessionId (activeSessions w)) w)
  /\ (run removeSession sessionId;
      do a <- addAction sessionId toolName parameters result now;
      do e <- endSession sessionId now;
      do g <- getSession sessionId;
      ret (a, e, g)) w =
     (Returned (None, None, None),
      with_sessions (delete sessionId (activeSessions w)) w).
Proof.
  split; [reflexivity|].
  unfold bind at 1. unfold removeSession, sessions_delete.
  set (w' := {| activeSessions := delete sessionId (activeSessions w);
                files := files w; directories := directories w;
                console := console w |}).
  assert (activeSessions w' !! sessionId = None) as Hnone
    by apply lookup_delete_eq.
  unfold bind at 1. rewrite addAction_unknown by done.
  unfold bind at 1. rewrite endSession_unknown by done.
  unfold bind, getSession, sessions_get, ret. by rewrite Hnone.
Qed.

(** X4.  [addAction] and [endSession] touch the session they name and
    nothing else: every other id reads as before, and so do the files,
    the directories and the console. *)
Theorem other_sessions_are_untouched
    sessionId other toolName (parameters : gmap string value) result now w :
  other <> sessionId ->
  let w1 := snd (addAction sessionId toolName parameters result now w) in
  let w2 := snd (endSession sessionId now w) in
  (activeSessions w1 !! other = activeSessions w !! other
   /\ files w1 = files w /\ directories w1 = directories w /\ console w1 = console w)
  /\ (activeSessions w2 !! other = activeSessions w !! other
      /\ files w2 = files w /\ directories w2 = directories w
      /\ console w2 = console w).
Proof.
  intros Hne. unfold addAction, endSession, bind, sessions_get.
  destruct (activeSessions w !! sessionId) as [s|]; simpl.
  - rewrite !lookup_insert_ne by done. repeat split.
  - repeat split.
Qed.

Lemma other_sessions_are_untouched_witness :
  "e" <> "zz"
  /\ activeSessions (snd (addAction "zz" "click" ∅ VUndefined 5 world_example)) !! "e"
     = activeSessions world_example !! "e".
Proof.
  split; [discriminate|].
  exact (proj1 (proj1 (other_sessions_are_untouched
                         "zz" "e" "click" ∅ VUndefined 5 world_example
                         ltac:(discriminate)))).
Defined.

End SessionProps.

(* ===================================================================== *)
(** ** More on generation *)
(* ===================================================================== *)

Module GenerateProps.
Import JS Codegen Table Shapes TranslatorProps GenerationProps.

(** *** The file name *)

Lemma sanitize_char_safe c : char_in (sanitize_char (to_lower c)) safe_alphabet = true.
Proof.
  destruct c as [[] [] [] [] [] [] [] []]; vm_compute; reflexivity.
Qed.

Lemma sanitize_char_fixed c :
  char_in c safe_alphabet = true -> sanitize_char (to_lower c) = c.
Proof.
  destruct c as [[] [] [] [] [] [] [] []]; vm_compute; congruence.
Qed.

(** X5.  The prefix of a generated file name is made of lower-case
    letters, digits and underscores only, whatever the configured
    prefix is; and a prefix that is already of that form is used as it
    is. *)
Theorem sanitizedPrefix_is_safe this :
  all_chars (fun c => char_in c safe_alphabet) (sanitizedPrefix this) = true
  /\ (all_chars (fun c => char_in c safe_alphabet) (testNamePrefix this) = true ->
      sanitizedPrefix this = testNamePrefix this).
Proof.
  unfold sanitizedPrefix. generalize (testNamePrefix this) as s.
  intros s. split.
  - induction s as [|c s IH]; [done|].
    cbn [map_string all_chars]. by rewrite sanitize_char_safe, IH.
  - induction s as [|c s IH]; [done|].
    cbn [map_string all_chars]. intros [Hc Hs]%andb_true_iff.
    by rewrite sanitize_char_fixed, IH.
Qed.

Example sanitizedPrefix_default : sanitizedPrefix DEFAULT_OPTIONS = "volttest".
Proof. reflexivity. Qed.

Example sanitizedPrefix_mixed :
  sanitizedPrefix {| outputPath := "tests"; testNamePrefix := "My Test-1/x";
                     includeComments := true |} = "my_test_1_x".
Proof. reflexivity. Qed.

(** *** What [generateTest] writes *)

Section WithPath.
Context `{NodePath}.



(** X7.  When [generateTest] throws, nothing has been written: the
    files, the directories and the registry are as before the call. *)
Theorem generateTest_failure_writes_nothing this sessionId w message w' :
  generateTest this sessionId w = (Thrown message, w') ->
  files w' = files w /\ directories w' = directories w
  /\ activeSessions w' = activeSessions w.
Proof.
  unfold generateTest, bind, sessions_get.
  destruct (activeSessions w !! sessionId) as [s|]; [|by intros [= _ <-]].
  destruct (createTestCase_any this s) as (o & names & ->).
  destruct o as [testCase|e]; [|by intros [= _ <-]].
  unfold getOutputFilePath.
  destruct (negb (truthy (VStr (id s)))); [by intros [= _ <-]|].
  unfold ret, fs_mkdir.
  rewrite RegistrySpec.fs_writeFile_run by (cbn [directories]; set_solver).
  discriminate.
Qed.

End WithPath.

Lemma generateTest_failure_writes_nothing_witness :
  generateTest (H := plain_paths) DEFAULT_OPTIONS "zz" world_example
    = (Thrown "Session with ID zz not found", world_example)
  /\ files world_example = files world_example
  /\ directories world_example = directories world_example
  /\ activeSessions world_example = activeSessions world_example.
Proof.
  split; [reflexivity|].
  exact (generateTest_failure_writes_nothing (H := plain_paths) DEFAULT_OPTIONS
           "zz" world_example _ world_example eq_refl).
Defined.


End GenerateProps.

(* ===================================================================== *)
(** ** More on snapshots *)
(* ===================================================================== *)

Module SnapshotProps.
Import JS Codegen Table Shapes.

Section WithPath.
Context `{NodePath}.


Lemma saved_saved dir path doc w :
  saved dir path doc (saved dir path doc w) = saved dir path doc w.
Proof.
  unfold saved; simpl. f_equal.
  - apply insert_insert_eq.
  - by rewrite (assoc_L (∪)), (idemp_L (∪)).
Qed.

(** X8.  Saving twice is the same as saving once: the second
    [saveSessionToDisk] returns the same path and leaves the world as
    the first left it; and saving never changes the registry. *)
Theorem saveSessionToDisk_is_idempotent this sessionId directory w :
  (run saveSessionToDisk this sessionId directory;
   saveSessionToDisk this sessionId directory) w
  = saveSessionToDisk this sessionId directory w
  /\ activeSessions (snd (saveSessionToDisk this sessionId directory w))
     = activeSessions w.
Proof.
  split; [|apply RegistrySpec.saveSessionToDisk_keeps_registry].
  destruct (activeSessions w !! sessionId) as [s|] eqn:Hs.
  - destruct (decide (path_dirname (path_join (sessions_dir this directory)
                                              ("session-" +:+ id s +:+ ".json"))
                      ∈ ({[sessions_dir this directory]} ∪ directories w
                         : gset string))) as [Hin|Hout].
    + unfold bind. rewrite (RegistrySpec.saveSessionToDisk_accepted _ _ _ s) by done.
      rewrite (RegistrySpec.saveSessionToDisk_accepted _ _ _ s);
        [ by rewrite saved_saved
        | done
        | cbn [directories saved]; apply elem_of_union; by right ].
    + unfold bind. by rewrite (RegistrySpec.saveSessionToDisk_rejected _ _ _ s).
  - unfold bind. rewrite RegistrySpec.saveSessionToDisk_unknown by done. done.
Qed.

Lemma loadSessionFromDisk_found this sessionId directory s w :
  files w !! snapshot_path this directory sessionId = Some (Json (session_to_json s)) ->
  session_clean s = true ->
  loadSessionFromDisk this sessionId directory w =
  (Returned s, with_sessions (<[id s := s]> (activeSessions w)) w).
Proof.
  intros Hf Hc.
  unfold loadSessionFromDisk, try_catch, bind, fs_readFile, JSON_parse,
    sessions_set, ret.
  unfold snapshot_path, snapshot_name in Hf. rewrite Hf.
  rewrite RegistrySpec.session_roundtrip by done. reflexivity.
Qed.


(** X10.  Loading a snapshot that is not there throws an error that
    names the session and the file, and changes nothing. *)
Theorem loadSessionFromDisk_missing_file this sessionId directory w :
  files w !! snapshot_path this directory sessionId = None ->
  loadSessionFromDisk this sessionId directory w =
  (Thrown ("Failed to load session " +:+ sessionId +:+
           ": ENOENT: no such file or directory, open '" +:+
           snapshot_path this directory sessionId +:+ "'"), w).
Proof.
  intros Hf.
  unfold loadSessionFromDisk, try_catch, bind, fs_readFile, throw.
  unfold snapshot_path, snapshot_name in Hf. by rewrite Hf.
Qed.

(** X11.  A loaded session is registered under the id its snapshot
    holds, not under the id that was asked for: when the two differ, the
    id asked for stays as it was. *)
Theorem loadSessionFromDisk_registers_under_stored_id
    this sessionId directory s w :
  files w !! snapshot_path this directory sessionId = Some (Json (session_to_json s)) ->
  session_clean s = true ->
  id s <> sessionId ->
  (do loaded <- loadSessionFromDisk this sessionId directory;
   do under_stored <- getSession (id s);
   do under_asked <- getSession sessionId;
   ret (loaded, under_stored, under_asked)) w
  = (Returned (s, Some s, activeSessions w !! sessionId),
     with_sessions (<[id s := s]> (activeSessions w)) w).
Proof.
  intros Hf Hc Hne.
  unfold bind at 1. rewrite (loadSessionFromDisk_found _ _ _ s) by done.
  unfold bind, getSession, sessions_get, ret. simpl.
  by rewrite lookup_insert_eq, lookup_insert_ne.
Qed.

End WithPath.


Lemma loadSessionFromDisk_missing_file_witness :
  files world_example
    !! snapshot_path (H := plain_paths) DEFAULT_OPTIONS None "e" = None
  /\ loadSessionFromDisk (H := plain_paths) DEFAULT_OPTIONS "e" None world_example =
     (Thrown "Failed to load session e: ENOENT: no such file or directory, open 'tests/sessions/session-e.json'",
      world_example).
Proof.
  split; [reflexivity|].
  exact (loadSessionFromDisk_missing_file (H := plain_paths) DEFAULT_OPTIONS
           "e" None world_example eq_refl).
Defined.

Lemma loadSessionFromDisk_registers_under_stored_id_witness :
  (files world_copied !! snapshot_path (H := plain_paths) DEFAULT_OPTIONS None "a"
     = Some (Json (session_to_json session_example))
   /\ session_clean session_example = true
   /\ id session_example <> "a")
  /\ fst ((do loaded <- loadSessionFromDisk (H := plain_paths) DEFAULT_OPTIONS "a" None;
           do under_stored <- getSession "e";
           do under_asked <- getSession "a";
           ret (loaded, under_stored, under_asked)) world_copied)
     = Returned (session_example, Some session_example, None).
Proof.
  split; [split; [reflexivity | split; [vm_compute; reflexivity | discriminate]]|].
  exact (f_equal fst
           (loadSessionFromDisk_registers_under_stored_id (H := plain_paths)
              DEFAULT_OPTIONS "a" None session_example world_copied
              eq_refl eq_refl ltac:(discriminate))).
Defined.

End SnapshotProps.

Module ImportProps.
Import JS Codegen Table Shapes.

Lemma importSession_run filePath uuid members session w :
  files w !! filePath = Some (Json (JObject members)) ->
  session_of_json
    (JObject (if truthy (match member "id" members with
                         | Some j => json_to_value j
                         | None => VUndefined
                         end)
              then members else (members ++ [("id", JString uuid)])%list))
    = Some session ->
  importSession filePath uuid w =
  (Returned session, with_sessions (<[id session := session]> (activeSessions w)) w).
Proof.
  intros Hf Hd.
  unfold importSession, try_catch, bind, fs_readFile, JSON_parse, sessions_set, ret.
  rewrite Hf. cbv zeta. rewrite Hd. reflexivity.
Qed.

(** X12.  What [saveSessionToDisk] writes, [importSession] reads back:
    importing the snapshot of a clean session with a non-empty id
    returns that session, under its own id (the fresh id is not used),
    and registers it. *)
Theorem importSession_reads_a_saved_snapshot filePath uuid s w :
  files w !! filePath = Some (Json (session_to_json s)) ->
  session_clean s = true ->
  truthy (VStr (id s)) = true ->
  importSession filePath uuid w =
  (Returned s, with_sessions (<[id s := s]> (activeSessions w)) w).
Proof.
  intros Hf Hc Hid.
  pose proof (RegistrySpec.session_roundtrip s Hc) as Hrt.
  unfold session_to_json in Hf, Hrt.
  eapply importSession_run; [exact Hf|].
  assert (member "id"
            ([("id", JString (id s));
              ("actions", JArray (map action_to_json (actions s)));
              ("startTime", JNumber (startTime s));
              ("options", options_to_json (options s))]
             ++ optional "endTime" JNumber (endTime s))%list
          = Some (JString (id s))) as ->
    by (destruct (endTime s); reflexivity).
  cbn [json_to_value]. rewrite Hid. exact Hrt.
Qed.

(** X13.  A snapshot without an [id] is imported under a fresh one: the
    session returned is the saved one with the new id, and it is
    registered under the new id. *)
Theorem importSession_gives_an_id_when_missing filePath uuid s w :
  files w !! filePath = Some (Json (without_id (session_to_json s))) ->
  session_clean s = true ->
  importSession filePath uuid w =
  (Returned (with_id uuid s),
   with_sessions (<[uuid := with_id uuid s]> (activeSessions w)) w).
Proof.
  intros Hf Hc.
  pose proof (RegistrySpec.actions_roundtrip _ Hc) as Ha.
  pose proof (RegistrySpec.options_roundtrip (options s)) as Ho.
  destruct s as [i acts st et o]. cbn [actions options] in *.
  unfold session_to_json, without_id in Hf.
  cbn [id actions startTime endTime options] in Hf.
  remember (options_to_json o) as jo eqn:Hjo.
  remember (map action_to_json acts) as ja eqn:Hja.
  destruct et as [e|].
  - change (filter _ _)
      with [("actions", JArray ja); ("startTime", JNumber st); ("options", jo);
            ("endTime", JNumber e)] in Hf.
    rewrite (importSession_run _ uuid _
               (with_id uuid {| id := i; actions := acts; startTime := st;
                                endTime := Some e; options := o |}) _ Hf);
      [reflexivity|].
    simpl. by rewrite Ha, Ho.
  - change (filter _ _)
      with [("actions", JArray ja); ("startTime", JNumber st); ("options", jo)]
      in Hf.
    rewrite (importSession_run _ uuid _
               (with_id uuid {| id := i; actions := acts; startTime := st;
                                endTime := None; options := o |}) _ Hf);
      [reflexivity|].
    simpl. by rewrite Ha, Ho.
Qed.

Lemma importSession_reads_a_saved_snapshot_witness :
  (files world_copied !! "tests/sessions/session-a.json"
     = Some (Json (session_to_json session_example))
   /\ session_clean session_example = true
   /\ truthy (VStr (id session_example)) = true)
  /\ fst (importSession "tests/sessions/session-a.json" "fresh" world_copied)
     = Returned session_example.
Proof.
  split; [split; [reflexivity | split; [vm_compute; reflexivity | reflexivity]]|].
  exact (f_equal fst
           (importSession_reads_a_saved_snapshot "tests/sessions/session-a.json"
              "fresh" session_example world_copied eq_refl eq_refl eq_refl)).
Defined.

Lemma importSession_gives_an_id_when_missing_witness :
  (files world_anonymous !! "in.json"
     = Some (Json (without_id (session_to_json session_example)))
   /\ session_clean session_example = true)
  /\ fst (importSession "in.json" "fresh" world_anonymous)
     = Returned (with_id "fresh" session_example).
Proof.
  split; [split; [reflexivity | vm_compute; reflexivity]|].
  exact (f_equal fst
           (importSession_gives_an_id_when_missing "in.json" "fresh"
              session_example world_anonymous eq_refl eq_refl)).
Defined.

(** *** The registry stays keyed by id *)

Lemma importSession_keyed filePath uuid w :
  keyed_by_id w -> keyed_by_id (snd (importSession filePath uuid w)).
Proof.
  intros Hk.
  unfold importSession, try_catch, bind, fs_readFile, JSON_parse, throw, ret.
  destruct (files w !! filePath) as [[text|doc]|]; try done.
  destruct doc as [| | | | |members]; try done.
  cbv beta iota zeta.
  match goal with
  | |- context [session_of_json ?d] => destruct (session_of_json d) as [s|]
  end; [|done].
  by apply (RegistrySpec.keyed_by_id_insert w).
Qed.

Lemma generateTest_registry `{NodePath} this sessionId w :
  activeSessions (snd (generateTest this sessionId w)) = activeSessions w.
Proof.
  unfold generateTest, bind, sessions_get.
  destruct (activeSessions w !! sessionId) as [s|]; [|done].
  destruct (GenerationProps.createTestCase_any this s) as (o & names & ->).
  destruct o as [testCase|e]; [|done].
  unfold getOutputFilePath.
  destruct (negb (truthy (VStr (id s)))); [done|].
  unfold ret, fs_mkdir, fs_writeFile. by destruct (bool_decide _).
Qed.

Lemma saveSessionToDisk_registry `{NodePath} this sessionId directory w :
  activeSessions (snd (saveSessionToDisk this sessionId directory w))
  = activeSessions w.
Proof. apply RegistrySpec.saveSessionToDisk_keeps_registry. Qed.

Section WithPath.
Context `{NodePath}.

(** X14.  Every session of the registry is stored under its own id, and
    every operation of the generator keeps it so: opening, appending,
    ending, removing, generating, saving, loading and importing. *)
Theorem registry_stays_keyed_by_id w :
  keyed_by_id w ->
  (forall this options uuid now,
      keyed_by_id (snd (createSession this options uuid now w)))
  /\ (forall sessionId toolName parameters result now,
        keyed_by_id (snd (addAction sessionId toolName parameters result now w)))
  /\ (forall sessionId now, keyed_by_id (snd (endSession sessionId now w)))
  /\ (forall sessionId, keyed_by_id (snd (removeSession sessionId w)))
  /\ (forall this sessionId, keyed_by_id (snd (generateTest this sessionId w)))
  /\ (forall this sessionId directory,
        keyed_by_id (snd (saveSessionToDisk this sessionId directory w)))
  /\ (forall this sessionId directory,
        keyed_by_id (snd (loadSessionFromDisk this sessionId directory w)))
  /\ (forall filePath uuid, keyed_by_id (snd (importSession filePath uuid w))).
Proof.
  intros Hk. repeat split; intros.
  - by apply RegistrySpec.createSession_keyed.
  - by apply RegistrySpec.addAction_keyed.
  - by apply RegistrySpec.endSession_keyed.
  - by apply RegistrySpec.removeSession_keyed.
  - intros key s. rewrite generateTest_registry. apply Hk.
  - intros key s. rewrite saveSessionToDisk_registry. apply Hk.
  - by apply RegistrySpec.loadSessionFromDisk_keyed.
  - by apply importSession_keyed.
Qed.

End WithPath.

Lemma registry_stays_keyed_by_id_witness :
  keyed_by_id empty_world
  /\ keyed_by_id (snd (importSession "in.json" "fresh" world_anonymous)).
Proof.
  split; [apply RegistrySpec.keyed_by_id_empty|].
  assert (keyed_by_id world_anonymous) as Hk
    by (intros key s; unfold world_anonymous; simpl; by rewrite lookup_empty).
  exact (proj2 (proj2 (proj2 (proj2 (proj2 (proj2 (proj2
           (registry_stays_keyed_by_id (H := plain_paths) world_anonymous Hk)))))))
           "in.json" "fresh").
Defined.

End ImportProps.

(* ===================================================================== *)
(** ** Listing the snapshots *)
(* ===================================================================== *)

Module ListingProps.
Import JS Codegen Table Shapes.

#[local] Arguments Ascii.eqb : simpl never.

Lemma ends_with_refl suffix : ends_with suffix suffix = true.
Proof. destruct suffix; simpl; [done|]. by rewrite Ascii.eqb_refl, String.eqb_refl. Qed.

Lemma ends_with_cons suffix c r :
  ends_with suffix (String c r) =
  if String.eqb (String c r) suffix then true else ends_with suffix r.
Proof. reflexivity. Qed.

Lemma ends_with_app s suffix : ends_with suffix (s +:+ suffix) = true.
Proof.
  induction s as [|c s IH]; [apply ends_with_refl|].
  change (String c s +:+ suffix) with (String c (s +:+ suffix)).
  rewrite ends_with_cons, IH. by destruct (String.eqb _ _).
Qed.

(** [".json"] cannot begin inside a text and end inside a [".json"] that
    follows it. *)
Lemma no_straddle s :
  s <> EmptyString ->
  starts_with ".json" s = false ->
  starts_with ".json" (s +:+ ".json") = false.
Proof.
  intros Hne Hs.
  destruct s as [|c1 s]; [done|]. clear Hne.
  simpl in *.
  destruct (Ascii.eqb_spec "." c1) as [<-|]; [|done]. simpl in *.
  destruct s as [|c2 s]; [done|]. simpl in *.
  destruct (Ascii.eqb_spec "j" c2) as [<-|]; [|done]. simpl in *.
  destruct s as [|c3 s]; [done|]. simpl in *.
  destruct (Ascii.eqb_spec "s" c3) as [<-|]; [|done]. simpl in *.
  destruct s as [|c4 s]; [done|]. simpl in *.
  destruct (Ascii.eqb_spec "o" c4) as [<-|]; [|done]. simpl in *.
  destruct s as [|c5 s]; [done|]. simpl in *.
  destruct (Ascii.eqb_spec "n" c5) as [<-|]; [|done]. done.
Qed.

Lemma replace_first_cons pattern replacement c r :
  replace_first pattern replacement (String c r) =
  if starts_with pattern (String c r)
  then replacement +:+ drop_chars (String.length pattern) (String c r)
  else String c (replace_first pattern replacement r).
Proof. reflexivity. Qed.

Lemma replace_first_suffix s :
  occurs ".json" s = false ->
  replace_first ".json" EmptyString (s +:+ ".json") = s.
Proof.
  induction s as [|c s IH]; [done|].
  cbn [occurs]. intros [Hhead Htail]%orb_false_iff.
  change (String c s +:+ ".json") with (String c (s +:+ ".json")).
  rewrite replace_first_cons.
  change (String c (s +:+ ".json")) with (String c s +:+ ".json").
  rewrite no_straddle by done. by rewrite IH.
Qed.

Lemma snapshot_name_is_session_file sessionId :
  is_session_file (snapshot_name sessionId) = true.
Proof.
  unfold is_session_file, snapshot_name.
  apply andb_true_iff. split; [reflexivity|].
  apply (ends_with_app ("session-" +:+ sessionId)).
Qed.

Lemma session_id_of_snapshot_name sessionId :
  occurs ".json" sessionId = false ->
  session_id_of_file (snapshot_name sessionId) = sessionId.
Proof.
  intros Ho. unfold session_id_of_file, snapshot_name.
  change (replace_first "session-" EmptyString ("session-" +:+ sessionId +:+ ".json"))
    with (sessionId +:+ ".json").
  by apply replace_first_suffix.
Qed.

Section WithPath.
Context `{NodePath}.

(** X15.  A snapshot that is in the directory is listed under its
    session id: when the names read from the directory include
    [session-ID.json], and [ID] does not itself contain [".json"], then
    [ID] is among the ids [listSavedSessions] returns.  And whatever
    the reading of the directory comes to, [listSavedSessions] returns
    a list and does not throw. *)
Theorem listSavedSessions_lists_saved_ids this directory sessionId names w :
  occurs ".json" sessionId = false ->
  snapshot_name sessionId ∈ names ->
  (exists ids w',
      listSavedSessions this directory (Returned names) w = (Returned ids, w')
      /\ sessionId ∈ ids)
  /\ (forall listing, exists ids w',
        listSavedSessions this directory listing w = (Returned ids, w')).
Proof.
  intros Ho Hin. split.
  - eexists _, _. split; [reflexivity|].
    rewrite <- (session_id_of_snapshot_name sessionId Ho).
    apply list_elem_of_fmap_2, list_elem_of_filter. split; [|done].
    apply snapshot_name_is_session_file.
  - intros [names'|message]; eexists _, _; reflexivity.
Qed.

End WithPath.

Lemma listSavedSessions_lists_saved_ids_witness :
  (occurs ".json" "e" = false
   /\ snapshot_name "e" ∈ ["notes.txt"; "session-e.json"; "session-x.json"])
  /\ exists ids w',
       listSavedSessions (H := plain_paths) DEFAULT_OPTIONS None
         (Returned ["notes.txt"; "session-e.json"; "session-x.json"]) empty_world
       = (Returned ids, w')
       /\ "e" ∈ ids.
Proof.
  assert (snapshot_name "e" ∈ ["notes.txt"; "session-e.json"; "session-x.json"])
    as Hin by (unfold snapshot_name; simpl; set_solver).
  split; [split; [reflexivity | exact Hin]|].
  exact (proj1 (listSavedSessions_lists_saved_ids (H := plain_paths)
                  DEFAULT_OPTIONS None "e" _ empty_world eq_refl Hin)).
Defined.

(** The listing, computed: other files are left out; and an id that
    contains [".json"] does not come back as it was. *)
Example listing_computed :
  map session_id_of_file
    (filter (fun f => is_session_file f = true)
       ["notes.txt"; "session-e.json"; "session-x.json"; "session-.txt";
        "session-a.json.b.json"])
  = ["e"; "x"; "a.b.json"].
Proof. reflexivity. Qed.

End ListingProps.

(* ===================================================================== *)
(** ** Construction of a generator *)
(* ===================================================================== *)

Module ConstructionProps.
Import JS Codegen Table Shapes.

(** X16.  What validation guarantees.  If the constructor accepts an
    options object in which every key that is given holds a truthy
    value (for [includeComments]: anything but [undefined]), the options
    it stores are of the declared type: the two paths are strings and
    the flag is a boolean, each being the value given, or the default
    when the key is missing. *)
Theorem validated_options_have_the_declared_types options stored :
  new_PlaywrightGenerator (Some options) = Returned stored ->
  (forall v, raw_outputPath options = Some v -> truthy v = true) ->
  (forall v, raw_testNamePrefix options = Some v -> truthy v = true) ->
  raw_includeComments options <> Some VUndefined ->
  exists r,
    as_required stored = Some r
    /\ VStr (outputPath r) = default (VStr "tests") (raw_outputPath options)
    /\ VStr (testNamePrefix r) = default (VStr "VoltTest") (raw_testNamePrefix options)
    /\ VBool (includeComments r) = default (VBool true) (raw_includeComments options).
Proof.
  destruct options as [p n c]. unfold new_PlaywrightGenerator, validateOptions, read.
  cbn [default from_option raw_outputPath raw_testNamePrefix raw_includeComments].
  intros Hnew Hp Hn Hc.
  assert (exists ps, default (VStr "tests") p = VStr ps) as [ps Hps].
  { destruct p as [v|]; [|by eexists]. specialize (Hp v eq_refl). simpl in *.
    rewrite Hp in Hnew. destruct v; try discriminate. by eexists. }
  assert (exists ns, default (VStr "VoltTest") n = VStr ns) as [ns Hns].
  { destruct n as [v|]; [|by eexists]. specialize (Hn v eq_refl). simpl in *.
    rewrite Hn in Hnew.
    destruct (truthy (default VUndefined p) && _); [discriminate|].
    destruct v; try discriminate. by eexists. }
  assert (exists cs, default (VBool true) c = VBool cs) as [cs Hcs].
  { destruct c as [v|]; [|by eexists]. simpl in *.
    destruct (truthy (default VUndefined p) && _); [discriminate|].
    destruct (truthy (default VUndefined n) && _); [discriminate|].
    destruct v; try discriminate; try done. by eexists. }
  exists {| outputPath := ps; testNamePrefix := ns; includeComments := cs |}.
  destruct (_ && _); [discriminate|].
  destruct (_ && _); [discriminate|].
  destruct (_ && _); [discriminate|].
  injection Hnew as <-. unfold as_required. simpl in *.
  rewrite Hps, Hns, Hcs. done.
Qed.

Lemma validated_options_have_the_declared_types_witness :
  (new_PlaywrightGenerator
     (Some {| raw_outputPath := Some (VStr "out"); raw_testNamePrefix := None;
              raw_includeComments := Some (VBool false) |})
   = Returned {| stored_outputPath := VStr "out"; stored_testNamePrefix := VStr "VoltTest";
                 stored_includeComments := VBool false |})
  /\ exists r,
       as_required {| stored_outputPath := VStr "out";
                      stored_testNamePrefix := VStr "VoltTest";
                      stored_includeComments := VBool false |} = Some r
       /\ VStr (outputPath r) = VStr "out"
       /\ VStr (testNamePrefix r) = VStr "VoltTest"
       /\ VBool (includeComments r) = VBool false.
Proof.
  split; [reflexivity|].
  apply (validated_options_have_the_declared_types
           {| raw_outputPath := Some (VStr "out"); raw_testNamePrefix := None;
              raw_includeComments := Some (VBool false) |}
           _ eq_refl).
  - by intros v [= <-].
  - by intros v [=].
  - by intros [=].
Defined.

(** The singleton is built with no options: it holds the defaults. *)
Example singleton_options :
  match new_PlaywrightGenerator None with
  | Returned o => as_required o
  | Thrown _ => None
  end = Some DEFAULT_OPTIONS.
Proof. reflexivity. Qed.

(** A truthy value of another type is rejected; a falsy one passes and
    is stored, so that the stored options are not of the declared type. *)
Example number_as_outputPath :
  new_PlaywrightGenerator
    (Some {| raw_outputPath := Some (VNum (Int 7)); raw_testNamePrefix := None;
             raw_includeComments := None |})
  = Thrown "outputPath must be a string"
  /\ new_PlaywrightGenerator
       (Some {| raw_outputPath := Some VNull; raw_testNamePrefix := None;
                raw_includeComments := None |})
     = Returned {| stored_outputPath := VNull; stored_testNamePrefix := VStr "VoltTest";
                   stored_includeComments := VBool true |}.
Proof. split; reflexivity. Qed.

End ConstructionProps.

(* ===================================================================== *)
(** ** The code generation tools *)
(* ===================================================================== *)

Module ToolProps.
Import JS Codegen Table Shapes CodegenTools.

(** X17.  A session started through [startCodegenSessionTool] stores
    the tool's arguments as its options and nothing else: an argument
    that is not given is stored as [undefined], the generator's default
    does not take its place; whereas [createSession] called without
    options stores the defaults.  The tool puts the id of the new
    session in the context. *)
Theorem startCodegenSessionTool_stores_its_arguments args uuid now context w :
  startCodegenSessionTool args uuid now context w =
    (Returned
       (Result {| started_sessionId := uuid;
                  started_message :=
                    "Code generation session started. Browser actions will now be recorded for test generation." |},
        set_codegenSessionId (Some uuid) context),
     with_sessions
       (<[uuid := {| id := uuid; actions := []; startTime := now; endTime := None;
                     options := {| s_outputPath := start_outputPath args;
                                   s_testNamePrefix := start_testNamePrefix args;
                                   s_includeComments := start_includeComments args |} |}]>
          (activeSessions w)) w)
  /\ fst (createSession playwrightGenerator None uuid now w) =
       Returned {| id := uuid; actions := []; startTime := now; endTime := None;
                   options := default_session_options |}.
Proof. split; reflexivity. Qed.

(** *** Recording *)

Lemma recordActionTool_known sessionId s c context w :
  Browser.codegenSessionId context = Some sessionId ->
  truthy (VStr sessionId) = true ->
  activeSessions w !! sessionId = Some s ->
  recordActionTool
    {| record_toolName := call_toolName c; record_parameters := call_parameters c;
       record_sessionId := None |} (call_now c) context w
  = (Returned (recorded_reply sessionId (S (length (actions s))) c, context),
     with_sessions (<[sessionId := appended s [recorded_action c]]> (activeSessions w)) w).
Proof.
  intros Hctx Hid Hs.
  unfold recordActionTool, either_session, no_session.
  cbn [record_sessionId record_toolName record_parameters]. rewrite Hctx, Hid.
  cbn [negb default from_option]. unfold bind at 1.
  rewrite (TranslationSpec.addAction_known _ s) by done.
  unfold bind, getSession, sessions_get, ret.
  cbn [activeSessions with_sessions]. rewrite lookup_insert_eq.
  unfold recorded_reply, recorded_action, appended. cbn [actions].
  rewrite length_app. cbn [length]. rewrite Nat.add_1_r. reflexivity.
Qed.

(** X18.  Recording through the tool, the session being the one of the
    context: the calls are appended to the session in order, each with
    the clock reading of its call and no result, and the k-th reply
    reports k more actions than the session had; the context is not
    changed. *)
Theorem recordActionTool_counts_and_appends calls : forall sessionId s context w,
  Browser.codegenSessionId context = Some sessionId ->
  truthy (VStr sessionId) = true ->
  activeSessions w !! sessionId = Some s ->
  record_with_tool calls context w =
  (Returned (recorded_replies sessionId (length (actions s)) calls),
   with_sessions
     (<[sessionId := appended s (map recorded_action calls)]> (activeSessions w)) w).
Proof.
  induction calls as [|c rest IH]; intros sessionId s context w Hctx Hid Hs.
  - cbn [record_with_tool recorded_replies map]. unfold ret.
    by rewrite TranslationSpec.appended_nil, insert_id,
      TranslationSpec.with_sessions_id.
  - cbn [record_with_tool]. unfold bind at 1.
    rewrite (recordActionTool_known _ s) by done. cbn [fst snd].
    unfold bind at 1.
    rewrite (IH sessionId (appended s [recorded_action c]))
      by (done || (simpl; apply lookup_insert_eq)).
    unfold ret. cbn [recorded_replies map activeSessions with_sessions].
    rewrite TranslationSpec.appended_appended, insert_insert_eq.
    unfold appended at 1. cbn [actions]. rewrite length_app. cbn [length].
    rewrite Nat.add_1_r. reflexivity.
Qed.

Lemma recordActionTool_counts_and_appends_witness :
  (Browser.codegenSessionId (context_of (Some "e")) = Some "e"
   /\ truthy (VStr "e") = true
   /\ activeSessions world_example !! "e" = Some session_example)
  /\ fst (record_with_tool example_calls (context_of (Some "e")) world_example)
     = Returned (recorded_replies "e" 3 example_calls).
Proof.
  split; [repeat split|].
  exact (f_equal fst
           (recordActionTool_counts_and_appends example_calls "e" session_example
              (context_of (Some "e")) world_example eq_refl eq_refl eq_refl)).
Defined.

(** X19.  [recordActionTool] fails softly.  With no session id in the
    arguments and none in the context, and with an id the registry does
    not hold, it returns an error reply; it does not throw, and the
    world and the context are as they were. *)
Theorem recordActionTool_fails_softly args now context w :
  (no_session (either_session (record_sessionId args) context) = true ->
   recordActionTool args now context w =
   (Returned (Failure "No active code generation session found.", context), w))
  /\ (forall sessionId,
        either_session (record_sessionId args) context = Some sessionId ->
        truthy (VStr sessionId) = true ->
        activeSessions w !! sessionId = None ->
        recordActionTool args now context w =
        (Returned
           (Failure ("Failed to record action: session with ID " +:+ sessionId
                     +:+ " not found."), context), w)).
Proof.
  split.
  - intros Hno. unfold recordActionTool. by rewrite Hno.
  - intros sessionId Hpick Hid Hs. unfold recordActionTool, no_session.
    rewrite Hpick, Hid. cbn [negb default from_option]. unfold bind at 1.
    rewrite SessionProps.addAction_unknown by done. reflexivity.
Qed.

(** *** Generating and ending *)

Section WithPath.
Context `{NodePath}.

(** X20.  [generateTestTool] never throws and never changes the
    context: whatever the arguments, the context and the world, it
    returns a reply, an error reply when there is no session or when
    generation fails. *)
Theorem generateTestTool_never_throws args now context w :
  exists r w', generateTestTool args now context w = (Returned (r, context), w').
Proof.
  unfold generateTestTool.
  destruct (no_session _); [by eexists _, _|].
  unfold bind at 1. unfold getSession, sessions_get.
  destruct (activeSessions w !! _) as [s|]; [|by eexists _, _].
  unfold bind at 1.
  destruct ((if not_ended s then endSession _ now else ret None) w)
    as [[o|e] w1] eqn:Hend.
  - unfold try_catch, bind.
    destruct (generateTest _ _ w1) as [[r|e] w2]; [|by eexists _, _].
    destruct (saveSessionToDisk _ _ _ w2) as [[p|e] w3]; by eexists _, _.
  - exfalso. destruct (not_ended s); [|discriminate].
    unfold endSession, bind, sessions_get in Hend.
    destruct (activeSessions w !! _); discriminate.
Qed.



(** When the snapshot cannot be written, [endCodegenSessionTool]
    without a test does not reply: the rejection of the write is thrown
    to the caller of the tool, the session being ended already. *)
Lemma endCodegenSessionTool_throws_when_save_is_rejected
    args now context sessionId s w :
  either_session (end_sessionId args) context = Some sessionId ->
  truthy (VStr sessionId) = true ->
  activeSessions w !! sessionId = Some s ->
  end_generateTest args = false ->
  path_dirname (snapshot_path playwrightGenerator None (id s))
    ∉ ({[sessions_dir playwrightGenerator None]} ∪ directories w : gset string) ->
  fst (endCodegenSessionTool args now context w) =
  Thrown ("ENOENT: no such file or directory, open '" +:+
          snapshot_path playwrightGenerator None (id s) +:+ "'").
Proof.
  intros Hpick Hid Hs Hflag Hdir.
  unfold endCodegenSessionTool, no_session. rewrite Hpick, Hid, Hflag.
  cbn [negb]. change (default EmptyString (Some sessionId)) with sessionId.
  unfold bind at 1.
  unfold getSession, sessions_get. rewrite Hs. unfold bind at 1.
  rewrite (SessionProps.endSession_known _ s) by done.
  unfold bind.
  rewrite (RegistrySpec.saveSessionToDisk_rejected _ _ _ (ended_at now s))
    by ((simpl; apply lookup_insert_eq) || done).
  reflexivity.
Qed.


End WithPath.




End ToolProps.

(* ===================================================================== *)
(** ** More on the shared browser *)
(* ===================================================================== *)

Module LifecycleProps.
Import JS Browser BrowserTools LifecycleShapes.

(** X24.  [ensureBrowser] never leaves [isInitializing] set: when the
    flag is clear at the call it is clear after it, whether the launch
    succeeds, fails half way or is not needed. *)
Theorem ensureBrowser_clears_the_flag pw context p :
  isInitializing p = false ->
  isInitializing (snd (ensureBrowser pw context p)) = false.
Proof.
  intros Hflag. unfold ensureBrowser, launch, launch_failed, open_page.
  rewrite Hflag.
  destruct (browser context) as [b|];
    [destruct (isConnected p b); cbn [negb];
     [destruct (page context) as [pg|]; [destruct (isClosed p pg)|]|]|];
    destruct (launch_ok pw), (newContext_ok pw), (newPage_ok pw); done.
Qed.

Lemma ensureBrowser_clears_the_flag_witness :
  isInitializing fresh_process = false
  /\ isInitializing (snd (ensureBrowser launch_fails fresh_context fresh_process)) = false.
Proof.
  split; [reflexivity|].
  exact (ensureBrowser_clears_the_flag launch_fails fresh_context fresh_process eq_refl).
Defined.

(** *** Coherence of the context *)

Lemma pages_live_write l text p : pages_live p -> pages_live (write l text p).
Proof. done. Qed.

Lemma pages_live_new_page b p :
  pages_live p -> b ∈ connected p -> pages_live (snd (new_page b p)).
Proof.
  intros Hl Hb pg b'. simpl. rewrite lookup_insert.
  case_decide; [by intros [= <-] | apply Hl].
Qed.

Lemma pages_live_new_browser p : pages_live p -> pages_live (snd (new_browser p)).
Proof. intros Hl pg b' Hpg. simpl in *. apply elem_of_union_r, (Hl pg b' Hpg). Qed.

Lemma launch_coherent pw context p :
  pages_live p ->
  (forall pg b, page context = Some pg -> open_pages p !! pg = Some b -> False) ->
  let r := launch pw context p in
  coherent (snd (fst r)) (snd r)
  /\ forall b pg, fst (fst r) = Handles b pg ->
       browser (snd (fst r)) = Some b /\ page (snd (fst r)) = Some pg
       /\ b ∈ connected (snd r) /\ open_pages (snd r) !! pg = Some b.
Proof.
  intros Hl Hclosed. cbv zeta. unfold launch, launch_failed.
  destruct (launch_ok pw); cbn [negb].
  2: { split; [|done]. split; [done|]. intros pg b Hpg Hopen. simpl in *.
       by destruct (Hclosed pg b). }
  destruct (newContext_ok pw); cbn [negb].
  2: { split; [|done]. split.
       - intros pg b Hpg. simpl in *. apply elem_of_union_r, (Hl pg b Hpg).
       - intros pg b Hpg Hopen. simpl in *. by destruct (Hclosed pg b). }
  destruct (newPage_ok pw); cbn [negb].
  2: { split; [|done]. split.
       - intros pg b Hpg. simpl in *. apply elem_of_union_r, (Hl pg b Hpg).
       - intros pg b Hpg Hopen. simpl in *. by destruct (Hclosed pg b). }
  simpl. split; [split|].
  - intros pg b. simpl. rewrite lookup_insert.
    case_decide; [intros [= <-]; set_solver|].
    intros Hpg. apply elem_of_union_r, (Hl pg b Hpg).
  - intros pg b [= <-]. simpl. rewrite lookup_insert_eq. by intros [= <-].
  - intros b pg [= <- <-]. simpl. rewrite lookup_insert_eq.
    repeat split. set_solver.
Qed.

Lemma open_page_coherent pw b context p :
  pages_live p -> browser context = Some b -> b ∈ connected p ->
  (forall pg b', page context = Some pg -> open_pages p !! pg = Some b' -> False) ->
  let r := open_page pw b context p in
  coherent (snd (fst r)) (snd r)
  /\ forall b' pg, fst (fst r) = Handles b' pg ->
       browser (snd (fst r)) = Some b' /\ page (snd (fst r)) = Some pg
       /\ b' ∈ connected (snd r) /\ open_pages (snd r) !! pg = Some b'.
Proof.
  intros Hl Hb Hconn Hclosed. cbv zeta. unfold open_page.
  destruct (newPage_ok pw); cbn [negb].
  2: { split; [|done]. split; [done|]. intros pg b' Hpg Hopen.
       by destruct (Hclosed pg b'). }
  simpl. split; [split|].
  - intros pg b'. simpl. rewrite lookup_insert.
    case_decide; [by intros [= <-] | apply Hl].
  - intros pg b' [= <-]. simpl. rewrite lookup_insert_eq. by intros [= <-].
  - intros b' pg [= <- <-]. simpl. by rewrite lookup_insert_eq.
Qed.

Lemma ensureBrowser_coherent pw context p :
  coherent context p ->
  let r := ensureBrowser pw context p in
  coherent (snd (fst r)) (snd r)
  /\ forall b pg, fst (fst r) = Handles b pg ->
       browser (snd (fst r)) = Some b /\ page (snd (fst r)) = Some pg
       /\ b ∈ connected (snd r) /\ open_pages (snd r) !! pg = Some b.
Proof.
  intros [Hl Hin]. cbv zeta. unfold ensureBrowser.
  destruct (isInitializing p); [by split|].
  destruct (browser context) as [b|] eqn:Hb.
  - destruct (isConnected p b) eqn:Hconn; cbn [negb].
    + apply bool_decide_eq_true in Hconn.
      destruct (page context) as [pg|] eqn:Hpg.
      * destruct (isClosed p pg) eqn:Hclosed.
        -- apply bool_decide_eq_true in Hclosed.
           apply open_page_coherent; try done.
           intros pg' b' Heq Hopen. rewrite Hpg in Heq. injection Heq as <-.
           by rewrite Hclosed in Hopen.
        -- apply bool_decide_eq_false in Hclosed.
           split; [by split|]. intros b' pg' [= <- <-]. simpl.
           destruct (open_pages p !! pg) as [b'|] eqn:Hopen; [|done].
           pose proof (Hin pg b' Hpg Hopen) as Hown. rewrite Hb in Hown.
           injection Hown as <-. done.
      * apply open_page_coherent; try done.
        intros pg b' Heq. by rewrite Hpg in Heq.
    + apply bool_decide_eq_false in Hconn.
      apply launch_coherent; [done|].
      intros pg b' Hpg Hopen.
      pose proof (Hin pg b' Hpg Hopen) as Hown. rewrite Hb in Hown.
      injection Hown as <-. apply Hconn, (Hl pg b Hopen).
  - apply launch_coherent; [done|].
    intros pg b' Hpg Hopen.
    pose proof (Hin pg b' Hpg Hopen) as Hown. by rewrite Hb in Hown.
Qed.

Lemma closeBrowserTool_coherent how context p :
  coherent context p ->
  coherent (snd (fst (closeBrowserTool how context p)))
           (snd (closeBrowserTool how context p)).
Proof.
  intros [Hl Hin]. unfold closeBrowserTool.
  destruct (browser context) as [b|] eqn:Hb; [|by split].
  cbn [fst snd resetBrowserState].
  destruct (isConnected p b); [destruct how|]; try by split.
  split.
  - intros pg b'. simpl. intros [Hpg Hne]%map_lookup_filter_Some.
    simpl in Hne. apply elem_of_difference. split; [by apply (Hl pg)|set_solver].
  - intros pg b' Hpg. simpl. intros [Hopen _]%map_lookup_filter_Some.
    by apply (Hin pg).
Qed.

(** X25.  The handles fit together.  Call a context coherent when every
    open page lives in a connected browser and the page of the context,
    if open, lives in the browser of the context.  [ensureBrowser] and
    [closeBrowserTool] keep a context coherent, whatever Playwright
    does; and the handles [ensureBrowser] returns are those of the
    context, the browser being connected and the page being open in
    that very browser. *)
Theorem ensureBrowser_returns_a_live_pair pw how context p :
  coherent context p ->
  let r := ensureBrowser pw context p in
  coherent (snd (fst r)) (snd r)
  /\ coherent (snd (fst (closeBrowserTool how context p)))
              (snd (closeBrowserTool how context p))
  /\ forall b pg, fst (fst r) = Handles b pg ->
       browser (snd (fst r)) = Some b /\ page (snd (fst r)) = Some pg
       /\ b ∈ connected (snd r) /\ open_pages (snd r) !! pg = Some b.
Proof.
  intros Hco. cbv zeta.
  destruct (ensureBrowser_coherent pw context p Hco) as [Hkeep Hlive].
  split; [exact Hkeep|]. split; [|exact Hlive].
  by apply closeBrowserTool_coherent.
Qed.

Lemma coherent_ready : coherent ready_context ready_process.
Proof.
  split.
  - intros pg b. unfold ready_process; simpl.
    intros [_ Hb]%lookup_singleton_Some. subst b. set_solver.
  - intros pg b _. unfold ready_process; simpl.
    intros [_ Hb]%lookup_singleton_Some. by subst b.
Qed.

Lemma ensureBrowser_returns_a_live_pair_witness :
  coherent ready_context ready_process
  /\ coherent (snd (fst (ensureBrowser all_ok ready_context ready_process)))
              (snd (ensureBrowser all_ok ready_context ready_process)).
Proof.
  split; [apply coherent_ready|].
  exact (proj1 (ensureBrowser_returns_a_live_pair all_ok CloseResolves
                  ready_context ready_process coherent_ready)).
Defined.

(** *** Pages, closing and failures *)

(** X26.  A page that is gone is replaced without a relaunch: when the
    browser of the context is connected but the context has no page, or
    a closed one, [ensureBrowser] opens a new page in that browser and
    returns it with the same browser; the launcher is not called. *)
Theorem ensureBrowser_reopens_a_page pw context p b :
  isInitializing p = false ->
  browser context = Some b ->
  isConnected p b = true ->
  match page context with Some pg => isClosed p pg | None => true end = true ->
  newPage_ok pw = true ->
  ensureBrowser pw context p =
    (Handles b (next_handle p), with_page (next_handle p) context,
     write Codegen.Log "Created new page in existing browser" (snd (new_page b p)))
  /\ launches (snd (ensureBrowser pw context p)) = launches p
  /\ open_pages (snd (ensureBrowser pw context p)) !! next_handle p = Some b.
Proof.
  intros Hflag Hb Hconn Hpage Hok.
  assert (ensureBrowser pw context p =
          (Handles b (next_handle p), with_page (next_handle p) context,
           write Codegen.Log "Created new page in existing browser"
             (snd (new_page b p)))) as ->.
  { unfold ensureBrowser, open_page. rewrite Hflag, Hb, Hconn, Hok. cbn [negb].
    destruct (page context) as [pg|]; [by rewrite Hpage|done]. }
  split; [done|]. split; [done|]. simpl. apply lookup_insert_eq.
Qed.

Lemma ensureBrowser_reopens_a_page_witness :
  (isInitializing page_closed_process = false
   /\ browser ready_context = Some 0%nat
   /\ isConnected page_closed_process 0%nat = true
   /\ isClosed page_closed_process 1%nat = true
   /\ newPage_ok all_ok = true)
  /\ fst (fst (ensureBrowser all_ok ready_context page_closed_process))
     = Handles 0%nat 2%nat.
Proof.
  split; [repeat split|].
  exact (f_equal (fun r => fst (fst r))
           (proj1 (ensureBrowser_reopens_a_page all_ok ready_context
                     page_closed_process 0%nat eq_refl eq_refl eq_refl eq_refl
                     eq_refl))).
Defined.

(** X27.  After [closeBrowserTool] with a close that succeeds, the next
    [ensureBrowser] launches again: although the context still holds
    the old handles, the old browser is no longer connected, and the
    call returns a browser that is, with an open page, after exactly one
    more launch. *)
Theorem closed_browser_is_launched_again pw context p b :
  isInitializing p = false ->
  browser context = Some b ->
  isConnected p b = true ->
  launch_ok pw = true -> newContext_ok pw = true -> newPage_ok pw = true ->
  let closed := closeBrowserTool CloseResolves context p in
  let again := ensureBrowser pw (snd (fst closed)) (snd closed) in
  fst (fst closed) = Returned "Browser closed successfully"
  /\ snd (fst closed) = context
  /\ isConnected (snd closed) b = false
  /\ exists b' pg',
       fst (fst again) = Handles b' pg'
       /\ isConnected (snd again) b' = true
       /\ isClosed (snd again) pg' = false
       /\ launches (snd again) = S (launches p).
Proof.
  intros Hflag Hb Hconn Hl Hc Hp. cbv zeta.
  unfold closeBrowserTool. rewrite Hb, Hconn. cbn [fst snd resetBrowserState].
  assert (isConnected (write Codegen.Log "Browser state reset" (close_browser b p)) b
          = false) as Hgone.
  { unfold isConnected. apply bool_decide_eq_false. simpl.
    rewrite elem_of_difference, elem_of_singleton. by intros [_ ?]. }
  split; [done|]. split; [done|]. split; [done|].
  unfold ensureBrowser, launch. cbn [isInitializing write close_browser].
  rewrite Hflag, Hb, Hgone, Hl, Hc, Hp. cbn [negb].
  eexists _, _. split; [reflexivity|]. simpl.
  unfold isConnected, isClosed. simpl.
  rewrite bool_decide_eq_true, bool_decide_eq_false, lookup_insert_eq.
  repeat split; [set_solver|done].
Qed.

Lemma closed_browser_is_launched_again_witness :
  (isInitializing ready_process = false /\ browser ready_context = Some 0%nat
   /\ isConnected ready_process 0%nat = true)
  /\ exists b' pg',
       fst (fst (ensureBrowser all_ok
                   (snd (fst (closeBrowserTool CloseResolves ready_context ready_process)))
                   (snd (closeBrowserTool CloseResolves ready_context ready_process))))
       = Handles b' pg'.
Proof.
  split; [repeat split|].
  destruct (closed_browser_is_launched_again all_ok ready_context ready_process
              0%nat eq_refl eq_refl eq_refl eq_refl eq_refl eq_refl)
    as (_ & _ & _ & b' & pg' & Hr & _).
  by exists b', pg'.
Defined.

(** X28.  A close that fails goes unnoticed.  When [browser.close()]
    rejects or throws, [closeBrowserTool] still reports
    [Browser closed successfully]; the browser stays connected, and the
    next [ensureBrowser] hands out the same browser and page again
    without a launch. *)
Theorem failed_close_is_reported_as_success how pw context p b pg :
  how <> CloseResolves ->
  isInitializing p = false ->
  browser context = Some b -> page context = Some pg ->
  isConnected p b = true -> isClosed p pg = false ->
  let closed := closeBrowserTool how context p in
  fst (fst closed) = Returned "Browser closed successfully"
  /\ isConnected (snd closed) b = true
  /\ ensureBrowser pw (snd (fst closed)) (snd closed)
     = (Handles b pg, context, snd closed)
  /\ launches (snd closed) = launches p.
Proof.
  intros Hhow Hflag Hb Hpg Hconn Hopen. cbv zeta.
  unfold closeBrowserTool. rewrite Hb, Hconn. cbn [fst snd resetBrowserState].
  destruct how; [done| |];
    (split; [done|]; split; [done|]; split; [|done];
     unfold ensureBrowser; cbn [isInitializing write];
     rewrite Hflag, Hb, Hpg;
     change (isConnected (write _ _ (write _ _ p)) b) with (isConnected p b);
     change (isClosed (write _ _ (write _ _ p)) pg) with (isClosed p pg);
     by rewrite Hconn, Hopen).
Qed.

Lemma failed_close_is_reported_as_success_witness :
  (CloseRejects <> CloseResolves
   /\ isInitializing ready_process = false
   /\ browser ready_context = Some 0%nat /\ page ready_context = Some 1%nat
   /\ isConnected ready_process 0%nat = true /\ isClosed ready_process 1%nat = false)
  /\ fst (fst (closeBrowserTool CloseRejects ready_context ready_process))
     = Returned "Browser closed successfully".
Proof.
  split; [repeat split; discriminate|].
  exact (proj1 (failed_close_is_reported_as_success CloseRejects all_ok
                  ready_context ready_process 0%nat 1%nat
                  ltac:(discriminate) eq_refl eq_refl eq_refl eq_refl eq_refl)).
Defined.

(** X29.  A failed launch is not retried by the call, but by the next
    one.  When the launch fails, [ensureBrowser] fails with the context
    unchanged, after one call of the launcher; a following call, with
    Playwright answering, launches once more and returns handles. *)
Theorem failed_launch_is_tried_again_by_the_next_call pw1 pw2 context p :
  isInitializing p = false ->
  holds_connected_browser context p = false ->
  launch_ok pw1 = false ->
  launch_ok pw2 = true -> newContext_ok pw2 = true -> newPage_ok pw2 = true ->
  let first := ensureBrowser pw1 context p in
  let second := ensureBrowser pw2 (snd (fst first)) (snd first) in
  fst first = (Failed "launch", context)
  /\ launches (snd first) = S (launches p)
  /\ connected (snd first) = connected p
  /\ exists b pg,
       fst (fst second) = Handles b pg
       /\ launches (snd second) = S (S (launches p)).
Proof.
  intros Hflag Hnone Hl1 Hl2 Hc2 Hp2. cbv zeta.
  set (p1 := set_initializing false
               (write Codegen.Error "Failed to initialize browser:"
                  (count_launch
                     (write Codegen.Log "Launching new browser instance..."
                        (set_initializing true p))))).
  assert (ensureBrowser pw1 context p = (Failed "launch", context, p1)) as ->.
  { unfold ensureBrowser, holds_connected_browser in *. rewrite Hflag.
    unfold launch, launch_failed. rewrite Hl1. cbn [negb].
    destruct (browser context); [by rewrite Hnone|done]. }
  cbn [fst snd]. split; [done|]. split; [done|]. split; [done|].
  assert (ensureBrowser pw2 context p1 = launch pw2 context p1) as ->.
  { unfold ensureBrowser, holds_connected_browser in *.
    change (isInitializing p1) with false.
    destruct (browser context) as [b|]; [|done].
    change (isConnected p1 b) with (isConnected p b). by rewrite Hnone. }
  unfold launch. rewrite Hl2, Hc2, Hp2. cbn [negb]. by eexists _, _.
Qed.

Lemma failed_launch_is_tried_again_by_the_next_call_witness :
  (isInitializing fresh_process = false
   /\ holds_connected_browser fresh_context fresh_process = false
   /\ launch_ok launch_fails = false)
  /\ fst (ensureBrowser launch_fails fresh_context fresh_process)
     = (Failed "launch", fresh_context).
Proof.
  split; [repeat split|].
  exact (proj1 (failed_launch_is_tried_again_by_the_next_call launch_fails all_ok
                  fresh_context fresh_process
                  eq_refl eq_refl eq_refl eq_refl eq_refl eq_refl)).
Defined.

(** X30.  [safeBrowserOperation] runs the operation on a live page or
    not at all.  From a coherent context, one of three things happens.
    [ensureBrowser] returned handles: the operation is run once, on the
    page returned, which is then open in a connected browser, and its
    result or its error is what the call comes to.  [ensureBrowser]
    failed: the call raises that error and logs it, and no operation is
    run, the call comes to the same whatever the operation is.
    [ensureBrowser] is waiting for an initialization in progress: the
    call is blocked, and again no operation is run. *)
Theorem safeBrowserOperation_runs_on_a_live_page
    {A : Type} pw context (operation : handle -> Process -> outcome A * Process) p :
  coherent context p ->
  (exists b pg context1 p1,
      ensureBrowser pw context p = (Handles b pg, context1, p1)
      /\ b ∈ connected p1 /\ open_pages p1 !! pg = Some b
      /\ safeBrowserOperation pw context operation p =
           match operation pg p1 with
           | (Returned a, p2) => (Done a, context1, p2)
           | (Thrown error, p2) =>
               (Raised error, context1,
                write Codegen.Error "Browser operation failed:" p2)
           end)
  \/ (exists error context1 p1,
        ensureBrowser pw context p = (Failed error, context1, p1)
        /\ forall other : handle -> Process -> outcome A * Process,
             safeBrowserOperation pw context other p
             = (Raised error, context1,
                write Codegen.Error "Browser operation failed:" p1))
  \/ (exists context1 p1,
        ensureBrowser pw context p = (Waiting, context1, p1)
        /\ forall other : handle -> Process -> outcome A * Process,
             safeBrowserOperation pw context other p = (Blocked, context1, p1)).
Proof.
  intros Hco.
  destruct (ensureBrowser_coherent pw context p Hco) as [_ Hlive].
  unfold safeBrowserOperation.
  destruct (ensureBrowser pw context p) as [[[b pg|error|] context1] p1] eqn:Hens.
  - left. exists b, pg, context1, p1.
    destruct (Hlive b pg eq_refl) as (_ & _ & Hb & Hpg). simpl in *.
    split; [done|]. split; [done|]. split; [done|].
    by destruct (operation pg p1) as [[a|e] p2].
  - right. left. by exists error, context1, p1.
  - right. right. by exists context1, p1.
Qed.

Lemma safeBrowserOperation_runs_on_a_live_page_witness :
  coherent ready_context ready_process
  /\ safeBrowserOperation all_ok ready_context read_page ready_process
     = (Done 1%nat, ready_context, ready_process).
Proof.
  split; [apply coherent_ready|].
  destruct (safeBrowserOperation_runs_on_a_live_page all_ok ready_context
              read_page ready_process coherent_ready)
    as [(b & pg & c1 & p1 & Hens & _ & _ & Hrun)|[Hfailed|Hwaiting]];
    reflexivity.
Defined.

End LifecycleProps.
